(** * RCS bulk messaging: the message and campaign aggregates, the
      delivery and campaign services and the repositories under them,
      embedded from

      - apps/core/domain/message.py
      - apps/core/domain/campaign.py
      - apps/core/services/delivery_service.py
      - apps/core/services/campaign_service.py
      - apps/core/ports/queue.py, apps/core/ports/aggregator.py
      - apps/adapters/queue/rabbitmq.py (RabbitMQAdapter.schedule)
      - apps/adapters/db/repositories/campaign_repo.py, message_repo.py and
        event_repo.py (the mappings between objects and rows, [save],
        the lookups and [save_event])

      Conventions of the embedding.

      - A Python [int] is a [Z]; a [str] is a [string] (a sequence of 8-bit
        characters, so [str.isdigit] is the test for '0'..'9');
        [Optional[T]] is [option T]; a [datetime] is a [Z] (seconds on the
        UTC time line). A [datetime] that comes from a caller is a
        [PyDatetime], which also says whether the value is aware or naive.
      - A method that mutates [self] and cannot raise is a function to the
        new object; one that may raise is a computation [M t unit]: from
        the object to the outcome ([Ok] or [Raise] of the exception) and
        the object as the call leaves it.
      - Every [datetime.now(timezone.utc)] is the argument [now] of the
        operation; [uuid4()] is an argument as well.
      - The interpolated part of an exception's message is not modelled;
        the exception class and the fixed text are. *)

From stdpp Require Import base gmap strings list.
From Stdlib Require Import ZArith Ascii String Lia.

Local Open Scope string_scope.
Local Open Scope Z_scope.

(** ** Values shared by the modules *)

Definition UUID : Type := string.
Definition datetime : Type := Z.

(** A [datetime] that a caller passes in: its reading of the clock, and
    whether it carries a [tzinfo] (an aware datetime) or not (a naive one).
    Python orders two datetimes only when both are aware or both are naive;
    between an aware and a naive one [<=] raises TypeError. The readings
    [datetime.now(timezone.utc)] are aware, those of [datetime.utcnow()]
    naive. *)
Record PyDatetime : Type := mkPyDatetime {
  reading : datetime;
  aware : bool
}.

(** Python exceptions raised by the embedded code. [RateLimitException] is a
    subclass of [AggregatorException]; [OtherException] stands for any
    exception class that is neither. *)
Inductive Exception : Type :=
  | ValueError (msg : string)
  | InvalidStateTransition (msg : string)
  | AggregatorException (msg : string) (error_code : option string)
                        (retry_after : option Z)
  | RateLimitException (msg : string) (error_code : option string)
                       (retry_after : option Z)
  | OtherException (msg : string).

Inductive result (A : Type) : Type :=
  | Ok (a : A)
  | Raise (e : Exception).
Arguments Ok {A} a.
Arguments Raise {A} e.

(** The TypeError of ordering an aware and a naive datetime, and the
    AttributeError of reading an attribute on a dict. *)
Definition naive_aware_error : Exception :=
  OtherException
    "TypeError: can't compare offset-naive and offset-aware datetimes".

Definition attribute_error : Exception :=
  OtherException "AttributeError: 'dict' object has no attribute".

(** Truth value of an [Optional[str]]: [None] and the empty string are
    false. *)
Definition truthy (o : option string) : bool :=
  match o with
  | Some s => negb (String.eqb s "")
  | None => false
  end.

(** The line feed of the f-strings. *)
Definition nl : string := String "010"%char EmptyString.

(** ** A state-and-exception monad

    A computation reads and writes a state [S] and returns or raises; the
    state at the raise is kept, as the handler of a Python [try] sees the
    objects as they were when the exception left the body. A method that
    mutates [self] and may raise is a computation on the object. *)
Definition M (S A : Type) : Type := S -> result A * S.

Definition ret {S A} (a : A) : M S A := fun s => (Ok a, s).

Definition bind {S A B} (c : M S A) (k : A -> M S B) : M S B :=
  fun s =>
    match c s with
    | (Ok a, s') => k a s'
    | (Raise e, s') => (Raise e, s')
    end.

Definition raise {S A} (e : Exception) : M S A := fun s => (Raise e, s).

Definition modify {S} (f : S -> S) : M S unit := fun s => (Ok tt, f s).

(** [try: body except Exception as e: handler(e)]. *)
Definition try_except {S A} (body : M S A) (handler : Exception -> M S A)
    : M S A :=
  fun s =>
    match body s with
    | (Ok a, s') => (Ok a, s')
    | (Raise e, s') => handler e s'
    end.

(** The outcome of a call that returns or raises, inside a computation. *)
Definition lift {S A} (r : result A) : M S A :=
  match r with Ok a => ret a | Raise e => raise e end.

Notation "x <- c ;; k" := (bind c (fun x => k))
  (at level 100, c at next level, right associativity).
Notation "c ;;; k" := (bind c (fun _ => k))
  (at level 100, right associativity).

(** ** message.py: enumerations *)

Module MessageStatus.
Inductive t : Type :=
  | PENDING | QUEUED | SENT | DELIVERED | READ | FAILED
  | FALLBACK_SENT | FALLBACK_DELIVERED | EXPIRED.
#[global] Instance status_eq_dec : EqDecision t.
Proof. solve_decision. Defined.
End MessageStatus.

Module MessageChannel.
Inductive t : Type := RCS | SMS | WHATSAPP.
#[global] Instance channel_eq_dec : EqDecision t.
Proof. solve_decision. Defined.
End MessageChannel.

Module FailureReason.
Inductive t : Type :=
  | INVALID_NUMBER | RCS_NOT_SUPPORTED | NETWORK_ERROR | RATE_LIMITED
  | BLOCKED | EXPIRED | UNKNOWN.
#[global] Instance reason_eq_dec : EqDecision t.
Proof. solve_decision. Defined.
End FailureReason.

(** ** message.py: content *)

Record SuggestedAction : Type := mkSuggestedAction {
  sa_type : string;
  sa_text : string;
  postback_data : option string;
  sa_url : option string;
  phone_number : option string
}.

Record RichCard : Type := mkRichCard {
  title : option string;
  description : option string;
  media_url : option string;
  media_type : option string;
  media_height : string;
  card_suggestions : list SuggestedAction
}.

Module MessageContent.
Record t : Type := mk {
  text : string;
  rich_card : option RichCard;
  suggestions : list SuggestedAction
}.

(** One turn of the loop over [self.suggestions]. *)
Definition append_suggestion (sms_text : string) (s : SuggestedAction)
  : string :=
  if String.eqb (sa_type s) "url" && truthy (sa_url s)
  then sms_text ++ nl ++ sa_text s ++ ": " ++ default "" (sa_url s)
  else sms_text.

(** [MessageContent.to_sms_text], message.py lines 112-130: the method
    that [self.content.to_sms_text()] reaches. *)
Definition to_sms_text (self : t) : string :=
  let sms_text := text self in
  let sms_text :=
    match rich_card self with
    | Some card =>
        if truthy (media_url card)
        then sms_text ++ nl ++ default "" (media_url card)
        else sms_text
    | None => sms_text
    end in
  fold_left append_suggestion (suggestions self) sms_text.
End MessageContent.

Record DeliveryAttempt : Type := mkDeliveryAttempt {
  attempt_number : Z;
  da_channel : MessageChannel.t;
  attempted_at : datetime;
  da_status : MessageStatus.t;
  da_aggregator : option string;
  error_code : option string;
  error_message : option string;
  da_external_id : option string
}.

(** ** message.py: the Message aggregate *)

Module Message.
Record t : Type := mk {
  id : UUID;
  campaign_id : UUID;
  tenant_id : UUID;
  recipient_phone : string;
  content : MessageContent.t;
  status : MessageStatus.t;
  channel : MessageChannel.t;
  priority : string;
  created_at : datetime;
  updated_at : datetime;
  queued_at : option datetime;
  sent_at : option datetime;
  delivered_at : option datetime;
  read_at : option datetime;
  failed_at : option datetime;
  expires_at : datetime;
  retry_count : Z;
  max_retries : Z;
  fallback_enabled : bool;
  fallback_triggered : bool;
  delivery_attempts : list DeliveryAttempt;
  aggregator : option string;
  external_id : option string;
  failure_reason : option FailureReason.t;
  metadata : gmap string string
}.

(** Assignment to one attribute: [self.f = v]. *)
Definition set_status (v : MessageStatus.t) (self : t) : t :=
  mk (id self) (campaign_id self) (tenant_id self) (recipient_phone
     self) (content self) v (channel self) (priority self) (created_at
     self) (updated_at self) (queued_at self) (sent_at self)
     (delivered_at self) (read_at self) (failed_at self) (expires_at
     self) (retry_count self) (max_retries self) (fallback_enabled self)
     (fallback_triggered self) (delivery_attempts self) (aggregator
     self) (external_id self) (failure_reason self) (metadata self).
Definition set_channel (v : MessageChannel.t) (self : t) : t :=
  mk (id self) (campaign_id self) (tenant_id self) (recipient_phone
     self) (content self) (status self) v (priority self) (created_at
     self) (updated_at self) (queued_at self) (sent_at self)
     (delivered_at self) (read_at self) (failed_at self) (expires_at
     self) (retry_count self) (max_retries self) (fallback_enabled self)
     (fallback_triggered self) (delivery_attempts self) (aggregator
     self) (external_id self) (failure_reason self) (metadata self).
Definition set_updated_at (v : datetime) (self : t) : t :=
  mk (id self) (campaign_id self) (tenant_id self) (recipient_phone
     self) (content self) (status self) (channel self) (priority self)
     (created_at self) v (queued_at self) (sent_at self) (delivered_at
     self) (read_at self) (failed_at self) (expires_at self)
     (retry_count self) (max_retries self) (fallback_enabled self)
     (fallback_triggered self) (delivery_attempts self) (aggregator
     self) (external_id self) (failure_reason self) (metadata self).
Definition set_queued_at (v : option datetime) (self : t) : t :=
  mk (id self) (campaign_id self) (tenant_id self) (recipient_phone
     self) (content self) (status self) (channel self) (priority self)
     (created_at self) (updated_at self) v (sent_at self) (delivered_at
     self) (read_at self) (failed_at self) (expires_at self)
     (retry_count self) (max_retries self) (fallback_enabled self)
     (fallback_triggered self) (delivery_attempts self) (aggregator
     self) (external_id self) (failure_reason self) (metadata self).
Definition set_sent_at (v : option datetime) (self : t) : t :=
  mk (id self) (campaign_id self) (tenant_id self) (recipient_phone
     self) (content self) (status self) (channel self) (priority self)
     (created_at self) (updated_at self) (queued_at self) v
     (delivered_at self) (read_at self) (failed_at self) (expires_at
     self) (retry_count self) (max_retries self) (fallback_enabled self)
     (fallback_triggered self) (delivery_attempts self) (aggregator
     self) (external_id self) (failure_reason self) (metadata self).
Definition set_delivered_at (v : option datetime) (self : t) : t :=
  mk (id self) (campaign_id self) (tenant_id self) (recipient_phone
     self) (content self) (status self) (channel self) (priority self)
     (created_at self) (updated_at self) (queued_at self) (sent_at self)
     v (read_at self) (failed_at self) (expires_at self) (retry_count
     self) (max_retries self) (fallback_enabled self)
     (fallback_triggered self) (delivery_attempts self) (aggregator
     self) (external_id self) (failure_reason self) (metadata self).
Definition set_read_at (v : option datetime) (self : t) : t :=
  mk (id self) (campaign_id self) (tenant_id self) (recipient_phone
     self) (content self) (status self) (channel self) (priority self)
     (created_at self) (updated_at self) (queued_at self) (sent_at self)
     (delivered_at self) v (failed_at self) (expires_at self)
     (retry_count self) (max_retries self) (fallback_enabled self)
     (fallback_triggered self) (delivery_attempts self) (aggregator
     self) (external_id self) (failure_reason self) (metadata self).
Definition set_failed_at (v : option datetime) (self : t) : t :=
  mk (id self) (campaign_id self) (tenant_id self) (recipient_phone
     self) (content self) (status self) (channel self) (priority self)
     (created_at self) (updated_at self) (queued_at self) (sent_at self)
     (delivered_at self) (read_at self) v (expires_at self) (retry_count
     self) (max_retries self) (fallback_enabled self)
     (fallback_triggered self) (delivery_attempts self) (aggregator
     self) (external_id self) (failure_reason self) (metadata self).
Definition set_retry_count (v : Z) (self : t) : t :=
  mk (id self) (campaign_id self) (tenant_id self) (recipient_phone
     self) (content self) (status self) (channel self) (priority self)
     (created_at self) (updated_at self) (queued_at self) (sent_at self)
     (delivered_at self) (read_at self) (failed_at self) (expires_at
     self) v (max_retries self) (fallback_enabled self)
     (fallback_triggered self) (delivery_attempts self) (aggregator
     self) (external_id self) (failure_reason self) (metadata self).
Definition set_fallback_triggered (v : bool) (self : t) : t :=
  mk (id self) (campaign_id self) (tenant_id self) (recipient_phone
     self) (content self) (status self) (channel self) (priority self)
     (created_at self) (updated_at self) (queued_at self) (sent_at self)
     (delivered_at self) (read_at self) (failed_at self) (expires_at
     self) (retry_count self) (max_retries self) (fallback_enabled self)
     v (delivery_attempts self) (aggregator self) (external_id self)
     (failure_reason self) (metadata self).
Definition set_delivery_attempts (v : list DeliveryAttempt) (self : t) : t :=
  mk (id self) (campaign_id self) (tenant_id self) (recipient_phone
     self) (content self) (status self) (channel self) (priority self)
     (created_at self) (updated_at self) (queued_at self) (sent_at self)
     (delivered_at self) (read_at self) (failed_at self) (expires_at
     self) (retry_count self) (max_retries self) (fallback_enabled self)
     (fallback_triggered self) v (aggregator self) (external_id self)
     (failure_reason self) (metadata self).
Definition set_aggregator (v : option string) (self : t) : t :=
  mk (id self) (campaign_id self) (tenant_id self) (recipient_phone
     self) (content self) (status self) (channel self) (priority self)
     (created_at self) (updated_at self) (queued_at self) (sent_at self)
     (delivered_at self) (read_at self) (failed_at self) (expires_at
     self) (retry_count self) (max_retries self) (fallback_enabled self)
     (fallback_triggered self) (delivery_attempts self) v (external_id
     self) (failure_reason self) (metadata self).
Definition set_external_id (v : option string) (self : t) : t :=
  mk (id self) (campaign_id self) (tenant_id self) (recipient_phone
     self) (content self) (status self) (channel self) (priority self)
     (created_at self) (updated_at self) (queued_at self) (sent_at self)
     (delivered_at self) (read_at self) (failed_at self) (expires_at
     self) (retry_count self) (max_retries self) (fallback_enabled self)
     (fallback_triggered self) (delivery_attempts self) (aggregator
     self) v (failure_reason self) (metadata self).
Definition set_failure_reason (v : option FailureReason.t) (self : t) : t :=
  mk (id self) (campaign_id self) (tenant_id self) (recipient_phone
     self) (content self) (status self) (channel self) (priority self)
     (created_at self) (updated_at self) (queued_at self) (sent_at self)
     (delivered_at self) (read_at self) (failed_at self) (expires_at
     self) (retry_count self) (max_retries self) (fallback_enabled self)
     (fallback_triggered self) (delivery_attempts self) (aggregator
     self) (external_id self) v (metadata self).
Definition set_metadata (v : gmap string string) (self : t) : t :=
  mk (id self) (campaign_id self) (tenant_id self) (recipient_phone
     self) (content self) (status self) (channel self) (priority self)
     (created_at self) (updated_at self) (queued_at self) (sent_at self)
     (delivered_at self) (read_at self) (failed_at self) (expires_at
     self) (retry_count self) (max_retries self) (fallback_enabled self)
     (fallback_triggered self) (delivery_attempts self) (aggregator
     self) (external_id self) (failure_reason self) v.

(** [str.isdigit] on one character. *)
Definition isdigit (c : ascii) : bool :=
  ((48 <=? nat_of_ascii c) && (nat_of_ascii c <=? 57))%nat.

(** [''.join(filter(str.isdigit, phone))]. *)
Fixpoint filter_digits (phone : string) : string :=
  match phone with
  | EmptyString => EmptyString
  | String c rest =>
      if isdigit c then String c (filter_digits rest) else filter_digits rest
  end.

(** [Message._normalize_phone], lines 489-509. *)
Definition _normalize_phone (phone : string) : string :=
  let digits := filter_digits phone in
  if negb (String.prefix "+" phone) then
    if (String.length digits =? 10)%nat
    then "+91" ++ digits
    else "+" ++ digits
  else phone.

(** [dt.replace(hour=23, minute=59)]: the day and the seconds are kept. *)
Definition replace_hour_minute (dt : datetime) : datetime :=
  dt - dt mod 86400 + 23 * 3600 + 59 * 60 + dt mod 60.

(** [Message.__init__], lines 216-260, with the defaults of [status] and
    [channel] supplied by the caller; [created_at or now] is the argument
    [created]. *)
Definition __init__ (now : datetime) (id_ campaign tenant : UUID)
    (phone : string) (content_ : MessageContent.t)
    (status_ : MessageStatus.t) (channel_ : MessageChannel.t)
    (priority_ : string) (created : option datetime) : t :=
  let created_at_ := default now created in
  {| id := id_; campaign_id := campaign; tenant_id := tenant;
     recipient_phone := _normalize_phone phone;
     content := content_; status := status_; channel := channel_;
     priority := priority_;
     created_at := created_at_; updated_at := now;
     queued_at := None; sent_at := None; delivered_at := None;
     read_at := None; failed_at := None;
     expires_at := replace_hour_minute created_at_;
     retry_count := 0; max_retries := 3;
     fallback_enabled := true; fallback_triggered := false;
     delivery_attempts := []; aggregator := None; external_id := None;
     failure_reason := None; metadata := ∅ |}.

(** [Message.create], lines 262-293; [fresh] is the value of [uuid4()]. *)
Definition create (now : datetime) (fresh campaign tenant : UUID)
    (phone : string) (content_ : MessageContent.t) (priority_ : string)
    : t :=
  __init__ now fresh campaign tenant phone content_
           MessageStatus.PENDING MessageChannel.RCS priority_ None.

(** [Message._record_attempt], lines 511-531. *)
Definition _record_attempt (now : datetime) (channel_ : MessageChannel.t)
    (status_ : MessageStatus.t) (aggregator_ external_id_ : option string)
    (error_code_ error_message_ : option string) (self : t) : t :=
  let attempt :=
    {| attempt_number := Z.of_nat (List.length (delivery_attempts self)) + 1;
       da_channel := channel_;
       attempted_at := now;
       da_status := status_;
       da_aggregator := aggregator_;
       error_code := error_code_;
       error_message := error_message_;
       da_external_id := external_id_ |} in
  set_delivery_attempts (delivery_attempts self ++ [attempt])%list self.

(** [Message.queue], lines 295-302. *)
Definition queue (now : datetime) : M t unit := fun self =>
  if negb (bool_decide (status self = MessageStatus.PENDING)) then
    (Raise (ValueError "Cannot queue message"), self)
  else
    let self := set_status MessageStatus.QUEUED self in
    let self := set_queued_at (Some now) self in
    (Ok tt, set_updated_at now self).

(** [Message.mark_sent], lines 304-324. The callers pass
    [response.external_id], an [Optional[str]], so the vendor id is an
    option here and is stored as it comes. *)
Definition mark_sent (now : datetime) (aggregator_ : string)
    (external_id_ : option string) (self : t) : t :=
  let self := set_status MessageStatus.SENT self in
  let self := set_sent_at (Some now) self in
  let self := set_updated_at now self in
  let self := set_aggregator (Some aggregator_) self in
  let self := set_external_id external_id_ self in
  _record_attempt now (channel self) MessageStatus.SENT
    (Some aggregator_) external_id_ None None self.

(** [Message.mark_delivered], lines 326-341. *)
Definition mark_delivered (now : datetime) : M t unit := fun self =>
  if negb (bool_decide (status self ∈ [MessageStatus.SENT;
                                       MessageStatus.QUEUED])) then
    (Raise (ValueError "Cannot mark delivered"), self)
  else
    let self := set_status MessageStatus.DELIVERED self in
    let self := set_delivered_at (Some now) self in
    let self := set_updated_at now self in
    (Ok tt, _record_attempt now (channel self) MessageStatus.DELIVERED
              (aggregator self) None None None self).

(** [Message.mark_read], lines 343-353. *)
Definition mark_read (now : datetime) : M t unit := fun self =>
  if negb (bool_decide (channel self = MessageChannel.RCS)) then
    (Ok tt, self)
  else if negb (bool_decide (status self = MessageStatus.DELIVERED)) then
    (Raise (ValueError "Cannot mark read"), self)
  else
    let self := set_status MessageStatus.READ self in
    let self := set_read_at (Some now) self in
    (Ok tt, set_updated_at now self).

(** [Message.mark_failed], lines 355-380. *)
Definition mark_failed (now : datetime) (reason : FailureReason.t)
    (error_code_ error_message_ : option string) (self : t) : t :=
  let self := set_status MessageStatus.FAILED self in
  let self := set_failed_at (Some now) self in
  let self := set_updated_at now self in
  let self := set_failure_reason (Some reason) self in
  _record_attempt now (channel self) MessageStatus.FAILED
    (aggregator self) None error_code_ error_message_ self.

(** [Message.should_retry], lines 382-405. *)
Definition should_retry (now : datetime) (self : t) : bool :=
  if negb (bool_decide (status self = MessageStatus.FAILED)) then false
  else if retry_count self >=? max_retries self then false
  else if now >? expires_at self then false
  else if bool_decide (failure_reason self
                         ∈ [Some FailureReason.INVALID_NUMBER;
                            Some FailureReason.BLOCKED]) then false
  else true.

(** [Message.should_fallback_to_sms], lines 407-430. *)
Definition should_fallback_to_sms (self : t) : bool :=
  if negb (fallback_enabled self) then false
  else if fallback_triggered self then false
  else if bool_decide (channel self = MessageChannel.SMS) then false
  else if bool_decide
            (failure_reason self = Some FailureReason.RCS_NOT_SUPPORTED)
       then true
  else if retry_count self >=? max_retries self then true
  else false.

(** [Message.trigger_fallback], lines 432-445. *)
Definition trigger_fallback (now : datetime) : M t unit := fun self =>
  if negb (should_fallback_to_sms self) then
    (Raise (ValueError "Cannot trigger fallback for this message"), self)
  else
    let self := set_channel MessageChannel.SMS self in
    let self := set_status MessageStatus.PENDING self in
    let self := set_fallback_triggered true self in
    let self := set_retry_count 0 self in
    let self := set_updated_at now self in
    let self :=
      set_metadata (<["original_channel" := "rcs"]> (metadata self)) self in
    (Ok tt,
     set_metadata
       (<["sms_text" := MessageContent.to_sms_text (content self)]>
          (metadata self)) self).

(** [Message.mark_fallback_sent], lines 533-551. The class body binds the
    name twice; this second binding replaces the one of lines 447-460 and is
    the method a call reaches. *)
Definition mark_fallback_sent (now : datetime) (aggregator_ : string)
    (external_id_ : option string) (self : t) : t :=
  let self := set_status MessageStatus.FALLBACK_SENT self in
  let self := set_fallback_triggered true self in
  let self := set_channel MessageChannel.SMS self in
  let self := set_aggregator (Some aggregator_) self in
  let self := set_external_id external_id_ self in
  let self := set_sent_at (Some now) self in
  set_updated_at now self.

(** [Message.mark_fallback_delivered], lines 462-466. *)
Definition mark_fallback_delivered (now : datetime) (self : t) : t :=
  set_updated_at now
    (set_delivered_at (Some now)
      (set_status MessageStatus.FALLBACK_DELIVERED self)).

(** [Message.increment_retry], lines 468-471. *)
Definition increment_retry (now : datetime) (self : t) : t :=
  set_updated_at now (set_retry_count (retry_count self + 1) self).

(** [Message.is_delivered], [is_failed], [is_expired], lines 473-487. *)
Definition is_delivered (self : t) : bool :=
  bool_decide (status self ∈ [MessageStatus.DELIVERED; MessageStatus.READ;
                              MessageStatus.FALLBACK_DELIVERED]).

Definition is_failed (now : datetime) (self : t) : bool :=
  bool_decide (status self = MessageStatus.FAILED)
  && negb (should_retry now self).

Definition is_expired (now : datetime) (self : t) : bool :=
  now >? expires_at self.

(** *** Sequences of operations

    One constructor per state-changing method of the class, with the
    method's arguments and the clock reading of the call. *)
Inductive Op : Type :=
  | OpQueue (now : datetime)
  | OpMarkSent (now : datetime) (aggregator_ : string)
               (external_id_ : option string)
  | OpMarkDelivered (now : datetime)
  | OpMarkRead (now : datetime)
  | OpMarkFailed (now : datetime) (reason : FailureReason.t)
                 (error_code_ error_message_ : option string)
  | OpTriggerFallback (now : datetime)
  | OpMarkFallbackSent (now : datetime) (aggregator_ : string)
                       (external_id_ : option string)
  | OpMarkFallbackDelivered (now : datetime)
  | OpIncrementRetry (now : datetime).

Definition call (op : Op) : M t unit :=
  match op with
  | OpQueue now => queue now
  | OpMarkSent now a e => modify (mark_sent now a e)
  | OpMarkDelivered now => mark_delivered now
  | OpMarkRead now => mark_read now
  | OpMarkFailed now r c e => modify (mark_failed now r c e)
  | OpTriggerFallback now => trigger_fallback now
  | OpMarkFallbackSent now a e => modify (mark_fallback_sent now a e)
  | OpMarkFallbackDelivered now => modify (mark_fallback_delivered now)
  | OpIncrementRetry now => modify (increment_retry now)
  end.

(** The message after a sequence of calls, whatever each one's outcome: a
    caller that catches the exception of one call goes on with the object
    as that call left it. *)
Definition run (ops : list Op) (self : t) : t :=
  fold_left (fun m op => snd (call op m)) ops self.

(** The channel after each call of the sequence, the initial one first. *)
Fixpoint channel_trace (ops : list Op) (self : t) : list MessageChannel.t :=
  channel self ::
  match ops with
  | [] => []
  | op :: rest => channel_trace rest (snd (call op self))
  end.
End Message.

(** ** campaign.py: the Campaign aggregate *)

Module CampaignStatus.
Inductive t : Type :=
  | DRAFT | SCHEDULED | ACTIVE | PAUSED | COMPLETED | CANCELLED | FAILED.
#[global] Instance campaign_status_eq_dec : EqDecision t.
Proof. solve_decision. Defined.
End CampaignStatus.

Inductive CampaignType : Type :=
  | PROMOTIONAL | TRANSACTIONAL | REMINDER | NOTIFICATION.

Inductive Priority : Type := LOW | MEDIUM | HIGH | URGENT.

Record CampaignStats : Type := mkCampaignStats {
  total_recipients : Z;
  messages_sent : Z;
  messages_delivered : Z;
  messages_failed : Z;
  messages_read : Z;
  stats_fallback_triggered : Z;
  opt_outs : Z
}.

(** A value of an event's [data] dictionary; the ISO text of a datetime is
    kept as the datetime. *)
Inductive EventValue : Type :=
  | VStr (s : string)
  | VInt (n : Z)
  | VTime (dt : datetime).

Record DomainEvent : Type := mkDomainEvent {
  event_id : UUID;
  event_type : string;
  occurred_at : datetime;
  aggregate_id : UUID;
  data : list (string * EventValue)
}.

Module Campaign.
Record t : Type := mk {
  id : UUID;
  tenant_id : UUID;
  name : string;
  campaign_type : CampaignType;
  template_id : UUID;
  status : CampaignStatus.t;
  priority : Priority;
  scheduled_for : option datetime;
  created_at : datetime;
  updated_at : datetime;
  audience_ids : list UUID;
  recipient_count : Z;
  enable_fallback : bool;
  fallback_channel : string;
  rate_limit : option Z;
  stats : CampaignStats;
  metadata : gmap string string;
  tags : list string;
  _events : list DomainEvent
}.

(** Assignment to one attribute: [self.f = v]. *)
Definition set_status (v : CampaignStatus.t) (self : t) : t :=
  mk (id self) (tenant_id self) (name self) (campaign_type self)
     (template_id self) v (priority self) (scheduled_for self) (created_at
     self) (updated_at self) (audience_ids self) (recipient_count self)
     (enable_fallback self) (fallback_channel self) (rate_limit self)
     (stats self) (metadata self) (tags self) (_events self).
Definition set_scheduled_for (v : option datetime) (self : t) : t :=
  mk (id self) (tenant_id self) (name self) (campaign_type self)
     (template_id self) (status self) (priority self) v (created_at self)
     (updated_at self) (audience_ids self) (recipient_count self)
     (enable_fallback self) (fallback_channel self) (rate_limit self)
     (stats self) (metadata self) (tags self) (_events self).
Definition set_updated_at (v : datetime) (self : t) : t :=
  mk (id self) (tenant_id self) (name self) (campaign_type self)
     (template_id self) (status self) (priority self) (scheduled_for self)
     (created_at self) v (audience_ids self) (recipient_count self)
     (enable_fallback self) (fallback_channel self) (rate_limit self)
     (stats self) (metadata self) (tags self) (_events self).
Definition set_audience_ids (v : list UUID) (self : t) : t :=
  mk (id self) (tenant_id self) (name self) (campaign_type self)
     (template_id self) (status self) (priority self) (scheduled_for self)
     (created_at self) (updated_at self) v (recipient_count self)
     (enable_fallback self) (fallback_channel self) (rate_limit self)
     (stats self) (metadata self) (tags self) (_events self).
Definition set_recipient_count (v : Z) (self : t) : t :=
  mk (id self) (tenant_id self) (name self) (campaign_type self)
     (template_id self) (status self) (priority self) (scheduled_for self)
     (created_at self) (updated_at self) (audience_ids self) v
     (enable_fallback self) (fallback_channel self) (rate_limit self)
     (stats self) (metadata self) (tags self) (_events self).
Definition set_stats (v : CampaignStats) (self : t) : t :=
  mk (id self) (tenant_id self) (name self) (campaign_type self)
     (template_id self) (status self) (priority self) (scheduled_for self)
     (created_at self) (updated_at self) (audience_ids self)
     (recipient_count self) (enable_fallback self) (fallback_channel self)
     (rate_limit self) v (metadata self) (tags self) (_events self).
Definition set_metadata (v : gmap string string) (self : t) : t :=
  mk (id self) (tenant_id self) (name self) (campaign_type self)
     (template_id self) (status self) (priority self) (scheduled_for self)
     (created_at self) (updated_at self) (audience_ids self)
     (recipient_count self) (enable_fallback self) (fallback_channel self)
     (rate_limit self) (stats self) v (tags self) (_events self).
Definition set__events (v : list DomainEvent) (self : t) : t :=
  mk (id self) (tenant_id self) (name self) (campaign_type self)
     (template_id self) (status self) (priority self) (scheduled_for self)
     (created_at self) (updated_at self) (audience_ids self)
     (recipient_count self) (enable_fallback self) (fallback_channel self)
     (rate_limit self) (stats self) (metadata self) (tags self) v.

(** [Campaign.__init__], lines 115-156, with [created_at] and [updated_at]
    defaulted to the clock. *)
Definition __init__ (now : datetime) (id_ tenant : UUID) (name_ : string)
    (type_ : CampaignType) (template : UUID) (status_ : CampaignStatus.t)
    (priority_ : Priority) (scheduled : option datetime) : t :=
  {| id := id_; tenant_id := tenant; name := name_; campaign_type := type_;
     template_id := template; status := status_; priority := priority_;
     scheduled_for := scheduled; created_at := now; updated_at := now;
     audience_ids := []; recipient_count := 0;
     enable_fallback := true; fallback_channel := "sms"; rate_limit := None;
     stats := mkCampaignStats 0 0 0 0 0 0 0;
     metadata := ∅; tags := []; _events := [] |}.

(** [Campaign._add_event], lines 385-392; [fresh] is the event's
    [uuid4()]. *)
Definition _add_event (now : datetime) (fresh : UUID) (event_type_ : string)
    (data_ : list (string * EventValue)) (self : t) : t :=
  let event :=
    {| event_id := fresh; event_type := event_type_; occurred_at := now;
       aggregate_id := id self; data := data_ |} in
  set__events (_events self ++ [event])%list self.

(** [Campaign._ensure_status], lines 378-383. *)
Definition _ensure_status (expected : CampaignStatus.t) : M t unit :=
  fun self =>
    if negb (bool_decide (status self = expected))
    then (Raise (InvalidStateTransition "Expected status"), self)
    else (Ok tt, self).

(** [Campaign.schedule], lines 207-230. The comparison of line 220 is
    with [datetime.now(timezone.utc)], an aware datetime: on a naive
    [scheduled_for] it raises TypeError. *)
Definition schedule (now : datetime) (fresh : UUID)
    (scheduled_for_ : PyDatetime) : M t unit :=
  _ensure_status CampaignStatus.DRAFT ;;;
  fun self =>
    if negb (aware scheduled_for_) then (Raise naive_aware_error, self)
    else if reading scheduled_for_ <=? now then
      (Raise (ValueError "Scheduled time must be in the future"), self)
    else
      let self := set_scheduled_for (Some (reading scheduled_for_)) self in
      let self := set_status CampaignStatus.SCHEDULED self in
      let self := set_updated_at now self in
      (Ok tt, _add_event now fresh "campaign.scheduled"
                [("scheduled_for", VTime (reading scheduled_for_))] self).

(** [Campaign.activate], lines 232-254. *)
Definition activate (now : datetime) (fresh : UUID) : M t unit :=
  fun self =>
    if negb (bool_decide (status self ∈ [CampaignStatus.DRAFT;
                                         CampaignStatus.SCHEDULED])) then
      (Raise (InvalidStateTransition "Cannot activate campaign"), self)
    else if recipient_count self =? 0 then
      (Raise (ValueError "Campaign must have at least one recipient"), self)
    else
      let self := set_status CampaignStatus.ACTIVE self in
      let self := set_updated_at now self in
      (Ok tt, _add_event now fresh "campaign.activated"
                [("recipient_count", VInt (recipient_count self))] self).

(** [Campaign.pause] and [Campaign.resume], lines 256-272. *)
Definition pause (now : datetime) (fresh : UUID) : M t unit :=
  _ensure_status CampaignStatus.ACTIVE ;;;
  modify (fun self =>
    let self := set_status CampaignStatus.PAUSED self in
    let self := set_updated_at now self in
    _add_event now fresh "campaign.paused" [] self).

Definition resume (now : datetime) (fresh : UUID) : M t unit :=
  _ensure_status CampaignStatus.PAUSED ;;;
  modify (fun self =>
    let self := set_status CampaignStatus.ACTIVE self in
    let self := set_updated_at now self in
    _add_event now fresh "campaign.resumed" [] self).

(** [Campaign.cancel], lines 296-315. *)
Definition cancel (now : datetime) (fresh : UUID) (reason : string)
    : M t unit := fun self =>
  if bool_decide (status self ∈ [CampaignStatus.COMPLETED;
                                 CampaignStatus.CANCELLED]) then
    (Raise (InvalidStateTransition "Cannot cancel campaign"), self)
  else
    let self := set_status CampaignStatus.CANCELLED self in
    let self := set_updated_at now self in
    let self :=
      set_metadata (<["cancellation_reason" := reason]> (metadata self))
                   self in
    (Ok tt, _add_event now fresh "campaign.cancelled"
              [("reason", VStr reason)] self).

(** [Campaign.add_audience], lines 317-334. *)
Definition add_audience (now : datetime) (audience_id : UUID)
    (count : Z) : M t unit := fun self =>
  if negb (bool_decide (status self ∈ [CampaignStatus.DRAFT])) then
    (Raise (InvalidStateTransition
              "Cannot modify audience of active campaign"), self)
  else if negb (bool_decide (audience_id ∈ audience_ids self)) then
    let self := set_audience_ids (audience_ids self ++ [audience_id])%list
                                 self in
    let self := set_recipient_count (recipient_count self + count) self in
    let self :=
      set_stats
        (let st := stats self in
         mkCampaignStats (recipient_count self) (messages_sent st)
           (messages_delivered st) (messages_failed st) (messages_read st)
           (stats_fallback_triggered st) (opt_outs st)) self in
    (Ok tt, set_updated_at now self)
  else (Ok tt, self).
End Campaign.

(** ** ports/queue.py *)

Module QueuePriority.
Inductive t : Type := LOW | MEDIUM | HIGH | URGENT.
Definition value (p : t) : Z :=
  match p with LOW => 1 | MEDIUM => 5 | HIGH => 10 | URGENT => 20 end.
End QueuePriority.

(** [QueueMessage]; [delay] is a [timedelta] in seconds. *)
Record QueueMessage : Type := mkQueueMessage {
  qm_id : string;
  queue_name : string;
  payload : gmap string string;
  qm_priority : QueuePriority.t;
  delay : option Z;
  qm_max_retries : Z;
  retry_backoff : Z;
  qm_metadata : option (gmap string string)
}.

(** The calls a service makes on its [QueuePort], in order. *)
Inductive QueueCall : Type :=
  | Enqueue (message : QueueMessage)
  | EnqueueBatch (messages : list QueueMessage)
  | Schedule (message : QueueMessage) (scheduled_for : datetime).

(** [RabbitMQAdapter.schedule], rabbitmq.py lines 278-302, for a naive
    [scheduled_for], such as the [datetime.utcnow()] of
    [_requeue_with_delay]: the job the adapter hands to [enqueue] when the
    call is served at clock reading [now]. *)
Definition rabbitmq_schedule (now : datetime) (message : QueueMessage)
    (scheduled_for : datetime) : QueueMessage :=
  if scheduled_for <=? now then message
  else
    {| qm_id := qm_id message; queue_name := queue_name message;
       payload := payload message; qm_priority := qm_priority message;
       delay := Some (scheduled_for - now);
       qm_max_retries := qm_max_retries message;
       retry_backoff := retry_backoff message;
       qm_metadata := qm_metadata message |}.

Module RabbitMQAdapter.
(** [RabbitMQAdapter.schedule], lines 278-302, for any [scheduled_for]. Its
    [now] is [datetime.utcnow()], a naive datetime, so the comparison of
    line 295 raises TypeError on an aware [scheduled_for]; on a naive one
    the job handed to [enqueue] is that of [rabbitmq_schedule]. *)
Definition schedule (now : datetime) (message : QueueMessage)
    (scheduled_for : PyDatetime) : result QueueMessage :=
  if aware scheduled_for then Raise naive_aware_error
  else Ok (rabbitmq_schedule now message (reading scheduled_for)).
End RabbitMQAdapter.

(** ** ports/aggregator.py *)

Record SendMessageRequest : Type := mkSendMessageRequest {
  req_message_id : UUID;
  req_recipient_phone : string;
  req_channel : MessageChannel.t;
  content_text : string;
  req_rich_card : option RichCard;
  req_suggestions : list SuggestedAction;
  req_priority : string
}.

Record SendMessageResponse : Type := mkSendMessageResponse {
  success : bool;
  resp_external_id : option string;
  resp_error_code : option string;
  resp_error_message : option string;
  resp_retry_after : option Z
}.

Record CapabilityCheckResult : Type := mkCapabilityCheckResult {
  cap_phone_number : string;
  rcs_enabled : bool;
  last_checked : datetime;
  features : list string
}.

(** [AggregatorPort]: the methods the delivery service calls. A vendor
    call returns, or raises. *)
Record AggregatorPort : Type := mkAggregatorPort {
  send_rcs_message : SendMessageRequest -> result SendMessageResponse;
  send_sms_message : SendMessageRequest -> result SendMessageResponse;
  check_rcs_capability : list string -> result (list CapabilityCheckResult);
  get_name : string
}.

(** [str.lower] on 8-bit characters. *)
Definition lower_char (c : ascii) : ascii :=
  let n := nat_of_ascii c in
  if ((65 <=? n) && (n <=? 90))%nat then ascii_of_nat (n + 32) else c.

Fixpoint lower (s : string) : string :=
  match s with
  | EmptyString => EmptyString
  | String c rest => String (lower_char c) (lower rest)
  end.

(** ** delivery_service.py *)

Module DeliveryService.

(** What the service acts on through its ports: the messages that
    [uow.messages] holds, the calls of [uow.campaigns.update_stats] and the
    calls on the queue, both in order. The repository here is the port
    [MessageRepository] taken at its word: [save] keeps the message and
    [get_by_id] hands it back as it was saved. The SQLAlchemy repository
    of message_repo.py keeps a row instead; the service on it is
    [StoredDelivery], further down. *)
Record World : Type := mkWorld {
  messages : gmap UUID Message.t;
  stats_updates : list (UUID * string * Z);
  queue_calls : list QueueCall
}.

(** [settings.queue_names["message_dispatcher"]], core/config.py. *)
Definition message_dispatcher : string := "message.dispatch".

(** [DeliveryService._map_priority], lines 416-424. *)
Definition _map_priority (priority : string) : QueuePriority.t :=
  let p := lower priority in
  if String.eqb p "low" then QueuePriority.LOW
  else if String.eqb p "medium" then QueuePriority.MEDIUM
  else if String.eqb p "high" then QueuePriority.HIGH
  else if String.eqb p "urgent" then QueuePriority.URGENT
  else QueuePriority.MEDIUM.

(** The [QueueMessage] built at lines 352-357, 366-371 and 389-394; the
    fields not given take the dataclass defaults. *)
Definition dispatch_job (message : Message.t) : QueueMessage :=
  {| qm_id := Message.id message;
     queue_name := message_dispatcher;
     payload := {[ "message_id" := Message.id message ]};
     qm_priority := _map_priority (Message.priority message);
     delay := None;
     qm_max_retries := 3;
     retry_backoff := 60;
     qm_metadata := None |}.

(** [uow.messages.save]: the row of the message's id is written. *)
Definition save (message : Message.t) (w : World) : World :=
  {| messages := <[Message.id message := message]> (messages w);
     stats_updates := stats_updates w;
     queue_calls := queue_calls w |}.

(** [uow.messages.save_batch]: the rows are written in order. *)
Definition save_batch (batch : list Message.t) (w : World) : World :=
  fold_left (fun w m => save m w) batch w.

Definition update_stats (campaign : UUID) (counter : string) (n : Z)
    (w : World) : World :=
  {| messages := messages w;
     stats_updates := (stats_updates w ++ [(campaign, counter, n)])%list;
     queue_calls := queue_calls w |}.

Definition queue_call (c : QueueCall) (w : World) : World :=
  {| messages := messages w;
     stats_updates := stats_updates w;
     queue_calls := (queue_calls w ++ [c])%list |}.

(** [async with self.uow]: an exception that leaves the block rolls the
    transaction back (the rows and the statistics are those at entry) and
    goes on to the caller; what was sent to the queue stays sent. *)
Definition with_uow {A} (body : M World A) : M World A :=
  fun w =>
    match body w with
    | (Ok a, w') => (Ok a, w')
    | (Raise e, w') =>
        (Raise e, {| messages := messages w;
                     stats_updates := stats_updates w;
                     queue_calls := queue_calls w' |})
    end.

Section Service.

(** [self.uow.opt_outs.is_opted_out] and [self.aggregator]. *)
Variable is_opted_out : string -> UUID -> bool.
Variable aggregator : AggregatorPort.

(** [_queue_message_for_delivery], lines 346-358. *)
Definition _queue_message_for_delivery (message : Message.t)
    : M World unit :=
  modify (queue_call (Enqueue (dispatch_job message))).

(** [_queue_messages_batch], lines 360-374. *)
Definition _queue_messages_batch (batch : list Message.t) : M World unit :=
  modify (queue_call (EnqueueBatch (map dispatch_job batch))).

(** [send_message], lines 80-131; [fresh] is the [uuid4()] of
    [Message.create]. *)
Definition send_message (now : datetime) (fresh campaign tenant : UUID)
    (recipient_phone : string) (content : MessageContent.t)
    (priority : string) : M World Message.t :=
  message <- with_uow (
    if is_opted_out recipient_phone tenant then
      raise (ValueError "Recipient has opted out")
    else
      let message := Message.create now fresh campaign tenant
                       recipient_phone content priority in
      modify (save message) ;;;
      ret message) ;;
  _queue_message_for_delivery message ;;;
  ret message.

(** The first loop of [send_message_batch], lines 158-165. *)
Definition valid_recipients (tenant : UUID) (recipients : list string)
    : list string :=
  List.filter (fun phone => negb (is_opted_out phone tenant)) recipients.

(** [send_message_batch], lines 133-188; [fresh i] is the [uuid4()] of the
    i-th [Message.create]. *)
Definition send_message_batch (now : datetime) (fresh : nat -> UUID)
    (campaign tenant : UUID) (recipients : list string)
    (content : MessageContent.t) (priority : string)
    : M World (list Message.t) :=
  batch <- with_uow (
    let batch :=
      imap (fun i phone => Message.create now (fresh i) campaign tenant
                             phone content priority)
           (valid_recipients tenant recipients) in
    modify (save_batch batch) ;;;
    ret batch) ;;
  _queue_messages_batch batch ;;;
  ret batch.

(** The state of [process_message_delivery] once the message is loaded: the
    object bound to the local variable [message], and the world. *)
Definition Local : Type := Message.t * World.

Definition the_message : M Local Message.t := fun s => (Ok (fst s), s).

(** A method of the message that cannot raise, and one that can. *)
Definition on_message (f : Message.t -> Message.t) : M Local unit :=
  modify (fun s => (f (fst s), snd s)).

Definition call_message (method : M Message.t unit) : M Local unit :=
  fun s =>
    let '(r, message) := method (fst s) in (r, (message, snd s)).

Definition on_world (f : World -> World) : M Local unit :=
  modify (fun s => (fst s, f (snd s))).

(** [await self.uow.messages.save(message)]. *)
Definition save_message : M Local unit :=
  modify (fun s => (fst s, save (fst s) (snd s))).

(** [_check_rcs_capability], lines 309-314. *)
Definition _check_rcs_capability (phone : string) : M Local bool :=
  results <- lift (check_rcs_capability aggregator [phone]) ;;
  match results with
  | [] => ret false
  | r :: _ => ret (rcs_enabled r)
  end.

(** [_send_via_aggregator], lines 316-344. *)
Definition _send_via_aggregator (now : datetime) : M Local unit :=
  message <- the_message ;;
  let request :=
    {| req_message_id := Message.id message;
       req_recipient_phone := Message.recipient_phone message;
       req_channel := Message.channel message;
       content_text := MessageContent.text (Message.content message);
       req_rich_card := MessageContent.rich_card (Message.content message);
       req_suggestions :=
         MessageContent.suggestions (Message.content message);
       req_priority := Message.priority message |} in
  response <-
    lift (if bool_decide (Message.channel message = MessageChannel.RCS)
          then send_rcs_message aggregator request
          else send_sms_message aggregator request) ;;
  if success response then
    on_message (Message.mark_sent now (get_name aggregator)
                  (resp_external_id response)) ;;;
    save_message
  else
    raise (AggregatorException
             (if truthy (resp_error_message response)
              then default "" (resp_error_message response)
              else "Unknown aggregator error")
             (resp_error_code response)
             (resp_retry_after response)).

(** [_queue_fallback], lines 376-381. *)
Definition _queue_fallback (now : datetime) : M Local unit :=
  call_message (Message.trigger_fallback now) ;;;
  save_message ;;;
  message <- the_message ;;
  on_world (queue_call (Enqueue (dispatch_job message))).

(** [_requeue_with_delay], lines 383-396. The parameter [delay] is not
    read: the job is scheduled for the clock reading of the call. *)
Definition _requeue_with_delay (now : datetime) (delay_ : Z)
    : M Local unit :=
  message <- the_message ;;
  on_world (queue_call (Schedule (dispatch_job message) now)).

(** [getattr(exception, 'error_code', 'UNKNOWN')] and [str(exception)]. *)
Definition exception_error_code (e : Exception) : option string :=
  match e with
  | AggregatorException _ code _ | RateLimitException _ code _ => code
  | _ => Some "UNKNOWN"
  end.

Definition exception_str (e : Exception) : string :=
  match e with
  | ValueError msg | InvalidStateTransition msg | OtherException msg
  | AggregatorException msg _ _ | RateLimitException msg _ _ => msg
  end.

(** [_handle_delivery_failure], lines 398-414. *)
Definition _handle_delivery_failure (now : datetime) (e : Exception)
    : M Local unit :=
  on_message (Message.mark_failed now FailureReason.NETWORK_ERROR
                (exception_error_code e) (Some (exception_str e))) ;;;
  message <- the_message ;;
  if Message.should_retry now message then
    on_message (Message.increment_retry now) ;;;
    save_message ;;;
    message <- the_message ;;
    on_world (queue_call (Enqueue (dispatch_job message)))
  else if Message.should_fallback_to_sms message then
    _queue_fallback now
  else
    save_message.

(** The body of the [try] of [process_message_delivery], lines 208-240.
    The capability branch ends in [return]; [true] from the first step is
    that early return. *)
Definition attempt_delivery (now : datetime) : M Local unit :=
  message <- the_message ;;
  returned <-
    (if bool_decide (Message.channel message = MessageChannel.RCS) then
       rcs_capable <-
         _check_rcs_capability (Message.recipient_phone message) ;;
       if negb rcs_capable then
         on_message (Message.mark_failed now
                       FailureReason.RCS_NOT_SUPPORTED None
                       (Some "RCS not supported")) ;;;
         save_message ;;;
         _queue_fallback now ;;;
         ret true
       else ret false
     else ret false) ;;
  if (returned : bool) then ret tt
  else
    call_message (Message.queue now) ;;;
    save_message ;;;
    _send_via_aggregator now ;;;
    message <- the_message ;;
    on_world (update_stats (Message.campaign_id message) "messages_sent" 1).

(** [e.retry_after or 60]. *)
Definition retry_after_or_60 (retry_after : option Z) : Z :=
  match retry_after with
  | Some n => if n =? 0 then 60 else n
  | None => 60
  end.

(** The three [except] clauses, lines 242-259, in their order. *)
Definition on_exception (now : datetime) (e : Exception) : M Local unit :=
  match e with
  | RateLimitException _ _ retry_after =>
      _requeue_with_delay now (retry_after_or_60 retry_after)
  | AggregatorException _ _ _ => _handle_delivery_failure now e
  | _ => _handle_delivery_failure now e
  end.

(** [process_message_delivery], lines 190-259. *)
Definition process_message_delivery (now : datetime) (message_id : UUID)
    : M World unit :=
  with_uow (fun w =>
    match messages w !! message_id with
    | None => (Ok tt, w)
    | Some message =>
        let '(r, (_, w')) :=
          try_except (attempt_delivery now) (on_exception now)
                     (message, w) in
        (r, w')
    end).

End Service.
End DeliveryService.


(** ** message.py, lines 146-186: the second [to_sms_text]

    The function is bound in the body of class [DeliveryAttempt], after the
    fields of that dataclass. It reads [self.text], [self.rich_card] and
    [self.suggestions], which a [DeliveryAttempt] does not have and a
    [MessageContent] has; it is given here on such an object. No call in
    the repository reaches it: [self.content.to_sms_text()] is
    [MessageContent.to_sms_text]. *)

(** [str.isspace] on one 8-bit character. *)
Definition isspace (c : ascii) : bool :=
  let n := nat_of_ascii c in
  (((9 <=? n) && (n <=? 13)) || ((28 <=? n) && (n <=? 32)))%nat.

Fixpoint lstrip (s : string) : string :=
  match s with
  | EmptyString => EmptyString
  | String c rest => if isspace c then lstrip rest else s
  end.

Fixpoint rstrip (s : string) : string :=
  match s with
  | EmptyString => EmptyString
  | String c rest =>
      match rstrip rest with
      | EmptyString => if isspace c then EmptyString
                       else String c EmptyString
      | rest' => String c rest'
      end
  end.

Definition strip (s : string) : string := lstrip (rstrip s).

Definition append_suggestion_as_text (sms_text : string)
    (s : SuggestedAction) : string :=
  if String.eqb (sa_type s) "url" && truthy (sa_url s)
  then sms_text ++ nl ++ sa_text s ++ ": " ++ default "" (sa_url s)
  else if String.eqb (sa_type s) "dial" && truthy (phone_number s)
  then sms_text ++ nl ++ "Call: " ++ default "" (phone_number s)
  else sms_text.

Definition DeliveryAttempt_to_sms_text (self : MessageContent.t) : string :=
  let sms_text := MessageContent.text self in
  let sms_text :=
    match MessageContent.rich_card self with
    | Some card =>
        let sms_text :=
          if truthy (title card)
          then sms_text ++ nl ++ nl ++ default "" (title card)
          else sms_text in
        let sms_text :=
          if truthy (description card)
          then sms_text ++ nl ++ default "" (description card)
          else sms_text in
        if truthy (media_url card)
        then sms_text ++ nl ++ "View: " ++ default "" (media_url card)
        else sms_text
    | None => sms_text
    end in
  let sms_text :=
    match MessageContent.suggestions self with
    | [] => sms_text
    | suggestions =>
        fold_left append_suggestion_as_text suggestions (sms_text ++ nl)
    end in
  let max_length := 1600%nat in
  let sms_text :=
    if (max_length <? String.length sms_text)%nat
    then String.substring 0 (max_length - 3) sms_text ++ "..."
    else sms_text in
  strip sms_text.

(** ** Sample objects *)

Definition sample_card : RichCard :=
  {| title := Some "Sale"; description := Some "Half price today";
     media_url := Some "https://cdn.example/sale.png";
     media_type := Some "image/png"; media_height := "MEDIUM";
     card_suggestions := [] |}.

Definition sample_content : MessageContent.t :=
  {| MessageContent.text := "Hello";
     MessageContent.rich_card := Some sample_card;
     MessageContent.suggestions :=
       [ mkSuggestedAction "url" "Shop" None
           (Some "https://shop.example") None;
         mkSuggestedAction "dial" "Call us" None None
           (Some "+911234567890");
         mkSuggestedAction "reply" "Yes" (Some "yes") None None ] |}.

(** A message as [Message.create] makes it at clock reading 1000. *)
Definition sample_message : Message.t :=
  Message.create 1000 "m-1" "c-1" "t-1" "9876543210" sample_content "high".

(** The same message once the capability check has failed it. *)
Definition sample_unsupported : Message.t :=
  Message.mark_failed 1010 FailureReason.RCS_NOT_SUPPORTED None
    (Some "RCS not supported") sample_message.

(** A text of [n] letters. *)
Fixpoint letters (n : nat) : string :=
  match n with
  | O => EmptyString
  | S n' => String "a"%char (letters n')
  end.

Definition long_content : MessageContent.t :=
  {| MessageContent.text := letters 1700;
     MessageContent.rich_card := None;
     MessageContent.suggestions := [] |}.

Definition long_unsupported : Message.t :=
  Message.mark_failed 1010 FailureReason.RCS_NOT_SUPPORTED None
    (Some "RCS not supported")
    (Message.create 1000 "m-2" "c-1" "t-1" "9876543210" long_content
       "high").

Definition sample_campaign : Campaign.t :=
  Campaign.__init__ 1000 "c-1" "t-1" "Spring sale" PROMOTIONAL "tpl-1"
    CampaignStatus.DRAFT MEDIUM None.

(** The same campaign with an audience of 100 recipients attached. *)
Definition sample_campaign_with_audience : Campaign.t :=
  snd (Campaign.add_audience 1001 "a-1" 100 sample_campaign).

(** The shape of a number in international format: a plus sign, then
    digits only. *)
Definition plus_then_digits (phone : string) : bool :=
  match phone with
  | String "+"%char rest => forallb Message.isdigit (list_ascii_of_string rest)
  | _ => false
  end.

(** A consent table with one opted-out number, and vendors for the service:
    one that accepts every message, one that answers every send with a rate
    limit and asks for 30 seconds. *)
Definition sample_opted_out (phone : string) (tenant : UUID) : bool :=
  String.eqb phone "+911111111111".

Definition capable (phones : list string)
    : result (list CapabilityCheckResult) :=
  Ok (map (fun phone => mkCapabilityCheckResult phone true 0 []) phones).

Definition accepting_vendor : AggregatorPort :=
  {| send_rcs_message := fun _ =>
       Ok (mkSendMessageResponse true (Some "ext-1") None None None);
     send_sms_message := fun _ =>
       Ok (mkSendMessageResponse true (Some "ext-1") None None None);
     check_rcs_capability := capable;
     get_name := "vendorX" |}.

Definition rate_limiting_vendor : AggregatorPort :=
  {| send_rcs_message := fun _ =>
       Raise (RateLimitException "Rate limit exceeded" None (Some 30));
     send_sms_message := fun _ =>
       Raise (RateLimitException "Rate limit exceeded" None (Some 30));
     check_rcs_capability := capable;
     get_name := "vendorX" |}.

Definition empty_world : DeliveryService.World :=
  DeliveryService.mkWorld ∅ [] [].

(** The world in which the sample message has been saved. *)
Definition sample_world : DeliveryService.World :=
  DeliveryService.save sample_message empty_world.

(** ** Notions used by the properties of the message *)

(** [sub] occurs in [s] as a contiguous piece. *)
Definition occurs_in (sub s : string) : Prop :=
  exists pre post, s = pre ++ sub ++ post.

(** The attempts of a log carry the numbers 1, 2, 3, ... in order. *)
Definition numbered (log : list DeliveryAttempt) : Prop :=
  forall (i : nat) (a : DeliveryAttempt),
    log !! i = Some a -> attempt_number a = Z.of_nat i + 1.

(** ** campaign.py: the remaining methods of the aggregate

    [Campaign.create] (which strips the name) and [Campaign.complete]
    (whose event carries a nested dictionary with a floating-point rate)
    are not embedded. *)

Module CampaignMethods.

(** Assignment to one counter of [self.stats]. *)
Definition with_stats (f : CampaignStats -> CampaignStats)
    (self : Campaign.t) : Campaign.t :=
  Campaign.set_stats (f (Campaign.stats self)) self.

(** [record_message_sent] ... [record_opt_out], lines 336-364. *)
Definition record_message_sent (now : datetime) (self : Campaign.t)
    : Campaign.t :=
  Campaign.set_updated_at now
    (with_stats (fun st =>
       mkCampaignStats (total_recipients st) (messages_sent st + 1)
         (messages_delivered st) (messages_failed st) (messages_read st)
         (stats_fallback_triggered st) (opt_outs st)) self).

Definition record_message_delivered (now : datetime) (self : Campaign.t)
    : Campaign.t :=
  Campaign.set_updated_at now
    (with_stats (fun st =>
       mkCampaignStats (total_recipients st) (messages_sent st)
         (messages_delivered st + 1) (messages_failed st) (messages_read st)
         (stats_fallback_triggered st) (opt_outs st)) self).

Definition record_message_failed (now : datetime) (self : Campaign.t)
    : Campaign.t :=
  Campaign.set_updated_at now
    (with_stats (fun st =>
       mkCampaignStats (total_recipients st) (messages_sent st)
         (messages_delivered st) (messages_failed st + 1) (messages_read st)
         (stats_fallback_triggered st) (opt_outs st)) self).

Definition record_message_read (now : datetime) (self : Campaign.t)
    : Campaign.t :=
  Campaign.set_updated_at now
    (with_stats (fun st =>
       mkCampaignStats (total_recipients st) (messages_sent st)
         (messages_delivered st) (messages_failed st) (messages_read st + 1)
         (stats_fallback_triggered st) (opt_outs st)) self).

Definition record_fallback (now : datetime) (self : Campaign.t)
    : Campaign.t :=
  Campaign.set_updated_at now
    (with_stats (fun st =>
       mkCampaignStats (total_recipients st) (messages_sent st)
         (messages_delivered st) (messages_failed st) (messages_read st)
         (stats_fallback_triggered st + 1) (opt_outs st)) self).

Definition record_opt_out (now : datetime) (self : Campaign.t)
    : Campaign.t :=
  Campaign.set_updated_at now
    (with_stats (fun st =>
       mkCampaignStats (total_recipients st) (messages_sent st)
         (messages_delivered st) (messages_failed st) (messages_read st)
         (stats_fallback_triggered st) (opt_outs st + 1)) self).

(** [is_active], [is_completed], [can_be_modified], lines 366-376. *)
Definition is_active (self : Campaign.t) : bool :=
  bool_decide (Campaign.status self = CampaignStatus.ACTIVE).

Definition is_completed (self : Campaign.t) : bool :=
  bool_decide (Campaign.status self = CampaignStatus.COMPLETED).

Definition can_be_modified (self : Campaign.t) : bool :=
  bool_decide (Campaign.status self ∈ [CampaignStatus.DRAFT;
                                       CampaignStatus.SCHEDULED]).

(** [collect_events], lines 394-398: the pending events, and the campaign
    with none pending. *)
Definition collect_events (self : Campaign.t)
    : list DomainEvent * Campaign.t :=
  (Campaign._events self, Campaign.set__events [] self).

(** The counters that the [record_*] methods advance. *)
Inductive Counter : Type :=
  | Sent | Delivered | Failed | Read | Fallback | OptOut.

Definition record (k : Counter) (now : datetime) (self : Campaign.t)
    : Campaign.t :=
  match k with
  | Sent => record_message_sent now self
  | Delivered => record_message_delivered now self
  | Failed => record_message_failed now self
  | Read => record_message_read now self
  | Fallback => record_fallback now self
  | OptOut => record_opt_out now self
  end.

(** One constructor per embedded method that changes the campaign, with
    its arguments, the clock reading and, where an event is made, the
    event's [uuid4()]. *)
Inductive Op : Type :=
  | OpSchedule (now : datetime) (fresh : UUID) (scheduled : PyDatetime)
  | OpActivate (now : datetime) (fresh : UUID)
  | OpPause (now : datetime) (fresh : UUID)
  | OpResume (now : datetime) (fresh : UUID)
  | OpCancel (now : datetime) (fresh : UUID) (reason : string)
  | OpAddAudience (now : datetime) (audience_id : UUID) (count : Z)
  | OpRecord (k : Counter) (now : datetime).

Definition call (op : Op) : M Campaign.t unit :=
  match op with
  | OpSchedule now fresh at_ => Campaign.schedule now fresh at_
  | OpActivate now fresh => Campaign.activate now fresh
  | OpPause now fresh => Campaign.pause now fresh
  | OpResume now fresh => Campaign.resume now fresh
  | OpCancel now fresh reason => Campaign.cancel now fresh reason
  | OpAddAudience now aid n => Campaign.add_audience now aid n
  | OpRecord k now => modify (record k now)
  end.

(** The campaign after a sequence of calls, whatever each one's outcome. *)
Definition run (ops : list Op) (self : Campaign.t) : Campaign.t :=
  fold_left (fun c op => snd (call op c)) ops self.

(** The arrows of the life cycle that the embedded methods can take. *)
Definition transition (a b : CampaignStatus.t) : bool :=
  match a, b with
  | CampaignStatus.DRAFT, CampaignStatus.SCHEDULED
  | CampaignStatus.DRAFT, CampaignStatus.ACTIVE
  | CampaignStatus.SCHEDULED, CampaignStatus.ACTIVE
  | CampaignStatus.ACTIVE, CampaignStatus.PAUSED
  | CampaignStatus.PAUSED, CampaignStatus.ACTIVE
  | CampaignStatus.DRAFT, CampaignStatus.CANCELLED
  | CampaignStatus.SCHEDULED, CampaignStatus.CANCELLED
  | CampaignStatus.ACTIVE, CampaignStatus.CANCELLED
  | CampaignStatus.PAUSED, CampaignStatus.CANCELLED
  | CampaignStatus.FAILED, CampaignStatus.CANCELLED => true
  | _, _ => false
  end.

(** The event type a method appends when it returns, if it appends one. *)
Definition event_type_of (op : Op) : option string :=
  match op with
  | OpSchedule _ _ _ => Some "campaign.scheduled"
  | OpActivate _ _ => Some "campaign.activated"
  | OpPause _ _ => Some "campaign.paused"
  | OpResume _ _ => Some "campaign.resumed"
  | OpCancel _ _ _ => Some "campaign.cancelled"
  | OpAddAudience _ _ _ | OpRecord _ _ => None
  end.

(** [add_audience] called for each audience of a list, in order. *)
Definition add_audiences (now : datetime) (audiences : list (UUID * Z))
    (self : Campaign.t) : Campaign.t :=
  fold_left (fun c a => snd (Campaign.add_audience now (fst a) (snd a) c))
            audiences self.
End CampaignMethods.

(** ** delivery_service.py: delivery status updates *)

Module StatusUpdates.

(** The rows that [select ... where external_id == :external_id] finds. *)
Definition rows_with_external_id (external_id : string)
    (w : DeliveryService.World) : list Message.t :=
  filter (fun m => Message.external_id m = Some external_id)
         (snd <$> map_to_list (DeliveryService.messages w)).

(** [uow.messages.get_by_external_id], message_repo.py: the row, [None] when
    there is none; [scalar_one_or_none()] raises when there are several. *)
Definition get_by_external_id (external_id : string)
    : M DeliveryService.World (option Message.t) :=
  fun w =>
    match rows_with_external_id external_id w with
    | [] => (Ok None, w)
    | [message] => (Ok (Some message), w)
    | _ => (Raise (OtherException "MultipleResultsFound"), w)
    end.

(** The branches of [handle_delivery_status_update] on the loaded message,
    lines 284-307. *)
Definition apply_status (now : datetime) (status : string)
    (error_code_ error_message_ : option string)
    : M DeliveryService.Local unit :=
  (if String.eqb status "delivered" then
     DeliveryService.call_message (Message.mark_delivered now) ;;;
     message <- DeliveryService.the_message ;;
     DeliveryService.on_world
       (DeliveryService.update_stats (Message.campaign_id message)
          "messages_delivered" 1)
   else if String.eqb status "read" then
     DeliveryService.call_message (Message.mark_read now) ;;;
     message <- DeliveryService.the_message ;;
     DeliveryService.on_world
       (DeliveryService.update_stats (Message.campaign_id message)
          "messages_read" 1)
   else if String.eqb status "failed" then
     DeliveryService.on_message
       (Message.mark_failed now FailureReason.NETWORK_ERROR
          error_code_ error_message_) ;;;
     message <- DeliveryService.the_message ;;
     if Message.should_fallback_to_sms message
     then DeliveryService._queue_fallback now
     else ret tt
   else ret tt) ;;;
  DeliveryService.save_message.

(** [handle_delivery_status_update], lines 261-307. *)
Definition handle_delivery_status_update (now : datetime)
    (external_id status : string)
    (error_code_ error_message_ : option string)
    : M DeliveryService.World unit :=
  DeliveryService.with_uow (
    found <- get_by_external_id external_id ;;
    match found with
    | None => ret tt
    | Some message =>
        fun w =>
          let '(r, (_, w')) :=
            apply_status now status error_code_ error_message_
                         (message, w) in
          (r, w')
    end).
End StatusUpdates.

(** ** campaign_repo.py: the mapping between the aggregate and its row

    The session is a map from ids to rows; a column declared with an enum
    holds the member. *)

Module CampaignRepo.

(** [CampaignModel], models.py, with the two timestamps of [Base]. *)
Record CampaignModel : Type := mkCampaignModel {
  row_id : UUID;
  row_tenant_id : UUID;
  row_name : string;
  row_status : CampaignStatus.t;
  row_campaign_type : CampaignType;
  row_priority : Priority;
  row_template_id : UUID;
  row_scheduled_for : option datetime;
  row_enable_fallback : bool;
  row_fallback_channel : string;
  row_rate_limit : option Z;
  row_recipient_count : Z;
  row_messages_sent : Z;
  row_messages_delivered : Z;
  row_messages_failed : Z;
  row_messages_read : Z;
  row_fallback_triggered : Z;
  row_opt_outs : Z;
  row_metadata_ : gmap string string;
  row_tags : list string;
  row_created_at : datetime;
  row_updated_at : datetime
}.

(** [_to_model], lines 342-375. *)
Definition _to_model (campaign : Campaign.t) : CampaignModel :=
  {| row_id := Campaign.id campaign;
     row_tenant_id := Campaign.tenant_id campaign;
     row_name := Campaign.name campaign;
     row_status := Campaign.status campaign;
     row_campaign_type := Campaign.campaign_type campaign;
     row_priority := Campaign.priority campaign;
     row_template_id := Campaign.template_id campaign;
     row_scheduled_for := Campaign.scheduled_for campaign;
     row_enable_fallback := Campaign.enable_fallback campaign;
     row_fallback_channel := Campaign.fallback_channel campaign;
     row_rate_limit := Campaign.rate_limit campaign;
     row_recipient_count := Campaign.recipient_count campaign;
     row_messages_sent := messages_sent (Campaign.stats campaign);
     row_messages_delivered := messages_delivered (Campaign.stats campaign);
     row_messages_failed := messages_failed (Campaign.stats campaign);
     row_messages_read := messages_read (Campaign.stats campaign);
     row_fallback_triggered :=
       stats_fallback_triggered (Campaign.stats campaign);
     row_opt_outs := opt_outs (Campaign.stats campaign);
     row_metadata_ := Campaign.metadata campaign;
     row_tags := Campaign.tags campaign;
     row_created_at := Campaign.created_at campaign;
     row_updated_at := Campaign.updated_at campaign |}.

(** [_to_domain], lines 298-340: [Campaign(...)] with the two timestamps
    given (campaign.py lines 136-137 then take them), followed by the
    assignments. *)
Definition _to_domain (model : CampaignModel) : Campaign.t :=
  {| Campaign.id := row_id model;
     Campaign.tenant_id := row_tenant_id model;
     Campaign.name := row_name model;
     Campaign.campaign_type := row_campaign_type model;
     Campaign.template_id := row_template_id model;
     Campaign.status := row_status model;
     Campaign.priority := row_priority model;
     Campaign.scheduled_for := row_scheduled_for model;
     Campaign.created_at := row_created_at model;
     Campaign.updated_at := row_updated_at model;
     Campaign.audience_ids := [];
     Campaign.recipient_count := row_recipient_count model;
     Campaign.enable_fallback := row_enable_fallback model;
     Campaign.fallback_channel := row_fallback_channel model;
     Campaign.rate_limit := row_rate_limit model;
     Campaign.stats :=
       mkCampaignStats (row_recipient_count model) (row_messages_sent model)
         (row_messages_delivered model) (row_messages_failed model)
         (row_messages_read model) (row_fallback_triggered model)
         (row_opt_outs model);
     Campaign.metadata := row_metadata_ model;
     Campaign.tags := row_tags model;
     Campaign._events := [] |}.

(** [_update_from_domain], lines 377-406; [now] is its
    [datetime.utcnow()]. *)
Definition _update_from_domain (now : datetime) (model : CampaignModel)
    (campaign : Campaign.t) : CampaignModel :=
  {| row_id := row_id model;
     row_tenant_id := row_tenant_id model;
     row_name := Campaign.name campaign;
     row_status := Campaign.status campaign;
     row_campaign_type := Campaign.campaign_type campaign;
     row_priority := Campaign.priority campaign;
     row_template_id := row_template_id model;
     row_scheduled_for := Campaign.scheduled_for campaign;
     row_enable_fallback := Campaign.enable_fallback campaign;
     row_fallback_channel := Campaign.fallback_channel campaign;
     row_rate_limit := Campaign.rate_limit campaign;
     row_recipient_count := Campaign.recipient_count campaign;
     row_messages_sent := messages_sent (Campaign.stats campaign);
     row_messages_delivered := messages_delivered (Campaign.stats campaign);
     row_messages_failed := messages_failed (Campaign.stats campaign);
     row_messages_read := messages_read (Campaign.stats campaign);
     row_fallback_triggered :=
       stats_fallback_triggered (Campaign.stats campaign);
     row_opt_outs := opt_outs (Campaign.stats campaign);
     row_metadata_ := Campaign.metadata campaign;
     row_tags := Campaign.tags campaign;
     row_created_at := row_created_at model;
     row_updated_at := now |}.

(** [save], lines 52-79: update of the row with the campaign's id, or
    insertion of a new one. *)
Definition save (now : datetime) (campaign : Campaign.t)
    (rows : gmap UUID CampaignModel) : gmap UUID CampaignModel :=
  match rows !! Campaign.id campaign with
  | Some existing =>
      <[Campaign.id campaign := _update_from_domain now existing campaign]>
        rows
  | None => <[Campaign.id campaign := _to_model campaign]> rows
  end.

(** [get_by_id], lines 81-98. *)
Definition get_by_id (id_ : UUID) (rows : gmap UUID CampaignModel)
    : option Campaign.t :=
  _to_domain <$> rows !! id_.

(** [id] is the primary key of the table: every row is found under its
    own id. *)
Definition keyed (rows : gmap UUID CampaignModel) : Prop :=
  forall k row, rows !! k = Some row -> row_id row = k.
End CampaignRepo.

(** ** campaign_service.py *)

Module CampaignService.

(** A row of the event log ([EventModel]) as [save_event] writes it; its
    own id and its time of writing are left out. *)
Record SavedEvent : Type := mkSavedEvent {
  saved_event_type : string;
  saved_aggregate_id : UUID;
  saved_aggregate_type : string;
  saved_version : Z;
  saved_data : list (string * EventValue)
}.

(** The rows that [select(EventModel).where(aggregate_id == :aggregate_id)]
    finds. *)
Definition events_of (aggregate_id_ : UUID) (log : list SavedEvent)
    : list SavedEvent :=
  List.filter (fun e => bool_decide (saved_aggregate_id e = aggregate_id_))
              log.

(** [SQLAlchemyEventRepository.save_event], event_repo.py lines 54-105.
    The last event is read with [scalar_one_or_none()] (line 81), which
    gives [None] for no row, the row when there is one, and raises
    [MultipleResultsFound] when the query finds more than one. *)
Definition save_event (event_type_ : string) (aggregate_id_ : UUID)
    (aggregate_type : string) (data_ : list (string * EventValue))
    : M (list SavedEvent) unit :=
  fun log =>
    match events_of aggregate_id_ log with
    | [] =>
        (Ok tt,
         (log ++ [mkSavedEvent event_type_ aggregate_id_ aggregate_type 1
                               data_])%list)
    | [last_event] =>
        (Ok tt,
         (log ++ [mkSavedEvent event_type_ aggregate_id_ aggregate_type
                               (saved_version last_event + 1) data_])%list)
    | _ :: _ :: _ => (Raise (OtherException "MultipleResultsFound"), log)
    end.

(** The loop of [_publish_events], lines 445-451. *)
Fixpoint save_events (pending : list DomainEvent)
    : M (list SavedEvent) unit :=
  match pending with
  | [] => ret tt
  | event :: rest =>
      save_event (event_type event) (aggregate_id event) "campaign"
                 (data event) ;;;
      save_events rest
  end.

(** What the service acts on: the rows of the campaigns, the event log and
    the calls on the queue, the last two in order. *)
Record World : Type := mkWorld {
  campaigns : gmap UUID CampaignRepo.CampaignModel;
  events : list SavedEvent;
  queue_calls : list QueueCall
}.

(** [async with self.uow]: as for the delivery service, an exception that
    leaves the block undoes what was written to the rows and the events;
    what was sent to the queue stays sent. *)
Definition with_uow {A} (body : M World A) : M World A :=
  fun w =>
    match body w with
    | (Ok a, w') => (Ok a, w')
    | (Raise e, w') =>
        (Raise e, {| campaigns := campaigns w; events := events w;
                     queue_calls := queue_calls w' |})
    end.

(** [CampaignService._map_priority], lines 453-461. *)
Definition _map_priority (priority : Priority) : QueuePriority.t :=
  match priority with
  | LOW => QueuePriority.LOW
  | MEDIUM => QueuePriority.MEDIUM
  | HIGH => QueuePriority.HIGH
  | URGENT => QueuePriority.URGENT
  end.

(** The [QueueMessage] of lines 201-206 and 247-252. *)
Definition orchestration_job (campaign_id : UUID) (campaign : Campaign.t)
    : QueueMessage :=
  {| qm_id := "campaign-" ++ campaign_id;
     queue_name := "campaign.orchestrator";
     payload := {[ "campaign_id" := campaign_id ]};
     qm_priority := _map_priority (Campaign.priority campaign);
     delay := None;
     qm_max_retries := 3;
     retry_backoff := 60;
     qm_metadata := None |}.

(** The state of a service call once the campaign is loaded: the object
    bound to [campaign], and the world. *)
Definition Local : Type := Campaign.t * World.

(** [campaign = await self.uow.campaigns.get_by_id(campaign_id)] and the
    [raise ValueError] when there is none; then the rest of the block on
    the loaded campaign. *)
Definition with_campaign (campaign_id : UUID) (rest : M Local unit)
    : M World Campaign.t :=
  with_uow (fun w =>
    match CampaignRepo.get_by_id campaign_id (campaigns w) with
    | None => (Raise (ValueError ("Campaign " ++ campaign_id ++ " not found")), w)
    | Some campaign =>
        match rest (campaign, w) with
        | (Ok _, (campaign', w')) => (Ok campaign', w')
        | (Raise e, (_, w')) => (Raise e, w')
        end
    end).

Definition call_campaign (method : M Campaign.t unit) : M Local unit :=
  fun s => let '(r, campaign) := method (fst s) in (r, (campaign, snd s)).

(** [campaign = await self.uow.campaigns.save(campaign)]. *)
Definition save_campaign (now : datetime) : M Local unit :=
  modify (fun s =>
    (fst s,
     {| campaigns := CampaignRepo.save now (fst s) (campaigns (snd s));
        events := events (snd s);
        queue_calls := queue_calls (snd s) |})).

(** [_publish_events], lines 436-451. *)
Definition _publish_events : M Local unit :=
  fun s =>
    let '(pending, campaign) := CampaignMethods.collect_events (fst s) in
    let '(r, log) := save_events pending (events (snd s)) in
    (r, (campaign,
         {| campaigns := campaigns (snd s); events := log;
            queue_calls := queue_calls (snd s) |})).

Definition queue_call (c : QueueCall) : M Local unit :=
  modify (fun s =>
    (fst s,
     {| campaigns := campaigns (snd s); events := events (snd s);
        queue_calls := (queue_calls (snd s) ++ [c])%list |})).

(** [add_audience], lines 129-166; [now] is the clock of the call and
    [fresh] the [uuid4()] of an event, here and below. *)
Definition add_audience (now : datetime) (campaign_id audience_id : UUID)
    (recipient_phones : list string) : M World Campaign.t :=
  with_campaign campaign_id (
    call_campaign
      (Campaign.add_audience now audience_id
         (Z.of_nat (List.length recipient_phones))) ;;;
    save_campaign now).

(** [schedule_campaign], lines 168-214, with [queue_schedule] for the
    [self.queue.schedule] of line 200. *)
Definition schedule_campaign_on
    (queue_schedule : QueueMessage -> PyDatetime -> M Local unit)
    (now : datetime) (fresh : UUID)
    (campaign_id : UUID) (scheduled_for : PyDatetime)
    : M World Campaign.t :=
  with_campaign campaign_id (
    call_campaign (Campaign.schedule now fresh scheduled_for) ;;;
    save_campaign now ;;;
    _publish_events ;;;
    fun s =>
      queue_schedule (orchestration_job campaign_id (fst s)) scheduled_for
                     s).

(** Two queues: one that takes every call and keeps it, as the other
    methods of the service have it here, and the RabbitMQ adapter, which
    serves [schedule] at its own clock reading [served] and enqueues the job
    it has made. *)
Definition recorded_schedule (message : QueueMessage)
    (scheduled_for : PyDatetime) : M Local unit :=
  queue_call (Schedule message (reading scheduled_for)).

Definition rabbitmq_schedule_call (served : datetime)
    (message : QueueMessage) (scheduled_for : PyDatetime)
    : M Local unit :=
  job <- lift (RabbitMQAdapter.schedule served message scheduled_for) ;;
  queue_call (Enqueue job).

Definition schedule_campaign
    : datetime -> UUID -> UUID -> PyDatetime -> M World Campaign.t :=
  schedule_campaign_on recorded_schedule.

(** [activate_campaign], lines 216-257. *)
Definition activate_campaign (now : datetime) (fresh : UUID)
    (campaign_id : UUID) : M World Campaign.t :=
  with_campaign campaign_id (
    call_campaign (Campaign.activate now fresh) ;;;
    save_campaign now ;;;
    _publish_events ;;;
    fun s => queue_call (Enqueue (orchestration_job campaign_id (fst s))) s).

(** [pause_campaign], [resume_campaign] and [cancel_campaign], lines
    259-340. *)
Definition pause_campaign (now : datetime) (fresh : UUID)
    (campaign_id : UUID) : M World Campaign.t :=
  with_campaign campaign_id (
    call_campaign (Campaign.pause now fresh) ;;;
    save_campaign now ;;;
    _publish_events).

Definition resume_campaign (now : datetime) (fresh : UUID)
    (campaign_id : UUID) : M World Campaign.t :=
  with_campaign campaign_id (
    call_campaign (Campaign.resume now fresh) ;;;
    save_campaign now ;;;
    _publish_events).

Definition cancel_campaign (now : datetime) (fresh : UUID)
    (campaign_id : UUID) (reason : string) : M World Campaign.t :=
  with_campaign campaign_id (
    call_campaign (Campaign.cancel now fresh reason) ;;;
    save_campaign now ;;;
    _publish_events).

(** The calls on the service that change a campaign. *)
Inductive Op : Type :=
  | AddAudience (now : datetime) (audience_id : UUID)
                (recipient_phones : list string)
  | ScheduleCampaign (now : datetime) (fresh : UUID)
                     (scheduled_for : PyDatetime)
  | ActivateCampaign (now : datetime) (fresh : UUID)
  | PauseCampaign (now : datetime) (fresh : UUID)
  | ResumeCampaign (now : datetime) (fresh : UUID)
  | CancelCampaign (now : datetime) (fresh : UUID) (reason : string).

Definition call (campaign_id : UUID) (op : Op) : M World Campaign.t :=
  match op with
  | AddAudience now audience_id recipient_phones =>
      add_audience now campaign_id audience_id recipient_phones
  | ScheduleCampaign now fresh scheduled_for =>
      schedule_campaign now fresh campaign_id scheduled_for
  | ActivateCampaign now fresh => activate_campaign now fresh campaign_id
  | PauseCampaign now fresh => pause_campaign now fresh campaign_id
  | ResumeCampaign now fresh => resume_campaign now fresh campaign_id
  | CancelCampaign now fresh reason =>
      cancel_campaign now fresh campaign_id reason
  end.

(** The calls that go through [_publish_events]. *)
Definition publishes (op : Op) : bool :=
  match op with
  | AddAudience _ _ _ => false
  | _ => true
  end.

(** The method of the campaign that a call makes, the clock reading it
    passes to [save], and what it sends to the queue once the campaign
    is saved and its events are published. *)
Definition method_of (op : Op) : CampaignMethods.Op :=
  match op with
  | AddAudience now audience_id recipient_phones =>
      CampaignMethods.OpAddAudience now audience_id
        (Z.of_nat (List.length recipient_phones))
  | ScheduleCampaign now fresh scheduled_for =>
      CampaignMethods.OpSchedule now fresh scheduled_for
  | ActivateCampaign now fresh => CampaignMethods.OpActivate now fresh
  | PauseCampaign now fresh => CampaignMethods.OpPause now fresh
  | ResumeCampaign now fresh => CampaignMethods.OpResume now fresh
  | CancelCampaign now fresh reason =>
      CampaignMethods.OpCancel now fresh reason
  end.

Definition clock_of (op : Op) : datetime :=
  match op with
  | AddAudience now _ _ | ScheduleCampaign now _ _ | ActivateCampaign now _
  | PauseCampaign now _ | ResumeCampaign now _ | CancelCampaign now _ _ =>
      now
  end.

Definition queued (campaign_id : UUID) (op : Op) (campaign : Campaign.t)
    : list QueueCall :=
  match op with
  | ScheduleCampaign _ _ scheduled_for =>
      [Schedule (orchestration_job campaign_id campaign)
                (reading scheduled_for)]
  | ActivateCampaign _ _ => [Enqueue (orchestration_job campaign_id campaign)]
  | _ => []
  end.

(** Calls made one after the other on one campaign, whatever each one
    answers: how many of those that publish returned, and the world after
    the last. *)
Fixpoint returned (campaign_id : UUID) (ops : list Op) (w : World)
    : nat * World :=
  match ops with
  | [] => (0%nat, w)
  | op :: rest =>
      let '(r, w') := call campaign_id op w in
      let '(n, w'') := returned campaign_id rest w' in
      (match r with
       | Ok _ => if publishes op then S n else n
       | Raise _ => n
       end, w'')
  end.
End CampaignService.

(** Worlds of the campaign service: with the sample campaign stored, and
    with the one that has an audience stored. *)
Definition campaign_world : CampaignService.World :=
  CampaignService.mkWorld
    (CampaignRepo.save 1000 sample_campaign ∅) [] [].

Definition audience_world : CampaignService.World :=
  CampaignService.mkWorld
    (CampaignRepo.save 1001 sample_campaign_with_audience ∅) [] [].

(** ** message_repo.py: the mapping between a message and its row

    As for the campaigns, the session is a map from ids to rows. *)

Module MessageRepo.

(** The dict written under the key "rich_card" (lines 413-418). *)
Record CardData : Type := mkCardData {
  cd_title : option string;
  cd_description : option string;
  cd_media_url : option string;
  cd_media_type : option string
}.

(** The JSON of the [content] column (lines 409-429). The key "rich_card"
    is there when the content has a card. A suggestion is written with its
    five fields, one dict each, kept here as the [SuggestedAction] with
    those fields; the key "suggestions" is there when the list is not
    empty, and no key reads as the empty list (line 365). *)
Record ContentData : Type := mkContentData {
  cd_text : string;
  cd_rich_card : option CardData;
  cd_suggestions : list SuggestedAction
}.

(** [MessageModel], models.py lines 118-205, with the two timestamps of
    [Base]. *)
Record MessageModel : Type := mkMessageModel {
  row_id : UUID;
  row_campaign_id : UUID;
  row_tenant_id : UUID;
  row_recipient_phone : string;
  row_status : MessageStatus.t;
  row_channel : MessageChannel.t;
  row_priority : string;
  row_content : ContentData;
  row_queued_at : option datetime;
  row_sent_at : option datetime;
  row_delivered_at : option datetime;
  row_read_at : option datetime;
  row_failed_at : option datetime;
  row_expires_at : datetime;
  row_retry_count : Z;
  row_max_retries : Z;
  row_fallback_enabled : bool;
  row_fallback_triggered : bool;
  row_aggregator : option string;
  row_external_id : option string;
  row_failure_reason : option FailureReason.t;
  row_metadata_ : gmap string string;
  row_created_at : datetime;
  row_updated_at : datetime
}.

(** [_to_model], lines 406-456. *)
Definition _to_model (message : Message.t) : MessageModel :=
  let content := Message.content message in
  {| row_id := Message.id message;
     row_campaign_id := Message.campaign_id message;
     row_tenant_id := Message.tenant_id message;
     row_recipient_phone := Message.recipient_phone message;
     row_status := Message.status message;
     row_channel := Message.channel message;
     row_priority := Message.priority message;
     row_content :=
       {| cd_text := MessageContent.text content;
          cd_rich_card :=
            match MessageContent.rich_card content with
            | Some card =>
                Some (mkCardData (title card) (description card)
                        (media_url card) (media_type card))
            | None => None
            end;
          cd_suggestions := MessageContent.suggestions content |};
     row_queued_at := Message.queued_at message;
     row_sent_at := Message.sent_at message;
     row_delivered_at := Message.delivered_at message;
     row_read_at := Message.read_at message;
     row_failed_at := Message.failed_at message;
     row_expires_at := Message.expires_at message;
     row_retry_count := Message.retry_count message;
     row_max_retries := Message.max_retries message;
     row_fallback_enabled := Message.fallback_enabled message;
     row_fallback_triggered := Message.fallback_triggered message;
     row_aggregator := Message.aggregator message;
     row_external_id := Message.external_id message;
     row_failure_reason := Message.failure_reason message;
     row_metadata_ := Message.metadata message;
     row_created_at := Message.created_at message;
     row_updated_at := Message.updated_at message |}.

(** The content that [_to_domain] builds (lines 361-366). [MessageContent]
    is given the values of the JSON as they are: [rich_card] is the dict of
    the card, not a [RichCard], and [suggestions] is a list of dicts. They
    are written here as the objects with the same entries (the card with
    the class defaults for the two fields the dict does not have), and the
    code that reads an attribute of one of them is given for such a
    content by [StoredDelivery.to_sms_text]. *)
Definition loaded_content (content_data : ContentData) : MessageContent.t :=
  {| MessageContent.text := cd_text content_data;
     MessageContent.rich_card :=
       match cd_rich_card content_data with
       | Some card =>
           Some (mkRichCard (cd_title card) (cd_description card)
                   (cd_media_url card) (cd_media_type card) "MEDIUM" [])
       | None => None
       end;
     MessageContent.suggestions := cd_suggestions content_data |}.

(** [_to_domain], lines 358-404: [Message(...)], which normalises the phone
    number once more, then the assignments; the attempt log of the new
    object stays empty. *)
Definition _to_domain (model : MessageModel) : Message.t :=
  {| Message.id := row_id model;
     Message.campaign_id := row_campaign_id model;
     Message.tenant_id := row_tenant_id model;
     Message.recipient_phone :=
       Message._normalize_phone (row_recipient_phone model);
     Message.content := loaded_content (row_content model);
     Message.status := row_status model;
     Message.channel := row_channel model;
     Message.priority := row_priority model;
     Message.created_at := row_created_at model;
     Message.updated_at := row_updated_at model;
     Message.queued_at := row_queued_at model;
     Message.sent_at := row_sent_at model;
     Message.delivered_at := row_delivered_at model;
     Message.read_at := row_read_at model;
     Message.failed_at := row_failed_at model;
     Message.expires_at := row_expires_at model;
     Message.retry_count := row_retry_count model;
     Message.max_retries := row_max_retries model;
     Message.fallback_enabled := row_fallback_enabled model;
     Message.fallback_triggered := row_fallback_triggered model;
     Message.delivery_attempts := [];
     Message.aggregator := row_aggregator model;
     Message.external_id := row_external_id model;
     Message.failure_reason := row_failure_reason model;
     Message.metadata := row_metadata_ model |}.

(** [_update_from_domain], lines 458-479; [now] is its
    [datetime.utcnow()]. The content, the retry limit and the fallback
    switch of the row are not written. *)
Definition _update_from_domain (now : datetime) (model : MessageModel)
    (message : Message.t) : MessageModel :=
  {| row_id := row_id model;
     row_campaign_id := row_campaign_id model;
     row_tenant_id := row_tenant_id model;
     row_recipient_phone := row_recipient_phone model;
     row_status := Message.status message;
     row_channel := Message.channel message;
     row_priority := row_priority model;
     row_content := row_content model;
     row_queued_at := Message.queued_at message;
     row_sent_at := Message.sent_at message;
     row_delivered_at := Message.delivered_at message;
     row_read_at := Message.read_at message;
     row_failed_at := Message.failed_at message;
     row_expires_at := row_expires_at model;
     row_retry_count := Message.retry_count message;
     row_max_retries := row_max_retries model;
     row_fallback_enabled := row_fallback_enabled model;
     row_fallback_triggered := Message.fallback_triggered message;
     row_aggregator := Message.aggregator message;
     row_external_id := Message.external_id message;
     row_failure_reason := Message.failure_reason message;
     row_metadata_ := Message.metadata message;
     row_created_at := row_created_at model;
     row_updated_at := now |}.

(** [save], lines 50-75. *)
Definition save (now : datetime) (message : Message.t)
    (rows : gmap UUID MessageModel) : gmap UUID MessageModel :=
  match rows !! Message.id message with
  | Some existing =>
      <[Message.id message := _update_from_domain now existing message]>
        rows
  | None => <[Message.id message := _to_model message]> rows
  end.

(** [get_by_id], lines 98-115. *)
Definition get_by_id (id_ : UUID) (rows : gmap UUID MessageModel)
    : option Message.t :=
  _to_domain <$> rows !! id_.

(** The rows that [select ... where external_id == :external_id] finds,
    and [get_by_external_id], lines 179-201: [scalar_one_or_none()] raises
    when there are several. *)
Definition rows_with_external_id (external_id : string)
    (rows : gmap UUID MessageModel) : list MessageModel :=
  filter (fun row => row_external_id row = Some external_id)
         (snd <$> map_to_list rows).

Definition get_by_external_id (external_id : string)
    (rows : gmap UUID MessageModel) : result (option Message.t) :=
  match rows_with_external_id external_id rows with
  | [] => Ok None
  | [model] => Ok (Some (_to_domain model))
  | _ => Raise (OtherException "MultipleResultsFound")
  end.

(** [id] is the primary key of the table. *)
Definition keyed (rows : gmap UUID MessageModel) : Prop :=
  forall k row, rows !! k = Some row -> row_id row = k.

(** A content of text alone: no card, no suggestion. *)
Definition plain (content_data : ContentData) : bool :=
  match cd_rich_card content_data, cd_suggestions content_data with
  | None, [] => true
  | _, _ => false
  end.
End MessageRepo.

(** ** delivery_service.py on the rows of message_repo.py

    [DeliveryService] above keeps a message as it was saved and hands the
    same object back. Here the message goes through the SQLAlchemy
    repository: what the service loads is [_to_domain] of the row, and what
    it saves is what [save] writes to the row. *)

Module StoredDelivery.

Record World : Type := mkWorld {
  rows : gmap UUID MessageRepo.MessageModel;
  stats_updates : list (UUID * string * Z);
  queue_calls : list QueueCall
}.

Definition update_stats (campaign : UUID) (counter : string) (n : Z)
    (w : World) : World :=
  {| rows := rows w;
     stats_updates := (stats_updates w ++ [(campaign, counter, n)])%list;
     queue_calls := queue_calls w |}.

Definition queue_call (c : QueueCall) (w : World) : World :=
  {| rows := rows w;
     stats_updates := stats_updates w;
     queue_calls := (queue_calls w ++ [c])%list |}.

(** [uow.messages.save]. *)
Definition save (now : datetime) (message : Message.t) (w : World)
    : World :=
  {| rows := MessageRepo.save now message (rows w);
     stats_updates := stats_updates w;
     queue_calls := queue_calls w |}.

(** [async with self.uow], as in [DeliveryService.with_uow]. *)
Definition with_uow {A} (body : M World A) : M World A :=
  fun w =>
    match body w with
    | (Ok a, w') => (Ok a, w')
    | (Raise e, w') =>
        (Raise e, {| rows := rows w;
                     stats_updates := stats_updates w;
                     queue_calls := queue_calls w' |})
    end.

(** [MessageContent.to_sms_text], message.py lines 112-130, on the content
    of a loaded message. [self.rich_card], when there is one, is a dict
    with four keys, so it is true and [self.rich_card.media_url] (line 122)
    raises AttributeError; with no card, the first turn of the loop reads
    [suggestion.type] (line 127) of a dict and raises it. *)
Definition to_sms_text (content : MessageContent.t) : result string :=
  match MessageContent.rich_card content with
  | Some _ => Raise attribute_error
  | None =>
      match MessageContent.suggestions content with
      | [] => Ok (MessageContent.text content)
      | _ :: _ => Raise attribute_error
      end
  end.

(** The assignments of [Message.trigger_fallback], message.py lines
    437-444. *)
Definition switched_to_sms (now : datetime) (self : Message.t)
    : Message.t :=
  let self := Message.set_channel MessageChannel.SMS self in
  let self := Message.set_status MessageStatus.PENDING self in
  let self := Message.set_fallback_triggered true self in
  let self := Message.set_retry_count 0 self in
  let self := Message.set_updated_at now self in
  Message.set_metadata
    (<["original_channel" := "rcs"]> (Message.metadata self)) self.

(** [Message.trigger_fallback], message.py lines 432-445, on a loaded
    message: the assignments of lines 437-444 are made when line 445
    raises. *)
Definition trigger_fallback (now : datetime) : M Message.t unit :=
  fun self =>
    if negb (Message.should_fallback_to_sms self) then
      (Raise (ValueError "Cannot trigger fallback for this message"), self)
    else
      let self := switched_to_sms now self in
      match to_sms_text (Message.content self) with
      | Ok sms_text =>
          (Ok tt,
           Message.set_metadata
             (<["sms_text" := sms_text]> (Message.metadata self)) self)
      | Raise e => (Raise e, self)
      end.

Section Service.

Variable aggregator : AggregatorPort.

(** The state once the message is loaded: the object bound to [message],
    and the world. *)
Definition Local : Type := Message.t * World.

Definition the_message : M Local Message.t := fun s => (Ok (fst s), s).

Definition on_message (f : Message.t -> Message.t) : M Local unit :=
  modify (fun s => (f (fst s), snd s)).

Definition call_message (method : M Message.t unit) : M Local unit :=
  fun s =>
    let '(r, message) := method (fst s) in (r, (message, snd s)).

Definition on_world (f : World -> World) : M Local unit :=
  modify (fun s => (fst s, f (snd s))).

(** [await self.uow.messages.save(message)]. *)
Definition save_message (now : datetime) : M Local unit :=
  modify (fun s => (fst s, save now (fst s) (snd s))).

(** [_queue_message_for_delivery], lines 346-358. *)
Definition _queue_message_for_delivery : M Local unit :=
  message <- the_message ;;
  on_world (queue_call (Enqueue (DeliveryService.dispatch_job message))).

(** [_check_rcs_capability], lines 309-314. *)
Definition _check_rcs_capability (phone : string) : M Local bool :=
  results <- lift (check_rcs_capability aggregator [phone]) ;;
  match results with
  | [] => ret false
  | r :: _ => ret (rcs_enabled r)
  end.

(** [_send_via_aggregator], lines 316-344. *)
Definition _send_via_aggregator (now : datetime) : M Local unit :=
  message <- the_message ;;
  let request :=
    {| req_message_id := Message.id message;
       req_recipient_phone := Message.recipient_phone message;
       req_channel := Message.channel message;
       content_text := MessageContent.text (Message.content message);
       req_rich_card := MessageContent.rich_card (Message.content message);
       req_suggestions :=
         MessageContent.suggestions (Message.content message);
       req_priority := Message.priority message |} in
  response <-
    lift (if bool_decide (Message.channel message = MessageChannel.RCS)
          then send_rcs_message aggregator request
          else send_sms_message aggregator request) ;;
  if success response then
    on_message (Message.mark_sent now (get_name aggregator)
                  (resp_external_id response)) ;;;
    save_message now
  else
    raise (AggregatorException
             (if truthy (resp_error_message response)
              then default "" (resp_error_message response)
              else "Unknown aggregator error")
             (resp_error_code response)
             (resp_retry_after response)).

(** [_queue_fallback], lines 376-381. *)
Definition _queue_fallback (now : datetime) : M Local unit :=
  call_message (trigger_fallback now) ;;;
  save_message now ;;;
  _queue_message_for_delivery.

(** [_requeue_with_delay], lines 383-396. *)
Definition _requeue_with_delay (now : datetime) (delay_ : Z)
    : M Local unit :=
  message <- the_message ;;
  on_world (queue_call
              (Schedule (DeliveryService.dispatch_job message) now)).

(** [_handle_delivery_failure], lines 398-414. *)
Definition _handle_delivery_failure (now : datetime) (e : Exception)
    : M Local unit :=
  on_message (Message.mark_failed now FailureReason.NETWORK_ERROR
                (DeliveryService.exception_error_code e)
                (Some (DeliveryService.exception_str e))) ;;;
  message <- the_message ;;
  if Message.should_retry now message then
    on_message (Message.increment_retry now) ;;;
    save_message now ;;;
    _queue_message_for_delivery
  else if Message.should_fallback_to_sms message then
    _queue_fallback now
  else
    save_message now.

(** The immediate fallback of [process_message_delivery], lines 218-227;
    [true] is the [return] of line 227. *)
Definition fall_back_at_once (now : datetime) : M Local bool :=
  on_message (Message.mark_failed now FailureReason.RCS_NOT_SUPPORTED None
                (Some "RCS not supported")) ;;;
  save_message now ;;;
  _queue_fallback now ;;;
  ret true.

(** The capability check of [process_message_delivery], lines 209-227. *)
Definition capability_gate (now : datetime) : M Local bool :=
  message <- the_message ;;
  if bool_decide (Message.channel message = MessageChannel.RCS) then
    rcs_capable <-
      _check_rcs_capability (Message.recipient_phone message) ;;
    if negb rcs_capable then fall_back_at_once now else ret false
  else ret false.

(** The send of [process_message_delivery], lines 229-240. *)
Definition queue_and_send (now : datetime) : M Local unit :=
  call_message (Message.queue now) ;;;
  save_message now ;;;
  _send_via_aggregator now ;;;
  message <- the_message ;;
  on_world (update_stats (Message.campaign_id message) "messages_sent" 1).

(** The body of the [try] of [process_message_delivery], lines 208-240. *)
Definition attempt_delivery (now : datetime) : M Local unit :=
  returned <- capability_gate now ;;
  if (returned : bool) then ret tt else queue_and_send now.

(** The three [except] clauses, lines 242-259, in their order. *)
Definition on_exception (now : datetime) (e : Exception) : M Local unit :=
  match e with
  | RateLimitException _ _ retry_after =>
      _requeue_with_delay now (DeliveryService.retry_after_or_60 retry_after)
  | AggregatorException _ _ _ => _handle_delivery_failure now e
  | _ => _handle_delivery_failure now e
  end.

(** [process_message_delivery], lines 190-259. *)
Definition process_message_delivery (now : datetime) (message_id : UUID)
    : M World unit :=
  with_uow (fun w =>
    match MessageRepo.get_by_id message_id (rows w) with
    | None => (Ok tt, w)
    | Some message =>
        let '(r, (_, w')) :=
          try_except (attempt_delivery now) (on_exception now)
                     (message, w) in
        (r, w')
    end).

(** The branches of [handle_delivery_status_update] on the loaded message,
    lines 284-307. *)
Definition apply_status (now : datetime) (status : string)
    (error_code_ error_message_ : option string) : M Local unit :=
  (if String.eqb status "delivered" then
     call_message (Message.mark_delivered now) ;;;
     message <- the_message ;;
     on_world (update_stats (Message.campaign_id message)
                 "messages_delivered" 1)
   else if String.eqb status "read" then
     call_message (Message.mark_read now) ;;;
     message <- the_message ;;
     on_world (update_stats (Message.campaign_id message)
                 "messages_read" 1)
   else if String.eqb status "failed" then
     on_message
       (Message.mark_failed now FailureReason.NETWORK_ERROR
          error_code_ error_message_) ;;;
     message <- the_message ;;
     if Message.should_fallback_to_sms message
     then _queue_fallback now
     else ret tt
   else ret tt) ;;;
  save_message now.

(** [handle_delivery_status_update], lines 261-307. *)
Definition handle_delivery_status_update (now : datetime)
    (external_id status : string)
    (error_code_ error_message_ : option string) : M World unit :=
  with_uow (fun w =>
    match MessageRepo.get_by_external_id external_id (rows w) with
    | Raise e => (Raise e, w)
    | Ok None => (Ok tt, w)
    | Ok (Some message) =>
        let '(r, (_, w')) :=
          apply_status now status error_code_ error_message_
                       (message, w) in
        (r, w')
    end).

End Service.
End StoredDelivery.

(** ** Notions used by the properties of the services *)

(** Two messages that agree on the fields which decide on a retry and on
    the fallback, the status apart. *)
Definition same_budget (m m' : Message.t) : Prop :=
  Message.channel m' = Message.channel m /\
  Message.fallback_enabled m' = Message.fallback_enabled m /\
  Message.fallback_triggered m' = Message.fallback_triggered m /\
  Message.retry_count m' = Message.retry_count m /\
  Message.max_retries m' = Message.max_retries m.

(** A computation keeps a property of the state, whether it returns or
    raises. *)
Definition preserves {S A : Type} (P : S -> Prop) (c : M S A) : Prop :=
  forall s, P s -> P (snd (c s)).

(** The state of a processing in which the message in hand is [good] and
    the world satisfies [W]. *)
Definition kept_by (good : Message.t -> Prop)
    (W : DeliveryService.World -> Prop) (s : DeliveryService.Local) : Prop :=
  good (fst s) /\ W (snd s).

(** Every row of the world satisfies [good]. *)
Definition all_rows (good : Message.t -> Prop)
    (w : DeliveryService.World) : Prop :=
  forall k m, DeliveryService.messages w !! k = Some m -> good m.

(** The rows under the ids other than [message_id] are those of [w0]. *)
Definition other_rows_of (w0 : DeliveryService.World) (message_id : UUID)
    (w : DeliveryService.World) : Prop :=
  forall k, k <> message_id ->
    DeliveryService.messages w !! k = DeliveryService.messages w0 !! k.

(** The retry counter of a message is within its budget. *)
Definition within_budget (m : Message.t) : Prop :=
  0 <= Message.retry_count m <= Message.max_retries m.

(** A vendor whose every send is refused with a transient error. *)
Definition refusing_vendor : AggregatorPort :=
  {| send_rcs_message := fun _ =>
       Ok (mkSendMessageResponse false None (Some "E503")
             (Some "try later") None);
     send_sms_message := fun _ =>
       Ok (mkSendMessageResponse false None (Some "E503")
             (Some "try later") None);
     check_rcs_capability := capable;
     get_name := "vendorX" |}.

(** A vendor that knows no RCS-capable number. *)
Definition sms_only_vendor : AggregatorPort :=
  {| send_rcs_message := fun _ =>
       Raise (AggregatorException "RCS unavailable" None None);
     send_sms_message := fun _ =>
       Ok (mkSendMessageResponse true (Some "sms-1") None None None);
     check_rcs_capability := fun _ => Ok [];
     get_name := "vendorX" |}.

(** The message the accepting vendor took, as the world then holds it. *)
Definition sent_message : Message.t :=
  Message.mark_sent 2000 "vendorX" (Some "ext-1")
    (snd (Message.queue 2000 sample_message)).

(** The world after the accepting vendor took the sample message. *)
Definition sent_world : DeliveryService.World :=
  snd (DeliveryService.process_message_delivery accepting_vendor 2000 "m-1"
         sample_world).

(** Worlds of the delivery service on stored rows: the row of the sample
    message as [send_message] has it written; the world after the refusing
    vendor was tried once, and after the retries were used up, in three
    processings; and the row of the message the accepting vendor took. *)
Definition stored_world : StoredDelivery.World :=
  StoredDelivery.mkWorld (MessageRepo.save 1000 sample_message ∅) [] [].

Definition refused_world : StoredDelivery.World :=
  snd (StoredDelivery.process_message_delivery refusing_vendor 2010 "m-1"
         stored_world).

Definition exhausted_world : StoredDelivery.World :=
  snd (StoredDelivery.process_message_delivery refusing_vendor 2030 "m-1"
         (snd (StoredDelivery.process_message_delivery refusing_vendor 2020
                 "m-1" refused_world))).

Definition stored_sent_world : StoredDelivery.World :=
  StoredDelivery.mkWorld (MessageRepo.save 2000 sent_message ∅) [] [].

(** * Properties *)

(** ** Shared facts about the message operations *)

Lemma geb_true_iff (a b : Z) : (a >=? b) = true <-> b <= a.
Proof. rewrite Z.geb_leb. apply Z.leb_le. Qed.

Lemma gtb_true_iff (a b : Z) : (a >? b) = true <-> b < a.
Proof. rewrite Z.gtb_ltb. apply Z.ltb_lt. Qed.

(** [trigger_fallback] succeeds exactly when [should_fallback_to_sms]
    holds, and then leaves these fields. *)
Lemma trigger_fallback_ok (now : datetime) (m : Message.t) :
  Message.should_fallback_to_sms m = true ->
  exists m',
    Message.trigger_fallback now m = (Ok tt, m') /\
    Message.channel m' = MessageChannel.SMS /\
    Message.status m' = MessageStatus.PENDING /\
    Message.retry_count m' = 0 /\
    Message.fallback_triggered m' = true /\
    Message.metadata m' !! "sms_text"
      = Some (MessageContent.to_sms_text (Message.content m)).
Proof.
  intros E. unfold Message.trigger_fallback. rewrite E. simpl.
  eexists. split; [reflexivity|]. simpl.
  repeat split; try reflexivity. apply lookup_insert_eq.
Qed.

Lemma trigger_fallback_refused (now : datetime) (m : Message.t) :
  Message.should_fallback_to_sms m = false ->
  Message.trigger_fallback now m
    = (Raise (ValueError "Cannot trigger fallback for this message"), m).
Proof.
  intros E. unfold Message.trigger_fallback. by rewrite E.
Qed.

(** ** The retry decision *)

(** C1. [should_retry()] is true exactly when the status is FAILED,
    [retry_count < max_retries], the clock is not past [expires_at], and
    [failure_reason] is neither INVALID_NUMBER nor BLOCKED. *)
Theorem should_retry_iff (now : datetime) (m : Message.t) :
  Message.should_retry now m = true <->
  Message.status m = MessageStatus.FAILED /\
  Message.retry_count m < Message.max_retries m /\
  ~ (now > Message.expires_at m) /\
  Message.failure_reason m <> Some FailureReason.INVALID_NUMBER /\
  Message.failure_reason m <> Some FailureReason.BLOCKED.
Proof.
  unfold Message.should_retry.
  case_bool_decide as Hs; simpl; [|split; [discriminate | tauto]].
  destruct (Message.retry_count m >=? Message.max_retries m) eqn:Hr.
  { apply geb_true_iff in Hr. split; [discriminate | lia]. }
  destruct (now >? Message.expires_at m) eqn:He.
  { apply gtb_true_iff in He. split; [discriminate | lia]. }
  assert (Message.retry_count m < Message.max_retries m) as Hlt.
  { destruct (Z.lt_ge_cases (Message.retry_count m) (Message.max_retries m))
      as [H|H]; [exact H|]. apply geb_true_iff in H. congruence. }
  assert (~ now > Message.expires_at m) as Hne.
  { intros H. assert (Message.expires_at m < now) as H' by lia.
    apply gtb_true_iff in H'. congruence. }
  case_bool_decide as Hf.
  - split; [discriminate|]. intros (_ & _ & _ & Hn1 & Hn2).
    apply elem_of_cons in Hf as [Hf|Hf]; [congruence|].
    apply elem_of_cons in Hf as [Hf|Hf]; [congruence|].
    by apply elem_of_nil in Hf.
  - split; [|reflexivity]. intros _.
    repeat split; try assumption.
    + intros Heq. apply Hf. rewrite Heq. set_solver.
    + intros Heq. apply Hf. rewrite Heq. set_solver.
Qed.

(** ** Fallback to SMS *)

(** C2. A message in status FAILED with [failure_reason] RCS_NOT_SUPPORTED,
    fallback enabled and not yet triggered, on channel RCS: then
    [should_fallback_to_sms()] is true, and [trigger_fallback()] returns
    and leaves channel SMS, status PENDING, [retry_count] 0 and
    [fallback_triggered] true. *)
Theorem fallback_on_rcs_not_supported (now : datetime) (m : Message.t) :
  Message.status m = MessageStatus.FAILED ->
  Message.failure_reason m = Some FailureReason.RCS_NOT_SUPPORTED ->
  Message.fallback_enabled m = true ->
  Message.fallback_triggered m = false ->
  Message.channel m = MessageChannel.RCS ->
  Message.should_fallback_to_sms m = true /\
  exists m',
    Message.trigger_fallback now m = (Ok tt, m') /\
    Message.channel m' = MessageChannel.SMS /\
    Message.status m' = MessageStatus.PENDING /\
    Message.retry_count m' = 0 /\
    Message.fallback_triggered m' = true.
Proof.
  intros _ Hr He Ht Hc.
  assert (Message.should_fallback_to_sms m = true) as Hs.
  { unfold Message.should_fallback_to_sms. rewrite He, Ht, Hc, Hr.
    reflexivity. }
  split; [exact Hs|].
  destruct (trigger_fallback_ok now m Hs) as (m' & Hm' & ? & ? & ? & ? & _).
  exists m'. auto.
Qed.

Lemma fallback_on_rcs_not_supported_witness :
  Message.should_fallback_to_sms sample_unsupported = true /\
  exists m',
    Message.trigger_fallback 1020 sample_unsupported = (Ok tt, m') /\
    Message.channel m' = MessageChannel.SMS /\
    Message.status m' = MessageStatus.PENDING /\
    Message.retry_count m' = 0 /\
    Message.fallback_triggered m' = true.
Proof.
  apply (fallback_on_rcs_not_supported 1020 sample_unsupported);
    reflexivity.
Defined.

(** ** The SMS text stored by the fallback *)

Lemma string_length_app (s1 s2 : string) :
  String.length (s1 ++ s2) = (String.length s1 + String.length s2)%nat.
Proof.
  induction s1 as [|c s1 IH]; simpl; [reflexivity|]. by rewrite IH.
Qed.

Lemma append_suggestion_length (s : string) (a : SuggestedAction) :
  (String.length s
   <= String.length (MessageContent.append_suggestion s a))%nat.
Proof.
  unfold MessageContent.append_suggestion.
  destruct (_ && _); [|lia]. rewrite string_length_app. lia.
Qed.

Lemma fold_append_suggestion_length (l : list SuggestedAction) (s : string) :
  (String.length s
   <= String.length (fold_left MessageContent.append_suggestion l s))%nat.
Proof.
  revert s. induction l as [|a l IH]; intros s; simpl; [lia|].
  etransitivity; [apply append_suggestion_length | apply IH].
Qed.

(** The method the fallback reaches never shortens the text: there is no
    truncation in it, whatever the length. *)
Lemma to_sms_text_not_shorter (c : MessageContent.t) :
  (String.length (MessageContent.text c)
   <= String.length (MessageContent.to_sms_text c))%nat.
Proof.
  unfold MessageContent.to_sms_text.
  etransitivity; [|apply fold_append_suggestion_length].
  destruct (MessageContent.rich_card c) as [card|]; [|lia].
  destruct (truthy (media_url card)); [|lia].
  rewrite string_length_app. lia.
Qed.

(** C3, on the code. [trigger_fallback()] on the sample message (a card
    with title, description and media URL; a URL, a dial and a reply
    suggestion) stores the text, the bare media URL and the URL suggestion:
    the card's title and description and the dial suggestion are absent.
    On the message with a text of 1700 letters it stores all 1700, with no
    ellipsis; no text longer than 1600 characters comes out shorter than
    that. The function of lines 146-186 gives, on the same contents, the
    text with title, description, "View:" and "Call:" lines, cut to 1600
    characters with the ellipsis. *)
Theorem trigger_fallback_sms_text_on_samples :
  Message.metadata (snd (Message.trigger_fallback 1020 sample_unsupported))
    !! "sms_text"
  = Some ("Hello" ++ nl ++ "https://cdn.example/sale.png"
          ++ nl ++ "Shop: https://shop.example")
  /\ DeliveryAttempt_to_sms_text sample_content
     = "Hello" ++ nl ++ nl ++ "Sale" ++ nl ++ "Half price today"
       ++ nl ++ "View: https://cdn.example/sale.png" ++ nl
       ++ nl ++ "Shop: https://shop.example"
       ++ nl ++ "Call: +911234567890"
  /\ Message.metadata (snd (Message.trigger_fallback 1020 long_unsupported))
       !! "sms_text"
     = Some (letters 1700)
  /\ DeliveryAttempt_to_sms_text long_content = letters 1597 ++ "..."
  /\ (forall c : MessageContent.t,
        (1600 < String.length (MessageContent.text c))%nat ->
        (1600 < String.length (MessageContent.to_sms_text c))%nat).
Proof.
  repeat split; try (vm_compute; reflexivity).
  intros c Hc. pose proof (to_sms_text_not_shorter c). lia.
Qed.

(** ** The channel *)

Lemma record_attempt_channel now c s a e ec em (m : Message.t) :
  Message.channel (Message._record_attempt now c s a e ec em m)
  = Message.channel m.
Proof. reflexivity. Qed.

(** One call keeps the channel or sets it to SMS. *)
Lemma call_channel (op : Message.Op) (m : Message.t) :
  Message.channel (snd (Message.call op m)) = Message.channel m \/
  Message.channel (snd (Message.call op m)) = MessageChannel.SMS.
Proof.
  destruct op; simpl; try (left; reflexivity).
  - unfold Message.queue. destruct (negb _); left; reflexivity.
  - unfold Message.mark_delivered. destruct (negb _); left; reflexivity.
  - unfold Message.mark_read.
    destruct (negb _); [left; reflexivity|].
    destruct (negb _); left; reflexivity.
  - unfold Message.trigger_fallback.
    destruct (negb _); [left|right]; reflexivity.
  - right. reflexivity.
Qed.

Lemma run_app (ops1 ops2 : list Message.Op) (m : Message.t) :
  Message.run (ops1 ++ ops2)%list m = Message.run ops2 (Message.run ops1 m).
Proof. unfold Message.run. apply fold_left_app. Qed.

Lemma run_channel (ops : list Message.Op) (m : Message.t) :
  Message.channel (Message.run ops m) = Message.channel m \/
  Message.channel (Message.run ops m) = MessageChannel.SMS.
Proof.
  revert m. induction ops as [|op ops IH]; intros m; [by left|].
  change (Message.run (op :: ops) m)
    with (Message.run ops (snd (Message.call op m))).
  destruct (IH (snd (Message.call op m))) as [H|H]; [|by right].
  rewrite H. apply call_channel.
Qed.

(** C5. Along every sequence of operations on a message, take the channel
    [a] after a first part of the sequence and the channel [b] after the
    whole: if they differ, [a] is the channel the message started with and
    [b] is SMS; from SMS the channel stays SMS; and the channel is RCS at
    the end only if it was RCS before. For a message that starts on RCS or
    SMS (WHATSAPP is declared for later and assigned nowhere), as one made
    by [Message.create] does, every change is therefore from RCS to SMS. *)
Theorem channel_moves_only_to_sms
    (m : Message.t) (ops1 ops2 : list Message.Op) :
  let a := Message.channel (Message.run ops1 m) in
  let b := Message.channel (Message.run (ops1 ++ ops2)%list m) in
  (a <> b -> a = Message.channel m /\ b = MessageChannel.SMS) /\
  (a = MessageChannel.SMS -> b = MessageChannel.SMS) /\
  (b = MessageChannel.RCS -> a = MessageChannel.RCS) /\
  (Message.channel m <> MessageChannel.WHATSAPP ->
   a <> b -> a = MessageChannel.RCS /\ b = MessageChannel.SMS) /\
  (forall now fresh campaign tenant phone content priority,
     m = Message.create now fresh campaign tenant phone content priority ->
     a <> b -> a = MessageChannel.RCS /\ b = MessageChannel.SMS).
Proof.
  intros a b. subst a b. rewrite run_app.
  pose proof (run_channel ops1 m) as H1.
  pose proof (run_channel ops2 (Message.run ops1 m)) as H2.
  assert (Message.channel (Message.run ops1 m)
          <> Message.channel (Message.run ops2 (Message.run ops1 m)) ->
          Message.channel (Message.run ops1 m) = Message.channel m /\
          Message.channel (Message.run ops2 (Message.run ops1 m))
          = MessageChannel.SMS) as Hchange.
  { intros Hne. destruct H2 as [H2|H2]; [congruence|].
    split; [|exact H2]. destruct H1 as [H1|H1]; [exact H1|congruence]. }
  split; [exact Hchange|]. split; [|split; [|split]].
  - intros Ha. destruct H2 as [H2|H2]; congruence.
  - intros Hb. destruct H2 as [H2|H2]; congruence.
  - intros Hw Hne. destruct (Hchange Hne) as [Ha Hb]. split; [|exact Hb].
    rewrite Ha in *. destruct (Message.channel m); congruence.
  - intros now fresh campaign tenant phone content priority -> Hne.
    destruct (Hchange Hne) as [Ha Hb]. split; [|exact Hb].
    rewrite Ha. reflexivity.
Qed.

Lemma channel_moves_only_to_sms_witness :
  let m := sample_unsupported in
  let ops1 := [Message.OpIncrementRetry 1015] in
  let ops2 := [Message.OpTriggerFallback 1020;
               Message.OpMarkSent 1030 "vendorX" (Some "ext-1")] in
  Message.channel (Message.run ops1 m)
    <> Message.channel (Message.run (ops1 ++ ops2)%list m) /\
  Message.channel (Message.run ops1 m) = Message.channel m /\
  Message.channel (Message.run (ops1 ++ ops2)%list m) = MessageChannel.SMS.
Proof.
  intros m ops1 ops2.
  assert (Message.channel (Message.run ops1 m)
          <> Message.channel (Message.run (ops1 ++ ops2)%list m)) as Hne
    by (vm_compute; discriminate).
  split; [exact Hne|].
  exact (proj1 (channel_moves_only_to_sms m ops1 ops2) Hne).
Defined.

(** ** Queueing and sending *)

(** C6. [queue()] on a PENDING message returns and leaves status QUEUED
    (with [queued_at] and [updated_at] set to the clock); on a message in
    any other status it raises (a [ValueError] that reports the status) and
    leaves the whole object, so its status and every timestamp, as it
    was. *)
Theorem queue_only_from_pending (now : datetime) (m : Message.t) :
  (Message.status m = MessageStatus.PENDING ->
   fst (Message.queue now m) = Ok tt /\
   Message.status (snd (Message.queue now m)) = MessageStatus.QUEUED /\
   Message.queued_at (snd (Message.queue now m)) = Some now /\
   Message.updated_at (snd (Message.queue now m)) = now) /\
  (Message.status m <> MessageStatus.PENDING ->
   Message.queue now m = (Raise (ValueError "Cannot queue message"), m)).
Proof.
  unfold Message.queue. split; intros H.
  - rewrite bool_decide_eq_true_2 by exact H. simpl. auto.
  - rewrite bool_decide_eq_false_2 by exact H. reflexivity.
Qed.

Lemma queue_only_from_pending_witness :
  (fst (Message.queue 1005 sample_message) = Ok tt /\
   Message.status (snd (Message.queue 1005 sample_message))
   = MessageStatus.QUEUED) /\
  Message.queue 1005 sample_unsupported
  = (Raise (ValueError "Cannot queue message"), sample_unsupported).
Proof.
  split.
  - destruct (proj1 (queue_only_from_pending 1005 sample_message))
      as (H1 & H2 & _); [reflexivity|]. split; assumption.
  - apply (proj2 (queue_only_from_pending 1005 sample_unsupported)).
    discriminate.
Defined.

(** C10. [mark_sent(aggregator, external_id)] has no guard: on a message in
    any status it returns, sets status SENT, stores the aggregator name and
    the vendor id, and appends exactly one attempt to the log (numbered
    after the ones before it, on the message's channel, with status SENT
    and the same aggregator and vendor id). *)
Theorem mark_sent_from_any_status
    (now : datetime) (agg : string) (ext : option string) (m : Message.t) :
  let m' := Message.mark_sent now agg ext m in
  Message.call (Message.OpMarkSent now agg ext) m = (Ok tt, m') /\
  Message.status m' = MessageStatus.SENT /\
  Message.aggregator m' = Some agg /\
  Message.external_id m' = ext /\
  Message.delivery_attempts m'
  = (Message.delivery_attempts m ++
     [ {| attempt_number :=
            Z.of_nat (List.length (Message.delivery_attempts m)) + 1;
          da_channel := Message.channel m;
          attempted_at := now;
          da_status := MessageStatus.SENT;
          da_aggregator := Some agg;
          error_code := None;
          error_message := None;
          da_external_id := ext |} ])%list /\
  List.length (Message.delivery_attempts m')
  = S (List.length (Message.delivery_attempts m)).
Proof.
  intros m'. subst m'. repeat split.
  unfold Message.mark_sent, Message._record_attempt. simpl.
  rewrite length_app. simpl. lia.
Qed.

(** ** Phone numbers *)

Lemma filter_digits_all_digits (s : string) :
  forallb Message.isdigit (list_ascii_of_string (Message.filter_digits s))
  = true.
Proof.
  induction s as [|c s IH]; simpl; [reflexivity|].
  destruct (Message.isdigit c) eqn:E; simpl; [|exact IH].
  rewrite E. exact IH.
Qed.

(** Without a leading plus sign the number is rebuilt from its digits: a
    plus sign, then digits only. *)
Lemma normalize_phone_without_plus (phone : string) :
  String.prefix "+" phone = false ->
  plus_then_digits (Message._normalize_phone phone) = true.
Proof.
  intros H. unfold Message._normalize_phone. rewrite H. simpl.
  destruct (_ =? _)%nat; simpl; apply filter_digits_all_digits.
Qed.

(** With a leading plus sign the input is returned as it came. *)
Lemma normalize_phone_with_plus (phone : string) :
  String.prefix "+" phone = true ->
  Message._normalize_phone phone = phone.
Proof.
  intros H. unfold Message._normalize_phone. by rewrite H.
Qed.

(** C9, on the code. An input that begins with a plus sign and has
    anything but digits after it (as "+91 98765-43210" has a space and a
    hyphen) is stored on the created message as it came: the stored
    [recipient_phone] is not a plus sign followed by digits only. *)
Theorem normalize_phone_keeps_separators
    (now : datetime) (fresh campaign tenant : UUID) (rest : string)
    (content : MessageContent.t) (priority : string) :
  forallb Message.isdigit (list_ascii_of_string rest) = false ->
  let phone := String "+"%char rest in
  let m := Message.create now fresh campaign tenant phone content priority in
  Message.recipient_phone m = phone /\
  plus_then_digits (Message.recipient_phone m) = false.
Proof.
  intros H phone m.
  assert (Message.recipient_phone m = phone) as Hm.
  { subst m. unfold Message.create, Message.__init__. simpl.
    apply normalize_phone_with_plus. subst phone.
    unfold String.prefix. by destruct rest. }
  split; [exact Hm|]. rewrite Hm. subst phone. simpl. exact H.
Qed.

Lemma normalize_phone_keeps_separators_witness :
  let m := Message.create 1000 "m-3" "c-1" "t-1" "+91 98765-43210"
             sample_content "high" in
  Message.recipient_phone m = "+91 98765-43210" /\
  plus_then_digits (Message.recipient_phone m) = false.
Proof.
  apply (normalize_phone_keeps_separators 1000 "m-3" "c-1" "t-1"
           "91 98765-43210" sample_content "high").
  reflexivity.
Defined.

(** ** Campaign activation *)

Lemma init_recipient_count now i t n ty tpl st pr sch :
  Campaign.recipient_count (Campaign.__init__ now i t n ty tpl st pr sch)
  = 0.
Proof. reflexivity. Qed.

(** [add_audience] with the size of an audience keeps the recipient count
    non-negative; it is the only method that writes the field. *)
Lemma add_audience_recipient_count_nonneg now aid count (c : Campaign.t) :
  0 <= Campaign.recipient_count c -> 0 <= count ->
  0 <= Campaign.recipient_count (snd (Campaign.add_audience now aid count c)).
Proof.
  intros Hc Hn. unfold Campaign.add_audience.
  destruct (negb _); [exact Hc|].
  destruct (negb _); simpl; lia.
Qed.

(** [activate()] returns exactly when the status is DRAFT or SCHEDULED and
    the guard of line 245, [recipient_count == 0], does not fire. *)
Lemma activate_returns_iff (now : datetime) (fresh : UUID) (c : Campaign.t) :
  fst (Campaign.activate now fresh c) = Ok tt <->
  (Campaign.status c = CampaignStatus.DRAFT \/
   Campaign.status c = CampaignStatus.SCHEDULED) /\
  Campaign.recipient_count c <> 0.
Proof.
  unfold Campaign.activate.
  case_bool_decide as Hs; simpl.
  - assert (Campaign.status c = CampaignStatus.DRAFT \/
            Campaign.status c = CampaignStatus.SCHEDULED) as Hs'.
    { apply elem_of_cons in Hs as [Hs|Hs]; [by left|].
      apply elem_of_cons in Hs as [Hs|Hs]; [by right|].
      by apply elem_of_nil in Hs. }
    destruct (Z.eqb_spec (Campaign.recipient_count c) 0) as [Hz|Hz]; simpl.
    + split; [discriminate|]. intros [_ ?]. contradiction.
    + split; [|reflexivity]. intros _. split; assumption.
  - split; [discriminate|].
    intros [[Hd|Hd] _]; exfalso; apply Hs; rewrite Hd; set_solver.
Qed.

(** C7. On a campaign whose recipient count is a count (not negative):
    [activate()] returns exactly when the status is DRAFT or SCHEDULED and
    [recipient_count > 0], and then the status is ACTIVE; on a DRAFT
    campaign with [recipient_count == 0] it raises the [ValueError] and
    leaves the campaign, so its status DRAFT, as it was. *)
Theorem activate_needs_recipients
    (now : datetime) (fresh : UUID) (c : Campaign.t) :
  0 <= Campaign.recipient_count c ->
  (fst (Campaign.activate now fresh c) = Ok tt <->
   (Campaign.status c = CampaignStatus.DRAFT \/
    Campaign.status c = CampaignStatus.SCHEDULED) /\
   Campaign.recipient_count c > 0) /\
  (fst (Campaign.activate now fresh c) = Ok tt ->
   Campaign.status (snd (Campaign.activate now fresh c))
   = CampaignStatus.ACTIVE) /\
  (Campaign.status c = CampaignStatus.DRAFT ->
   Campaign.recipient_count c = 0 ->
   Campaign.activate now fresh c
   = (Raise (ValueError "Campaign must have at least one recipient"), c) /\
   Campaign.status (snd (Campaign.activate now fresh c))
   = CampaignStatus.DRAFT).
Proof.
  intros Hnn. split; [|split].
  - rewrite activate_returns_iff. split; intros [Hs Hr]; (split; [exact Hs|]);
      lia.
  - intros Hok. apply activate_returns_iff in Hok as [Hs Hr].
    unfold Campaign.activate.
    rewrite bool_decide_eq_true_2 by (destruct Hs as [-> | ->]; set_solver).
    simpl. destruct (Z.eqb_spec (Campaign.recipient_count c) 0);
      [contradiction|reflexivity].
  - intros Hd Hz. unfold Campaign.activate.
    rewrite bool_decide_eq_true_2 by (rewrite Hd; set_solver).
    simpl. rewrite Hz. simpl. split; [reflexivity|exact Hd].
Qed.

Lemma activate_needs_recipients_witness :
  (0 <= Campaign.recipient_count sample_campaign /\
   Campaign.activate 1100 "e-1" sample_campaign
   = (Raise (ValueError "Campaign must have at least one recipient"),
      sample_campaign) /\
   Campaign.status (snd (Campaign.activate 1100 "e-1" sample_campaign))
   = CampaignStatus.DRAFT) /\
  (0 <= Campaign.recipient_count sample_campaign_with_audience /\
   fst (Campaign.activate 1100 "e-1" sample_campaign_with_audience) = Ok tt).
Proof.
  assert (0 <= Campaign.recipient_count sample_campaign) as H
    by (simpl; lia).
  assert (0 <= Campaign.recipient_count sample_campaign_with_audience) as H'
    by (simpl; lia).
  split; (split; [assumption|]).
  - apply (proj2 (proj2 (activate_needs_recipients 1100 "e-1"
                           sample_campaign H))); reflexivity.
  - apply (proj1 (activate_needs_recipients 1100 "e-1"
                    sample_campaign_with_audience H')).
    split; [left; reflexivity | simpl; lia].
Defined.

(** ** Consent *)

Lemma valid_recipients_spec is_opted_out tenant recipients (p : string) :
  p ∈ DeliveryService.valid_recipients is_opted_out tenant recipients <->
  p ∈ recipients /\ is_opted_out p tenant = false.
Proof.
  unfold DeliveryService.valid_recipients.
  rewrite !list_elem_of_In, filter_In, negb_true_iff. reflexivity.
Qed.

(** The consent gate, on the string it is given. For a string the consent
    repository reports as opted out, [send_message] raises before anything
    is created: no row is written and nothing is enqueued.
    [send_message_batch] returns the messages created from the strings
    that are not reported, in order, writes and enqueues exactly those, and
    every created message is the [Message.create] of such a string. *)
Theorem opted_out_recipients_get_no_message
    (is_opted_out : string -> UUID -> bool) (now : datetime)
    (fresh : UUID) (freshes : nat -> UUID) (campaign tenant : UUID)
    (phone : string) (recipients : list string)
    (content : MessageContent.t) (priority : string)
    (w : DeliveryService.World) :
  (is_opted_out phone tenant = true ->
   DeliveryService.send_message is_opted_out now fresh campaign tenant
     phone content priority w
   = (Raise (ValueError "Recipient has opted out"), w)) /\
  (let valid :=
     DeliveryService.valid_recipients is_opted_out tenant recipients in
   let batch :=
     imap (fun i p => Message.create now (freshes i) campaign tenant p
                        content priority) valid in
   DeliveryService.send_message_batch is_opted_out now freshes campaign
     tenant recipients content priority w
   = (Ok batch,
      DeliveryService.queue_call
        (EnqueueBatch (map DeliveryService.dispatch_job batch))
        (DeliveryService.save_batch batch w)) /\
   (forall p, p ∈ recipients -> is_opted_out p tenant = true -> p ∉ valid) /\
   (forall m, m ∈ batch ->
      exists i p,
        valid !! i = Some p /\ p ∈ recipients /\
        is_opted_out p tenant = false /\
        m = Message.create now (freshes i) campaign tenant p
              content priority)).
Proof.
  split.
  - intros H. unfold DeliveryService.send_message, bind,
      DeliveryService.with_uow. rewrite H. simpl. by destruct w.
  - intros valid batch. split; [reflexivity|]. split.
    + intros p _ Hout Hin.
      apply valid_recipients_spec in Hin as [_ Hin]. congruence.
    + intros m Hm. apply list_elem_of_lookup in Hm as [i Hi].
      subst batch. rewrite list_lookup_imap in Hi.
      destruct (valid !! i) as [p|] eqn:Hp; [|discriminate].
      simpl in Hi. injection Hi as <-.
      exists i, p. split; [exact Hp|].
      assert (p ∈ valid) as Hin by (eapply list_elem_of_lookup_2; eauto).
      apply valid_recipients_spec in Hin as [? ?]. auto.
Qed.

Lemma opted_out_recipients_get_no_message_witness :
  sample_opted_out "+911111111111" "t-1" = true /\
  DeliveryService.send_message sample_opted_out 1000 "m-9" "c-1" "t-1"
    "+911111111111" sample_content "high" empty_world
  = (Raise (ValueError "Recipient has opted out"), empty_world).
Proof.
  split; [reflexivity|].
  apply (proj1 (opted_out_recipients_get_no_message sample_opted_out 1000
                  "m-9" (fun _ => "m-9") "c-1" "t-1" "+911111111111" []
                  sample_content "high" empty_world)).
  reflexivity.
Defined.

(** C8, on the code. Consent is asked for the string as the caller wrote
    it (lines 106-109 and 160-163), before [Message.create] normalises it.
    When the table holds the number in E.164, as [is_opted_out] documents
    its argument, and the caller writes the same number another way, the
    gate lets it through: [send_message] returns, and a message whose
    [recipient_phone] is the opted-out number is created, saved and
    enqueued; [send_message_batch] keeps the recipient and does the
    same. *)
Theorem consent_is_asked_before_normalisation
    (is_opted_out : string -> UUID -> bool) (now : datetime)
    (fresh : UUID) (freshes : nat -> UUID) (campaign tenant : UUID)
    (phone : string) (content : MessageContent.t) (priority : string)
    (w : DeliveryService.World) :
  is_opted_out phone tenant = false ->
  is_opted_out (Message._normalize_phone phone) tenant = true ->
  let m := Message.create now fresh campaign tenant phone content
             priority in
  let m0 := Message.create now (freshes 0%nat) campaign tenant phone content
              priority in
  DeliveryService.send_message is_opted_out now fresh campaign tenant
    phone content priority w
  = (Ok m,
     DeliveryService.queue_call (Enqueue (DeliveryService.dispatch_job m))
       (DeliveryService.save m w)) /\
  DeliveryService.messages (DeliveryService.save m w) !! fresh = Some m /\
  is_opted_out (Message.recipient_phone m) tenant = true /\
  DeliveryService.send_message_batch is_opted_out now freshes campaign
    tenant [phone] content priority w
  = (Ok [m0],
     DeliveryService.queue_call
       (EnqueueBatch [DeliveryService.dispatch_job m0])
       (DeliveryService.save m0 w)) /\
  is_opted_out (Message.recipient_phone m0) tenant = true.
Proof.
  intros Hraw Hnorm m m0. split; [|split; [|split; [exact Hnorm|split]]].
  - unfold DeliveryService.send_message, bind, DeliveryService.with_uow.
    rewrite Hraw. reflexivity.
  - unfold DeliveryService.save. cbn [DeliveryService.messages].
    apply lookup_insert_eq.
  - unfold DeliveryService.send_message_batch, bind,
      DeliveryService.with_uow, DeliveryService.valid_recipients.
    cbn [List.filter]. rewrite Hraw. reflexivity.
  - exact Hnorm.
Qed.

Lemma consent_is_asked_before_normalisation_witness :
  sample_opted_out "+911111111111" "t-1" = true /\
  exists m,
    fst (DeliveryService.send_message sample_opted_out 1000 "m-9" "c-1"
           "t-1" "1111111111" sample_content "high" empty_world) = Ok m /\
    Message.recipient_phone m = "+911111111111".
Proof.
  split; [reflexivity|].
  destruct (consent_is_asked_before_normalisation sample_opted_out 1000
              "m-9" (fun _ => "m-9") "c-1" "t-1" "1111111111"
              sample_content "high" empty_world eq_refl eq_refl)
    as (Hsend & _).
  eexists. split; [by rewrite Hsend|]. reflexivity.
Defined.

(** ** The rate-limit signal *)

Lemma queue_pending (now : datetime) (m : Message.t) :
  Message.status m = MessageStatus.PENDING ->
  Message.queue now m
  = (Ok tt,
     Message.set_updated_at now
       (Message.set_queued_at (Some now)
          (Message.set_status MessageStatus.QUEUED m))).
Proof.
  intros H. unfold Message.queue.
  by rewrite bool_decide_eq_true_2 by exact H.
Qed.

(** C4, on the code. A PENDING message whose send is answered by a
    [RateLimitException] carrying [retry_after]: the service saves the
    message as QUEUED with its [retry_count] untouched and calls
    [queue.schedule] once, for the clock reading of the call itself, not
    for [retry_after] seconds later; served by the RabbitMQ adapter at that
    or any later clock reading, the job is enqueued with no delay. The
    value of [retry_after] appears nowhere in the outcome. *)
Theorem rate_limit_requeue_has_no_delay
    (aggregator : AggregatorPort) (now now' : datetime)
    (w : DeliveryService.World) (mid : UUID) (m : Message.t)
    (msg : string) (code : option string) (retry_after : option Z) :
  DeliveryService.messages w !! mid = Some m ->
  Message.status m = MessageStatus.PENDING ->
  (Message.channel m = MessageChannel.RCS ->
   exists r rs,
     check_rcs_capability aggregator [Message.recipient_phone m]
     = Ok (r :: rs) /\ rcs_enabled r = true) ->
  (forall req, send_rcs_message aggregator req
               = Raise (RateLimitException msg code retry_after)) ->
  (forall req, send_sms_message aggregator req
               = Raise (RateLimitException msg code retry_after)) ->
  now <= now' ->
  let queued := snd (Message.queue now m) in
  DeliveryService.process_message_delivery aggregator now mid w
  = (Ok tt,
     DeliveryService.queue_call
       (Schedule (DeliveryService.dispatch_job m) now)
       (DeliveryService.save queued w)) /\
  Message.retry_count queued = Message.retry_count m /\
  rabbitmq_schedule now' (DeliveryService.dispatch_job m) now
  = DeliveryService.dispatch_job m /\
  delay (DeliveryService.dispatch_job m) = None.
Proof.
  intros Hm Hs Hcap Hrcs Hsms Hle queued. subst queued.
  rewrite (queue_pending now m Hs). simpl.
  split; [|split; [reflexivity|split; [|reflexivity]]].
  - unfold DeliveryService.process_message_delivery,
      DeliveryService.with_uow. rewrite Hm.
    unfold try_except, DeliveryService.attempt_delivery, bind,
      DeliveryService.the_message. simpl.
    case_bool_decide as Hc.
    + destruct (Hcap Hc) as (r & rs & Hr & He).
      unfold DeliveryService._check_rcs_capability, bind, lift. simpl.
      rewrite Hr. simpl. rewrite He. simpl.
      unfold DeliveryService.call_message. simpl.
      rewrite (queue_pending now m Hs). simpl.
      unfold DeliveryService._send_via_aggregator, bind,
        DeliveryService.the_message, lift. simpl.
      rewrite bool_decide_eq_true_2 by exact Hc.
      rewrite Hrcs. simpl. reflexivity.
    + simpl. unfold DeliveryService.call_message. simpl.
      rewrite (queue_pending now m Hs). simpl.
      unfold DeliveryService._send_via_aggregator, bind,
        DeliveryService.the_message, lift. simpl.
      rewrite bool_decide_eq_false_2 by exact Hc.
      rewrite Hsms. simpl. reflexivity.
  - unfold rabbitmq_schedule.
    destruct (Z.leb_spec now now') as [_|H]; [reflexivity|lia].
Qed.

Lemma rate_limit_requeue_has_no_delay_witness :
  let queued := snd (Message.queue 2000 sample_message) in
  DeliveryService.process_message_delivery rate_limiting_vendor 2000 "m-1"
    sample_world
  = (Ok tt,
     DeliveryService.queue_call
       (Schedule (DeliveryService.dispatch_job sample_message) 2000)
       (DeliveryService.save queued sample_world)) /\
  Message.retry_count queued = Message.retry_count sample_message /\
  rabbitmq_schedule 2001 (DeliveryService.dispatch_job sample_message) 2000
  = DeliveryService.dispatch_job sample_message /\
  delay (DeliveryService.dispatch_job sample_message) = None.
Proof.
  apply (rate_limit_requeue_has_no_delay rate_limiting_vendor 2000 2001
           sample_world "m-1" sample_message "Rate limit exceeded" None
           (Some 30)).
  - vm_compute. reflexivity.
  - reflexivity.
  - intros _. eexists _, _. split; reflexivity.
  - reflexivity.
  - reflexivity.
  - lia.
Defined.

(** * Further properties of the code *)

(** ** The message: fallback happens once *)

Lemma call_keeps_fallback_triggered (op : Message.Op) (m : Message.t) :
  Message.fallback_triggered m = true ->
  Message.fallback_triggered (snd (Message.call op m)) = true.
Proof.
  intros H. destruct op; simpl; try exact H; try reflexivity.
  - unfold Message.queue. by destruct (negb _).
  - unfold Message.mark_delivered. by destruct (negb _).
  - unfold Message.mark_read. destruct (negb _); [exact H|].
    by destruct (negb _).
  - unfold Message.trigger_fallback. by destruct (negb _).
Qed.

Lemma run_keeps_fallback_triggered (ops : list Message.Op) (m : Message.t) :
  Message.fallback_triggered m = true ->
  Message.fallback_triggered (Message.run ops m) = true.
Proof.
  revert m. induction ops as [|op ops IH]; intros m H; [exact H|].
  change (Message.run (op :: ops) m)
    with (Message.run ops (snd (Message.call op m))).
  apply IH, call_keeps_fallback_triggered, H.
Qed.

(** X1. Once [trigger_fallback()] has returned on a message, no sequence of
    later operations makes the message eligible again:
    [should_fallback_to_sms()] stays false and every further
    [trigger_fallback()] raises and leaves the message as it is. *)
Theorem fallback_is_triggered_at_most_once
    (now now' : datetime) (m : Message.t) (ops : list Message.Op) :
  fst (Message.trigger_fallback now m) = Ok tt ->
  let later := Message.run ops (snd (Message.trigger_fallback now m)) in
  Message.fallback_triggered later = true /\
  Message.should_fallback_to_sms later = false /\
  Message.trigger_fallback now' later
  = (Raise (ValueError "Cannot trigger fallback for this message"), later).
Proof.
  intros Hok later.
  assert (Message.fallback_triggered later = true) as Ht.
  { subst later. apply run_keeps_fallback_triggered.
    revert Hok. unfold Message.trigger_fallback.
    destruct (negb _); [discriminate|reflexivity]. }
  assert (Message.should_fallback_to_sms later = false) as Hs.
  { unfold Message.should_fallback_to_sms. rewrite Ht.
    by destruct (negb _). }
  split; [exact Ht|]. split; [exact Hs|].
  apply trigger_fallback_refused, Hs.
Qed.

Lemma fallback_is_triggered_at_most_once_witness :
  let later :=
    Message.run [Message.OpMarkFailed 1030 FailureReason.RCS_NOT_SUPPORTED
                   None None]
                (snd (Message.trigger_fallback 1020 sample_unsupported)) in
  Message.fallback_triggered later = true /\
  Message.should_fallback_to_sms later = false /\
  Message.trigger_fallback 1040 later
  = (Raise (ValueError "Cannot trigger fallback for this message"), later).
Proof.
  apply (fallback_is_triggered_at_most_once 1020 1040 sample_unsupported).
  reflexivity.
Defined.

(** ** The message: a call that raises changes nothing *)



(** ** The message: the attempt log *)

Lemma record_attempt_log now c s a e ec em (m : Message.t) :
  Message.delivery_attempts (Message._record_attempt now c s a e ec em m)
  = (Message.delivery_attempts m ++
     [ mkDeliveryAttempt
         (Z.of_nat (List.length (Message.delivery_attempts m)) + 1)
         c now s a ec em e ])%list.
Proof. reflexivity. Qed.

Lemma numbered_snoc (log : list DeliveryAttempt) (a : DeliveryAttempt) :
  numbered log ->
  attempt_number a = Z.of_nat (List.length log) + 1 ->
  numbered (log ++ [a])%list.
Proof.
  intros Hlog Ha i b Hi.
  destruct (decide (i < List.length log)%nat) as [Hlt|Hge].
  - rewrite lookup_app_l in Hi by exact Hlt. by apply Hlog.
  - rewrite lookup_app_r in Hi by lia.
    destruct (i - List.length log)%nat as [|k] eqn:Hk; simpl in Hi;
      [|by destruct k].
    injection Hi as <-. rewrite Ha. f_equal. lia.
Qed.

(** One call leaves the log as it was or adds one attempt at its end,
    numbered after the ones before it. *)
Lemma call_log (op : Message.Op) (m : Message.t) :
  Message.delivery_attempts (snd (Message.call op m))
  = Message.delivery_attempts m \/
  exists a,
    Message.delivery_attempts (snd (Message.call op m))
    = (Message.delivery_attempts m ++ [a])%list /\
    attempt_number a
    = Z.of_nat (List.length (Message.delivery_attempts m)) + 1.
Proof.
  destruct op; simpl; try (left; reflexivity).
  - unfold Message.queue. destruct (negb _); left; reflexivity.
  - right. eexists. split; reflexivity.
  - unfold Message.mark_delivered. destruct (negb _); [left; reflexivity|].
    right. eexists. split; reflexivity.
  - unfold Message.mark_read. destruct (negb _); [left; reflexivity|].
    destruct (negb _); left; reflexivity.
  - right. eexists. split; reflexivity.
  - unfold Message.trigger_fallback. destruct (negb _); left; reflexivity.
Qed.

(** X3. The attempt log only grows, at its end, and keeps its numbering:
    along any sequence of operations the log before is a prefix of the log
    after, and if the attempts were numbered 1, 2, 3, ... they still are.
    The log of a message made by [Message.create] is so numbered after
    any sequence of operations. *)
Theorem attempt_log_grows_numbered (m : Message.t) (ops : list Message.Op) :
  Message.delivery_attempts m
    `prefix_of` Message.delivery_attempts (Message.run ops m) /\
  (numbered (Message.delivery_attempts m) ->
   numbered (Message.delivery_attempts (Message.run ops m))) /\
  (forall now fresh campaign tenant phone content priority,
     m = Message.create now fresh campaign tenant phone content priority ->
     numbered (Message.delivery_attempts (Message.run ops m))).
Proof.
  assert (forall ops m,
            Message.delivery_attempts m
              `prefix_of` Message.delivery_attempts (Message.run ops m) /\
            (numbered (Message.delivery_attempts m) ->
             numbered (Message.delivery_attempts (Message.run ops m))))
    as Hrun.
  { clear. induction ops as [|op ops IH]; intros m; [by split|].
    change (Message.run (op :: ops) m)
      with (Message.run ops (snd (Message.call op m))).
    destruct (IH (snd (Message.call op m))) as [Hp Hn].
    destruct (call_log op m) as [Heq|(a & Heq & Ha)].
    - rewrite Heq in Hp, Hn. by split.
    - rewrite Heq in Hp, Hn. split.
      + etransitivity; [|exact Hp]. by apply prefix_app_r.
      + intros H. apply Hn. by apply numbered_snoc. }
  destruct (Hrun ops m) as [Hp Hn]. split; [exact Hp|]. split; [exact Hn|].
  intros now fresh campaign tenant phone content priority ->.
  apply Hn. intros i a Hi. by destruct i.
Qed.

Lemma attempt_log_grows_numbered_witness :
  numbered (Message.delivery_attempts
              (Message.run [Message.OpQueue 1001;
                            Message.OpMarkSent 1002 "vendorX" (Some "ext-1");
                            Message.OpMarkDelivered 1003]
                           sample_message)).
Proof.
  apply (proj2 (proj2 (attempt_log_grows_numbered sample_message
                         [Message.OpQueue 1001;
                          Message.OpMarkSent 1002 "vendorX" (Some "ext-1");
                          Message.OpMarkDelivered 1003]))
           1000 "m-1" "c-1" "t-1" "9876543210" sample_content "high").
  reflexivity.
Defined.


(** ** The message: the delivery path composed *)

(** X4. On a message as [Message.create] makes it, [queue()],
    [mark_sent()], [mark_delivered()] and [mark_read()] called in this
    order all return, whatever the clock readings and the vendor's
    answers; the message ends READ on RCS, counts as delivered, carries
    the vendor's name and id, and its log holds two attempts: SENT, then
    DELIVERED. *)
Theorem created_message_runs_to_read
    (now t1 t2 t3 t4 : datetime) (fresh campaign tenant : UUID)
    (phone : string) (content : MessageContent.t) (priority : string)
    (agg : string) (ext : option string) :
  let m := Message.create now fresh campaign tenant phone content priority in
  let r := (Message.queue t1 ;;; modify (Message.mark_sent t2 agg ext) ;;;
            Message.mark_delivered t3 ;;; Message.mark_read t4) m in
  fst r = Ok tt /\
  Message.status (snd r) = MessageStatus.READ /\
  Message.channel (snd r) = MessageChannel.RCS /\
  Message.is_delivered (snd r) = true /\
  Message.aggregator (snd r) = Some agg /\
  Message.external_id (snd r) = ext /\
  Message.read_at (snd r) = Some t4 /\
  map da_status (Message.delivery_attempts (snd r))
  = [MessageStatus.SENT; MessageStatus.DELIVERED] /\
  map attempt_number (Message.delivery_attempts (snd r)) = [1; 2].
Proof.
  intros m r. subst r m. vm_compute. repeat split.
Qed.

(** ** The message: phone numbers *)

Lemma normalize_phone_starts_with_plus (phone : string) :
  String.prefix "+" (Message._normalize_phone phone) = true.
Proof.
  unfold Message._normalize_phone.
  destruct (String.prefix "+" phone) eqn:E; simpl; [exact E|].
  destruct (_ =? _)%nat; simpl; [reflexivity|].
  by destruct (Message.filter_digits phone).
Qed.

(** X5. [_normalize_phone] always returns a string that begins with a plus
    sign, and normalizing a second time changes nothing; this is what
    keeps [recipient_phone] stable when a stored message is rebuilt
    through [Message.__init__]. An input of exactly ten digits and any
    separators, without a plus sign, gets the prefix +91. *)
Theorem normalize_phone_idempotent (phone : string) :
  String.prefix "+" (Message._normalize_phone phone) = true /\
  Message._normalize_phone (Message._normalize_phone phone)
  = Message._normalize_phone phone /\
  (String.prefix "+" phone = false ->
   String.length (Message.filter_digits phone) = 10%nat ->
   Message._normalize_phone phone = "+91" ++ Message.filter_digits phone).
Proof.
  split; [apply normalize_phone_starts_with_plus|]. split.
  - apply normalize_phone_with_plus, normalize_phone_starts_with_plus.
  - intros Hp Hl. unfold Message._normalize_phone. rewrite Hp, Hl.
    reflexivity.
Qed.

Lemma normalize_phone_idempotent_witness :
  Message._normalize_phone "98765 43210" = "+919876543210".
Proof.
  apply (proj2 (proj2 (normalize_phone_idempotent "98765 43210")));
    reflexivity.
Defined.

(** ** The message: what the SMS text keeps *)

Lemma string_app_assoc (s1 s2 s3 : string) :
  (s1 ++ s2) ++ s3 = s1 ++ s2 ++ s3.
Proof.
  induction s1 as [|c s1 IH]; [reflexivity|].
  change (String c ((s1 ++ s2) ++ s3) = String c (s1 ++ s2 ++ s3)).
  by rewrite IH.
Qed.

Lemma string_app_empty_r (s : string) : s ++ "" = s.
Proof.
  induction s as [|c s IH]; [reflexivity|].
  change (String c (s ++ "") = String c s). by rewrite IH.
Qed.

Lemma occurs_in_app_r (sub s t : string) :
  occurs_in sub s -> occurs_in sub (s ++ t).
Proof.
  intros (pre & post & ->). exists pre, (post ++ t).
  by rewrite !string_app_assoc.
Qed.

Lemma occurs_in_suffix (sub s : string) : occurs_in sub (s ++ sub).
Proof. exists s, "". by rewrite string_app_empty_r. Qed.

Lemma append_suggestion_extends (s : string) (a : SuggestedAction) :
  exists t, MessageContent.append_suggestion s a = s ++ t.
Proof.
  unfold MessageContent.append_suggestion.
  destruct (_ && _); [eauto|]. exists "". by rewrite string_app_empty_r.
Qed.

Lemma fold_append_suggestion_extends (l : list SuggestedAction) (s : string) :
  exists t, fold_left MessageContent.append_suggestion l s = s ++ t.
Proof.
  revert s. induction l as [|a l IH]; intros s; simpl.
  - exists "". by rewrite string_app_empty_r.
  - destruct (append_suggestion_extends s a) as [t ->].
    destruct (IH (s ++ t)) as [t' ->]. exists (t ++ t').
    by rewrite string_app_assoc.
Qed.

Lemma fold_append_suggestion_keeps (sub : string)
    (l : list SuggestedAction) (s : string) :
  occurs_in sub s ->
  occurs_in sub (fold_left MessageContent.append_suggestion l s).
Proof.
  intros H. destruct (fold_append_suggestion_extends l s) as [t ->].
  by apply occurs_in_app_r.
Qed.

Lemma fold_append_suggestion_has (l : list SuggestedAction) (s : string)
    (a : SuggestedAction) (u : string) :
  a ∈ l -> sa_type a = "url" -> sa_url a = Some u -> u <> "" ->
  occurs_in (nl ++ sa_text a ++ ": " ++ u)
            (fold_left MessageContent.append_suggestion l s).
Proof.
  intros Hin Ht Hu Hne. revert s.
  induction l as [|b l IH]; intros s; [by apply elem_of_nil in Hin|].
  apply elem_of_cons in Hin as [<-|Hin]; simpl; [|by apply IH].
  apply fold_append_suggestion_keeps.
  unfold MessageContent.append_suggestion. rewrite Ht, Hu. simpl.
  destruct (String.eqb_spec u "") as [->|_]; [done|]. simpl.
  apply occurs_in_suffix.
Qed.

(** X6. The SMS text that the fallback stores begins with the message
    text, and nothing that carries a link is lost: the media URL of the
    card, when there is one, is in it on a line of its own, and so is every
    suggestion of type "url" that has a URL, as "text: url". *)
Theorem to_sms_text_keeps_links (c : MessageContent.t) :
  (exists rest,
     MessageContent.to_sms_text c = MessageContent.text c ++ rest) /\
  (forall card u,
     MessageContent.rich_card c = Some card ->
     media_url card = Some u -> u <> "" ->
     occurs_in (nl ++ u) (MessageContent.to_sms_text c)) /\
  (forall a u,
     a ∈ MessageContent.suggestions c ->
     sa_type a = "url" -> sa_url a = Some u -> u <> "" ->
     occurs_in (nl ++ sa_text a ++ ": " ++ u)
               (MessageContent.to_sms_text c)).
Proof.
  unfold MessageContent.to_sms_text. split; [|split].
  - match goal with |- context [fold_left _ ?l ?s] =>
      destruct (fold_append_suggestion_extends l s) as [t ->] end.
    destruct (MessageContent.rich_card c) as [card|]; [|eauto].
    destruct (truthy (media_url card)); [|eauto].
    eexists. by rewrite string_app_assoc.
  - intros card u -> Hu Hne. apply fold_append_suggestion_keeps.
    rewrite Hu. simpl.
    destruct (String.eqb_spec u "") as [->|_]; [done|]. simpl.
    apply occurs_in_suffix.
  - intros a u Hin Ht Hu Hne. by apply fold_append_suggestion_has.
Qed.

Lemma to_sms_text_keeps_links_witness :
  occurs_in (nl ++ "https://cdn.example/sale.png")
            (MessageContent.to_sms_text sample_content) /\
  occurs_in (nl ++ "Shop" ++ ": " ++ "https://shop.example")
            (MessageContent.to_sms_text sample_content).
Proof.
  split.
  - apply (proj1 (proj2 (to_sms_text_keeps_links sample_content))
             sample_card); [reflexivity|reflexivity|discriminate].
  - apply (proj2 (proj2 (to_sms_text_keeps_links sample_content))
             (mkSuggestedAction "url" "Shop" None
                (Some "https://shop.example") None));
      [set_solver|reflexivity|reflexivity|discriminate].
Defined.

(** ** The message: expiry *)

Lemma replace_hour_minute_bounds (dt : datetime) :
  dt <= Message.replace_hour_minute dt < dt + 86400.
Proof.
  unfold Message.replace_hour_minute.
  pose proof (Z.mod_pos_bound dt 86400 ltac:(lia)) as Hr.
  pose proof (Z.mod_pos_bound dt 60 ltac:(lia)) as Hs.
  assert (dt mod 60 = (dt mod 86400) mod 60) as Hms.
  { symmetry. apply Z.mod_mod_divide. exists 1440. reflexivity. }
  pose proof (Z.div_mod (dt mod 86400) 60 ltac:(lia)) as Hdm.
  assert ((dt mod 86400) / 60 <= 1439) as Hq.
  { apply Z.lt_succ_r. apply Z.div_lt_upper_bound; lia. }
  rewrite <- Hms in Hdm. lia.
Qed.

(** X7. [expires_at] is fixed when the message is made, to the creation
    time with hour 23 and minute 59, and no operation moves it. It is never
    before the creation time and less than a day after it, so a message is
    not expired at the moment of its creation; a message created in the
    last minute of a day expires at that very second. *)
Theorem expiry_is_end_of_creation_day
    (now : datetime) (fresh campaign tenant : UUID) (phone : string)
    (content : MessageContent.t) (priority : string)
    (ops : list Message.Op) :
  let m := Message.create now fresh campaign tenant phone content priority in
  Message.expires_at (Message.run ops m) = Message.expires_at m /\
  now <= Message.expires_at m < now + 86400 /\
  Message.is_expired now m = false /\
  (86340 <= now mod 86400 -> Message.expires_at m = now).
Proof.
  intros m.
  assert (forall ops m,
            Message.expires_at (Message.run ops m) = Message.expires_at m)
    as Hrun.
  { clear. induction ops as [|op ops IH]; intros m; [reflexivity|].
    change (Message.run (op :: ops) m)
      with (Message.run ops (snd (Message.call op m))).
    rewrite IH. destruct op; simpl; try reflexivity.
    - unfold Message.queue. by destruct (negb _).
    - unfold Message.mark_delivered. by destruct (negb _).
    - unfold Message.mark_read. destruct (negb _); [reflexivity|].
      by destruct (negb _).
    - unfold Message.trigger_fallback. by destruct (negb _). }
  pose proof (replace_hour_minute_bounds now) as Hb.
  split; [apply Hrun|]. split; [exact Hb|]. split.
  - unfold Message.is_expired. subst m. simpl.
    destruct (now >? Message.replace_hour_minute now) eqn:E;
      [|reflexivity].
    apply gtb_true_iff in E. lia.
  - intros Hlast. subst m. simpl. unfold Message.replace_hour_minute.
    pose proof (Z.mod_pos_bound now 86400 ltac:(lia)) as Hr.
    assert (now mod 60 = (now mod 86400) mod 60) as Hms.
    { symmetry. apply Z.mod_mod_divide. exists 1440. reflexivity. }
    assert ((now mod 86400) mod 60 = now mod 86400 - 86340) as Hlm.
    { symmetry. apply Z.mod_unique with (q := 1439); lia. }
    lia.
Qed.

Lemma expiry_is_end_of_creation_day_witness :
  Message.expires_at
    (Message.create 86399 "m-4" "c-1" "t-1" "9876543210" sample_content
       "high")
  = 86399.
Proof.
  apply (proj2 (proj2 (proj2 (expiry_is_end_of_creation_day 86399 "m-4"
                                "c-1" "t-1" "9876543210" sample_content
                                "high" [])))).
  vm_compute. discriminate.
Defined.

(** ** The campaign: failed calls and the life cycle *)

Ltac campaign_guards :=
  unfold Campaign.schedule, Campaign.activate, Campaign.pause,
    Campaign.resume, Campaign.cancel, Campaign.add_audience,
    Campaign._ensure_status, bind, modify;
  repeat case_bool_decide; simpl;
  repeat match goal with
         | |- context [if ?b then _ else _] => destruct b eqn:?; simpl
         end.

(** X8. A call of [schedule], [activate], [pause], [resume], [cancel],
    [add_audience] or a [record_*] method that raises has changed nothing:
    the campaign is exactly as before the call. What is raised is an
    [InvalidStateTransition], a [ValueError] or, from [schedule] on a DRAFT
    campaign with a naive datetime, the TypeError of comparing it with the
    aware clock reading; [schedule] raises that TypeError on every DRAFT
    campaign and every naive datetime. The [record_*] methods never
    raise. *)
Theorem campaign_call_raises_without_change
    (op : CampaignMethods.Op) (c : Campaign.t) (e : Exception) :
  fst (CampaignMethods.call op c) = Raise e ->
  snd (CampaignMethods.call op c) = c /\
  ((exists msg, e = InvalidStateTransition msg) \/
   (exists msg, e = ValueError msg) \/
   (e = naive_aware_error /\
    Campaign.status c = CampaignStatus.DRAFT /\
    exists now fresh scheduled_for,
      op = CampaignMethods.OpSchedule now fresh scheduled_for /\
      aware scheduled_for = false)) /\
  (forall k now, op <> CampaignMethods.OpRecord k now) /\
  (forall now fresh scheduled_for,
     Campaign.status c = CampaignStatus.DRAFT ->
     aware scheduled_for = false ->
     Campaign.schedule now fresh scheduled_for c
     = (Raise naive_aware_error, c)).
Proof.
  intros H. split; [|split; [|split]].
  - revert H. destruct op; simpl; try discriminate; campaign_guards;
      try discriminate; reflexivity.
  - revert H.
    destruct op as [now fresh at_|? ?|? ?|? ?|? ? ?|? ? ?|k ?]; simpl;
      try discriminate; campaign_guards; try discriminate;
      intros [= <-]; eauto.
    right. right. split; [reflexivity|]. split; [assumption|].
    exists now, fresh, at_. split; [reflexivity|].
    by apply negb_true_iff.
  - intros k now ->. revert H. simpl. discriminate.
  - intros now fresh at_ Hs Ha. unfold Campaign.schedule,
      Campaign._ensure_status, bind.
    rewrite bool_decide_eq_true_2 by exact Hs. simpl. by rewrite Ha.
Qed.

Lemma campaign_call_raises_without_change_witness :
  snd (CampaignMethods.call (CampaignMethods.OpPause 1100 "e-1")
         sample_campaign)
  = sample_campaign.
Proof.
  apply (campaign_call_raises_without_change
           (CampaignMethods.OpPause 1100 "e-1") sample_campaign
           (InvalidStateTransition "Expected status")).
  reflexivity.
Defined.

(** One call keeps the status or follows an arrow of the life cycle. *)
Lemma campaign_call_status (op : CampaignMethods.Op) (c : Campaign.t) :
  Campaign.status (snd (CampaignMethods.call op c)) = Campaign.status c \/
  CampaignMethods.transition (Campaign.status c)
    (Campaign.status (snd (CampaignMethods.call op c))) = true.
Proof.
  destruct op as [? ? ?|? ?|? ?|? ?|? ? ?|? ? ?|k ?]; simpl;
    try (left; reflexivity); try (left; by destruct k); campaign_guards;
    try (left; reflexivity); right;
    repeat match goal with
           | H : Campaign.status c = _ |- _ => rewrite H; clear H
           end; try reflexivity.
  - match goal with H : Campaign.status c ∈ _ |- _ =>
      apply elem_of_cons in H as [->|H]; [reflexivity|];
      apply elem_of_cons in H as [->|H]; [reflexivity|];
      by apply elem_of_nil in H end.
  - match goal with H : Campaign.status c ∉ _ |- _ =>
      destruct (Campaign.status c); try reflexivity;
      exfalso; apply H; set_solver end.
Qed.

(** X9. Every change of a campaign's status made by [schedule],
    [activate], [pause], [resume], [cancel], [add_audience] or a [record_*]
    method follows one of these arrows: DRAFT to SCHEDULED, DRAFT or
    SCHEDULED to ACTIVE, ACTIVE to PAUSED and back, and from DRAFT,
    SCHEDULED, ACTIVE, PAUSED or FAILED to CANCELLED. So along any sequence
    of these calls a COMPLETED or CANCELLED campaign keeps its status, and
    none of them leads to COMPLETED, FAILED or back to DRAFT. *)
Theorem campaign_status_follows_life_cycle
    (op : CampaignMethods.Op) (ops : list CampaignMethods.Op)
    (c : Campaign.t) :
  (Campaign.status (snd (CampaignMethods.call op c)) = Campaign.status c \/
   CampaignMethods.transition (Campaign.status c)
     (Campaign.status (snd (CampaignMethods.call op c))) = true) /\
  (Campaign.status c = CampaignStatus.COMPLETED \/
   Campaign.status c = CampaignStatus.CANCELLED ->
   Campaign.status (CampaignMethods.run ops c) = Campaign.status c) /\
  (Campaign.status (CampaignMethods.run ops c) <> Campaign.status c ->
   Campaign.status (CampaignMethods.run ops c) <> CampaignStatus.COMPLETED /\
   Campaign.status (CampaignMethods.run ops c) <> CampaignStatus.FAILED /\
   Campaign.status (CampaignMethods.run ops c) <> CampaignStatus.DRAFT).
Proof.
  split; [apply campaign_call_status|]. split.
  - revert c. induction ops as [|o ops IH]; intros c Hc; [reflexivity|].
    change (CampaignMethods.run (o :: ops) c)
      with (CampaignMethods.run ops (snd (CampaignMethods.call o c))).
    assert (Campaign.status (snd (CampaignMethods.call o c))
            = Campaign.status c) as Hstep.
    { destruct (campaign_call_status o c) as [H|H]; [exact H|].
      destruct Hc as [Hc|Hc]; rewrite Hc in H; discriminate. }
    rewrite IH; rewrite Hstep; done.
  - revert c. induction ops as [|o ops IH]; intros c Hne; [done|].
    change (CampaignMethods.run (o :: ops) c)
      with (CampaignMethods.run ops (snd (CampaignMethods.call o c)))
      in *.
    set (c1 := snd (CampaignMethods.call o c)) in *.
    destruct (decide (Campaign.status (CampaignMethods.run ops c1)
                      = Campaign.status c1)) as [Heq|Hne1];
      [|by apply IH].
    rewrite Heq in *.
    destruct (campaign_call_status o c) as [H|H]; fold c1 in H;
      [congruence|].
    destruct (Campaign.status c), (Campaign.status c1);
      try discriminate; done.
Qed.

Lemma campaign_status_follows_life_cycle_witness :
  let c := snd (Campaign.cancel 1100 "e-1" "budget" sample_campaign) in
  Campaign.status
    (CampaignMethods.run [CampaignMethods.OpActivate 1200 "e-2";
                          CampaignMethods.OpAddAudience 1300 "a-1" 10] c)
  = Campaign.status c.
Proof.
  intros c.
  apply (proj1 (proj2 (campaign_status_follows_life_cycle
                         (CampaignMethods.OpActivate 1200 "e-2")
                         [CampaignMethods.OpActivate 1200 "e-2";
                          CampaignMethods.OpAddAudience 1300 "a-1" 10] c))).
  right. reflexivity.
Defined.

(** ** The campaign: recipients, audiences and events *)

Lemma campaign_call_keeps_recipients_when_running
    (op : CampaignMethods.Op) (c : Campaign.t) :
  (Campaign.status c = CampaignStatus.ACTIVE \/
   Campaign.status c = CampaignStatus.PAUSED ->
   Campaign.recipient_count c <> 0) ->
  let c' := snd (CampaignMethods.call op c) in
  Campaign.status c' = CampaignStatus.ACTIVE \/
  Campaign.status c' = CampaignStatus.PAUSED ->
  Campaign.recipient_count c' <> 0.
Proof.
  intros Hinv.
  destruct op as [? ? ?|? ?|? ?|? ?|? ? ?|? ? ?|k ?]; simpl;
    try (destruct k; exact Hinv); campaign_guards;
    try exact Hinv; try (intros [?|?]; discriminate).
  - intros _. by apply Z.eqb_neq.
  - intros _. apply Hinv. by left.
  - intros _. apply Hinv. by right.
  - match goal with H : Campaign.status c ∈ _ |- _ =>
      apply elem_of_cons in H as [->|H];
        [|by apply elem_of_nil in H] end.
    intros [?|?]; discriminate.
Qed.

(** X10. A campaign is never ACTIVE or PAUSED with [recipient_count] 0
    through its methods: if that holds of a campaign (as it does of every
    DRAFT), it holds after any sequence of [schedule], [activate], [pause],
    [resume], [cancel], [add_audience] and [record_*] calls. *)
Theorem running_campaign_has_recipients
    (ops : list CampaignMethods.Op) (c : Campaign.t) :
  (Campaign.status c = CampaignStatus.ACTIVE \/
   Campaign.status c = CampaignStatus.PAUSED ->
   Campaign.recipient_count c <> 0) ->
  Campaign.status (CampaignMethods.run ops c) = CampaignStatus.ACTIVE \/
  Campaign.status (CampaignMethods.run ops c) = CampaignStatus.PAUSED ->
  Campaign.recipient_count (CampaignMethods.run ops c) <> 0.
Proof.
  revert c. induction ops as [|op ops IH]; intros c Hinv; [exact Hinv|].
  change (CampaignMethods.run (op :: ops) c)
    with (CampaignMethods.run ops (snd (CampaignMethods.call op c))).
  apply IH. by apply campaign_call_keeps_recipients_when_running.
Qed.

Lemma running_campaign_has_recipients_witness :
  let ops := [CampaignMethods.OpAddAudience 1001 "a-1" 100;
              CampaignMethods.OpActivate 1002 "e-1";
              CampaignMethods.OpPause 1003 "e-2"] in
  Campaign.status (CampaignMethods.run ops sample_campaign)
  = CampaignStatus.PAUSED /\
  Campaign.recipient_count (CampaignMethods.run ops sample_campaign) <> 0.
Proof.
  intros ops.
  assert (Campaign.status (CampaignMethods.run ops sample_campaign)
          = CampaignStatus.PAUSED) as H by reflexivity.
  split; [exact H|].
  apply (running_campaign_has_recipients ops sample_campaign).
  - intros [?|?]; discriminate.
  - right. exact H.
Defined.

Lemma app_two {A} (l : list A) (a b : A) :
  (l ++ [a; b] = (l ++ [a]) ++ [b])%list.
Proof. by rewrite <- app_assoc. Qed.

(** X11. [pause()] then [resume()] on an ACTIVE campaign both return and
    bring it back: the campaign after the two calls is the campaign before
    them, but for [updated_at], now the clock reading of [resume()], and
    for two more pending events, "campaign.paused" and "campaign.resumed",
    in this order. *)
Theorem pause_then_resume_restores
    (t1 t2 : datetime) (e1 e2 : UUID) (c : Campaign.t) :
  Campaign.status c = CampaignStatus.ACTIVE ->
  (Campaign.pause t1 e1 ;;; Campaign.resume t2 e2) c
  = (Ok tt,
     Campaign.set__events
       (Campaign._events c ++
        [ mkDomainEvent e1 "campaign.paused" t1 (Campaign.id c) [];
          mkDomainEvent e2 "campaign.resumed" t2 (Campaign.id c) [] ])%list
       (Campaign.set_updated_at t2 c)).
Proof.
  intros Hs. destruct c. simpl in Hs. subst.
  unfold Campaign.pause, Campaign.resume, bind, Campaign._ensure_status,
    modify.
  rewrite app_two. vm_compute. reflexivity.
Qed.

Lemma pause_then_resume_restores_witness :
  let c := snd (Campaign.activate 1002 "e-0" sample_campaign_with_audience) in
  fst ((Campaign.pause 1003 "e-1" ;;; Campaign.resume 1004 "e-2") c) = Ok tt.
Proof.
  intros c.
  rewrite (pause_then_resume_restores 1003 1004 "e-1" "e-2" c);
    reflexivity.
Defined.

Lemma add_audience_new (now : datetime) (aid : UUID) (n : Z)
    (c : Campaign.t) :
  Campaign.status c = CampaignStatus.DRAFT ->
  aid ∉ Campaign.audience_ids c ->
  let c' := snd (Campaign.add_audience now aid n c) in
  fst (Campaign.add_audience now aid n c) = Ok tt /\
  Campaign.status c' = CampaignStatus.DRAFT /\
  Campaign.audience_ids c' = (Campaign.audience_ids c ++ [aid])%list /\
  Campaign.recipient_count c' = Campaign.recipient_count c + n /\
  total_recipients (Campaign.stats c') = Campaign.recipient_count c + n.
Proof.
  intros Hs Hn. unfold Campaign.add_audience.
  rewrite bool_decide_eq_true_2 by (rewrite Hs; set_solver).
  rewrite bool_decide_eq_false_2 by exact Hn. simpl. by rewrite Hs.
Qed.

(** X12. [add_audience] on a DRAFT campaign: an audience id that is already
    attached is accepted and changes nothing, not even [updated_at];
    audiences with new, distinct ids are attached in order, and
    [recipient_count] grows by the sum of their sizes, with
    [stats.total_recipients] kept equal to it. *)
Theorem add_audience_counts_each_audience_once
    (now : datetime) (audiences : list (UUID * Z)) (c : Campaign.t) :
  Campaign.status c = CampaignStatus.DRAFT ->
  (forall aid n,
     aid ∈ Campaign.audience_ids c ->
     Campaign.add_audience now aid n c = (Ok tt, c)) /\
  (NoDup (Campaign.audience_ids c ++ map fst audiences)%list ->
   let c' := CampaignMethods.add_audiences now audiences c in
   Campaign.audience_ids c'
   = (Campaign.audience_ids c ++ map fst audiences)%list /\
   Campaign.recipient_count c'
   = Campaign.recipient_count c + fold_right Z.add 0 (map snd audiences) /\
   (audiences <> [] ->
    total_recipients (Campaign.stats c') = Campaign.recipient_count c')).
Proof.
  intros Hs. split.
  - intros aid n Hin. unfold Campaign.add_audience.
    rewrite bool_decide_eq_true_2 by (rewrite Hs; set_solver).
    by rewrite bool_decide_eq_true_2 by exact Hin.
  - revert c Hs. induction audiences as [|[aid n] l IH]; intros c Hs Hnd.
    + simpl. rewrite app_nil_r. split; [reflexivity|]. split; [lia|done].
    + simpl in Hnd. assert (aid ∉ Campaign.audience_ids c) as Hnew.
      { apply NoDup_app in Hnd as (_ & Hd & _). intros Hin.
        apply (Hd aid Hin). apply elem_of_cons. by left. }
      destruct (add_audience_new now aid n c Hs Hnew)
        as (_ & Hs1 & Hids & Hrc & Hst).
      change (CampaignMethods.add_audiences now ((aid, n) :: l) c)
        with (CampaignMethods.add_audiences now l
                (snd (Campaign.add_audience now aid n c))).
      set (c1 := snd (Campaign.add_audience now aid n c)) in *.
      destruct (IH c1 Hs1) as (Hids' & Hrc' & Hst').
      { rewrite Hids, <- app_assoc. exact Hnd. }
      cbv zeta in *. split; [|split].
      * rewrite Hids', Hids, <- app_assoc. reflexivity.
      * rewrite Hrc', Hrc. simpl. lia.
      * intros _. destruct (decide (l = [])) as [->|Hl];
          [|by apply Hst'].
        change (CampaignMethods.add_audiences now [] c1) with c1.
        by rewrite Hst, Hrc.
Qed.

Lemma add_audience_counts_each_audience_once_witness :
  Campaign.recipient_count
    (CampaignMethods.add_audiences 1001 [("a-1", 100); ("a-2", 50)]
       sample_campaign)
  = 150.
Proof.
  destruct (proj2 (add_audience_counts_each_audience_once 1001
                     [("a-1", 100); ("a-2", 50)] sample_campaign
                     eq_refl)) as (_ & H & _).
  - simpl. apply NoDup_cons. split; [|apply NoDup_singleton].
    intros Hin. apply list_elem_of_singleton in Hin. discriminate.
  - exact H.
Defined.

(** X13. A method that returns has appended at most one event: [schedule],
    [activate], [pause], [resume] and [cancel] append exactly one, of their
    own type and with the campaign's id as [aggregate_id]; [add_audience]
    and the [record_*] methods append none. [collect_events] hands out the
    pending events in order and leaves none, so collecting a second time
    gives the empty list. *)
Theorem campaign_events_one_per_transition
    (op : CampaignMethods.Op) (c : Campaign.t) :
  fst (CampaignMethods.call op c) = Ok tt ->
  let c' := snd (CampaignMethods.call op c) in
  match CampaignMethods.event_type_of op with
  | Some type_ =>
      exists e,
        fst (CampaignMethods.collect_events c')
        = (Campaign._events c ++ [e])%list /\
        event_type e = type_ /\ aggregate_id e = Campaign.id c
  | None => fst (CampaignMethods.collect_events c') = Campaign._events c
  end /\
  fst (CampaignMethods.collect_events
         (snd (CampaignMethods.collect_events c'))) = [].
Proof.
  intros Hok c'. split; [|reflexivity]. subst c'. revert Hok.
  destruct op as [? ? ?|? ?|? ?|? ?|? ? ?|? ? ?|k ?]; simpl;
    try (intros _; by destruct k); campaign_guards;
    try discriminate; intros _; try reflexivity;
    eexists; (split; [reflexivity|]); split; reflexivity.
Qed.

Lemma campaign_events_one_per_transition_witness :
  exists e,
    fst (CampaignMethods.collect_events
           (snd (Campaign.activate 1002 "e-0"
                   sample_campaign_with_audience)))
    = [e] /\
    event_type e = "campaign.activated" /\ aggregate_id e = "c-1".
Proof.
  apply (campaign_events_one_per_transition
           (CampaignMethods.OpActivate 1002 "e-0")
           sample_campaign_with_audience).
  reflexivity.
Defined.

(** ** The delivery service: outcomes of [process_message_delivery] *)

Lemma queue_fallback_returns (now : datetime) (s : DeliveryService.Local) :
  Message.should_fallback_to_sms (fst s) = true ->
  fst (DeliveryService._queue_fallback now s) = Ok tt.
Proof.
  intros H. destruct s as [m w].
  destruct (trigger_fallback_ok now m H) as (m' & Hm' & _).
  unfold DeliveryService._queue_fallback, bind,
    DeliveryService.call_message. cbn [fst snd]. rewrite Hm'.
  reflexivity.
Qed.

Lemma handle_delivery_failure_returns (now : datetime) (e : Exception)
    (s : DeliveryService.Local) :
  fst (DeliveryService._handle_delivery_failure now e s) = Ok tt.
Proof.
  unfold DeliveryService._handle_delivery_failure, bind,
    DeliveryService.on_message, modify, DeliveryService.the_message.
  cbn [fst snd].
  destruct (Message.should_retry _ _); [reflexivity|].
  destruct (Message.should_fallback_to_sms _) eqn:F; [|reflexivity].
  by apply queue_fallback_returns.
Qed.

Lemma on_exception_returns (now : datetime) (e : Exception)
    (s : DeliveryService.Local) :
  fst (DeliveryService.on_exception now e s) = Ok tt.
Proof.
  destruct e; simpl; try apply handle_delivery_failure_returns.
  reflexivity.
Qed.

(** ** The delivery service: what one processing keeps *)

Lemma preserves_bind {S A B} (P : S -> Prop) (c : M S A) (k : A -> M S B) :
  preserves P c -> (forall a, preserves P (k a)) -> preserves P (bind c k).
Proof.
  intros Hc Hk s Hs. unfold bind. specialize (Hc s Hs).
  destruct (c s) as [[a|e] s']; simpl in *; [by apply Hk|exact Hc].
Qed.

Lemma preserves_ret {S A} (P : S -> Prop) (a : A) : preserves P (ret a).
Proof. by intros s Hs. Qed.

Lemma preserves_raise {S A} (P : S -> Prop) (e : Exception) :
  preserves P (raise (A := A) e).
Proof. by intros s Hs. Qed.

Lemma preserves_lift {S A} (P : S -> Prop) (r : result A) :
  preserves P (lift r).
Proof. destruct r; by intros s Hs. Qed.

Lemma preserves_try_except {S A} (P : S -> Prop) (body : M S A)
    (handler : Exception -> M S A) :
  preserves P body -> (forall e, preserves P (handler e)) ->
  preserves P (try_except body handler).
Proof.
  intros Hb Hh s Hs. unfold try_except. specialize (Hb s Hs).
  destruct (body s) as [[a|e] s']; simpl in *; [exact Hb|by apply Hh].
Qed.

Section ProcessingKeeps.

(** A property [good] of the message in hand and a property [W] of the
    world such that saving a good message keeps [W], and so do the calls
    on the statistics and on the queue. *)
Variable good : Message.t -> Prop.
Variable W : DeliveryService.World -> Prop.

Hypothesis W_save :
  forall m w, good m -> W w -> W (DeliveryService.save m w).
Hypothesis W_update_stats :
  forall c k n w, W w -> W (DeliveryService.update_stats c k n w).
Hypothesis W_queue_call :
  forall q w, W w -> W (DeliveryService.queue_call q w).

Hypothesis good_mark_failed :
  forall now r c e m, good m -> good (Message.mark_failed now r c e m).
Hypothesis good_mark_sent :
  forall now a x m, good m -> good (Message.mark_sent now a x m).
Hypothesis good_queue :
  forall now m, good m -> good (snd (Message.queue now m)).
Hypothesis good_trigger_fallback :
  forall now m, good m -> good (snd (Message.trigger_fallback now m)).
Hypothesis good_increment_retry :
  forall now m, Message.should_retry now m = true -> good m ->
                good (Message.increment_retry now m).

Local Abbreviation kept := (kept_by good W).

Lemma kept_the_message (k : Message.t -> M DeliveryService.Local unit) :
  (forall m, preserves kept (k m)) ->
  preserves kept (bind DeliveryService.the_message k).
Proof.
  intros H. apply preserves_bind; [by intros s Hs|exact H].
Qed.

Lemma kept_save_message : preserves kept DeliveryService.save_message.
Proof. intros [m w] [Hm Hw]. split; [exact Hm|by apply W_save]. Qed.

Lemma kept_enqueue (q : QueueCall) :
  preserves kept (DeliveryService.on_world (DeliveryService.queue_call q)).
Proof. intros [m w] [Hm Hw]. split; [exact Hm|by apply W_queue_call]. Qed.

Lemma kept_queue_fallback (now : datetime) :
  preserves kept (DeliveryService._queue_fallback now).
Proof.
  unfold DeliveryService._queue_fallback.
  apply preserves_bind; [|intros _].
  { intros [m w] [Hm Hw]. unfold DeliveryService.call_message.
    cbn [fst snd]. pose proof (good_trigger_fallback now m Hm) as H.
    destruct (Message.trigger_fallback now m) as [r m']. by split. }
  apply preserves_bind; [apply kept_save_message|intros _].
  apply kept_the_message. intros m. apply kept_enqueue.
Qed.

Lemma kept_handle_delivery_failure (now : datetime) (e : Exception) :
  preserves kept (DeliveryService._handle_delivery_failure now e).
Proof.
  intros [m w] [Hm Hw].
  unfold DeliveryService._handle_delivery_failure, bind,
    DeliveryService.on_message, modify, DeliveryService.the_message.
  cbn [fst snd].
  set (m1 := Message.mark_failed now FailureReason.NETWORK_ERROR
               (DeliveryService.exception_error_code e)
               (Some (DeliveryService.exception_str e)) m).
  assert (good m1) as Hm1 by (by apply good_mark_failed).
  destruct (Message.should_retry now m1) eqn:Hr.
  - cbn [fst snd DeliveryService.save_message DeliveryService.on_world modify].
    split; cbn [fst snd].
    + by apply good_increment_retry.
    + apply W_queue_call, W_save; [|exact Hw].
      by apply good_increment_retry.
  - destruct (Message.should_fallback_to_sms m1).
    + by apply kept_queue_fallback.
    + by apply kept_save_message.
Qed.

Lemma kept_on_exception (now : datetime) (e : Exception) :
  preserves kept (DeliveryService.on_exception now e).
Proof.
  destruct e; simpl; try apply kept_handle_delivery_failure.
  unfold DeliveryService._requeue_with_delay.
  apply kept_the_message. intros m. apply kept_enqueue.
Qed.

Lemma kept_send_via_aggregator (aggregator : AggregatorPort)
    (now : datetime) :
  preserves kept (DeliveryService._send_via_aggregator aggregator now).
Proof.
  unfold DeliveryService._send_via_aggregator.
  apply kept_the_message. intros m.
  apply preserves_bind; [apply preserves_lift|intros response].
  destruct (success response); [|apply preserves_raise].
  apply preserves_bind; [|intros _; apply kept_save_message].
  intros [m' w] [Hm Hw]. split; [by apply good_mark_sent|exact Hw].
Qed.

Lemma kept_attempt_delivery (aggregator : AggregatorPort) (now : datetime) :
  preserves kept (DeliveryService.attempt_delivery aggregator now).
Proof.
  unfold DeliveryService.attempt_delivery.
  apply kept_the_message. intros m.
  apply preserves_bind.
  - destruct (bool_decide _); [|apply preserves_ret].
    apply preserves_bind.
    { unfold DeliveryService._check_rcs_capability.
      apply preserves_bind; [apply preserves_lift|].
      intros [|r rs]; apply preserves_ret. }
    intros capable_. destruct (negb capable_); [|apply preserves_ret].
    apply preserves_bind; [|intros _].
    { intros [m' w] [Hm Hw]. split; [by apply good_mark_failed|exact Hw]. }
    apply preserves_bind; [apply kept_save_message|intros _].
    apply preserves_bind; [apply kept_queue_fallback|intros _].
    apply preserves_ret.
  - intros [|]; [apply preserves_ret|].
    apply preserves_bind; [|intros _].
    { intros [m' w] [Hm Hw]. unfold DeliveryService.call_message.
      cbn [fst snd]. pose proof (good_queue now m' Hm) as H.
      destruct (Message.queue now m') as [r m'']. by split. }
    apply preserves_bind; [apply kept_save_message|intros _].
    apply preserves_bind; [apply kept_send_via_aggregator|intros _].
    apply kept_the_message. intros m'.
    intros [m'' w] [Hm Hw]. split; [exact Hm|by apply W_update_stats].
Qed.

(** What holds of the world before a processing, with a good message under
    the id, holds of the world after it. *)
Lemma process_message_delivery_keeps
    (aggregator : AggregatorPort) (now : datetime) (message_id : UUID)
    (w : DeliveryService.World) :
  W w ->
  (forall m, DeliveryService.messages w !! message_id = Some m -> good m) ->
  W (snd (DeliveryService.process_message_delivery aggregator now
            message_id w)).
Proof.
  intros Hw Hm.
  unfold DeliveryService.process_message_delivery,
    DeliveryService.with_uow.
  destruct (DeliveryService.messages w !! message_id) as [m|];
    [|exact Hw].
  specialize (Hm m eq_refl).
  pose proof (preserves_try_except kept _ _
                (kept_attempt_delivery aggregator now)
                (kept_on_exception now) (m, w) (conj Hm Hw)) as [_ Hk].
  pose proof (on_exception_returns now) as Hret.
  unfold try_except in *.
  destruct (DeliveryService.attempt_delivery aggregator now (m, w))
    as [[[]|e] [m1 w1]].
  - exact Hk.
  - specialize (Hret e (m1, w1)).
    destruct (DeliveryService.on_exception now e (m1, w1))
      as [r [m2 w2]]. simpl in Hret. subst r. exact Hk.
Qed.

End ProcessingKeeps.

Lemma should_retry_has_budget (now : datetime) (m : Message.t) :
  Message.should_retry now m = true ->
  Message.retry_count m < Message.max_retries m.
Proof.
  unfold Message.should_retry. destruct (negb _); [discriminate|].
  destruct (Message.retry_count m >=? Message.max_retries m) eqn:E;
    [discriminate|]. intros _.
  destruct (Z.lt_ge_cases (Message.retry_count m) (Message.max_retries m))
    as [H|H]; [exact H|]. apply geb_true_iff in H. congruence.
Qed.

(** X15. The retry budget is an invariant of processing: if every stored
    message has [0 <= retry_count <= max_retries], then so has every stored
    message after [process_message_delivery], whatever the vendor does.
    The counter is advanced only when [should_retry()] holds, so below
    [max_retries], and is otherwise left or reset to 0. *)
Theorem processing_keeps_retry_budget
    (aggregator : AggregatorPort) (now : datetime) (message_id : UUID)
    (w : DeliveryService.World) :
  all_rows within_budget w ->
  all_rows within_budget
    (snd (DeliveryService.process_message_delivery aggregator now
            message_id w)).
Proof.
  intros Hw.
  apply (process_message_delivery_keeps within_budget
           (all_rows within_budget)); try exact Hw.
  - intros m w0 Hm H0 k m'. unfold DeliveryService.save. simpl.
    destruct (decide (Message.id m = k)) as [->|Hne].
    + rewrite lookup_insert_eq. by intros [= <-].
    + rewrite lookup_insert_ne by exact Hne. apply H0.
  - intros c k n w0 H0. exact H0.
  - intros q w0 H0. exact H0.
  - intros t r c e m H. exact H.
  - intros t a x m H. exact H.
  - intros t m H. unfold Message.queue. by destruct (negb _).
  - intros t m H. unfold Message.trigger_fallback.
    destruct (negb _); [exact H|]. unfold within_budget in *. simpl. lia.
  - intros t m Hr H. apply should_retry_has_budget in Hr.
    unfold within_budget in *. simpl. lia.
  - intros m Hm. by apply (Hw message_id).
Qed.

Lemma processing_keeps_retry_budget_witness :
  all_rows within_budget
    (snd (DeliveryService.process_message_delivery refusing_vendor 2000
            "m-1" sample_world)).
Proof.
  apply (processing_keeps_retry_budget refusing_vendor 2000 "m-1"
           sample_world).
  intros k m. unfold sample_world, DeliveryService.save. simpl.
  destruct (decide ("m-1" = k)) as [<-|Hne].
  - rewrite lookup_insert_eq. intros [= <-]. vm_compute.
    split; discriminate.
  - rewrite lookup_insert_ne by exact Hne. by rewrite lookup_empty.
Defined.

(** X16. One processing writes one row: if the message stored under
    [message_id] carries that id, every row under another id is after
    [process_message_delivery] what it was before. *)
Theorem processing_writes_only_its_row
    (aggregator : AggregatorPort) (now : datetime) (message_id : UUID)
    (w : DeliveryService.World) :
  (forall m, DeliveryService.messages w !! message_id = Some m ->
             Message.id m = message_id) ->
  other_rows_of w message_id
    (snd (DeliveryService.process_message_delivery aggregator now
            message_id w)).
Proof.
  intros Hid.
  apply (process_message_delivery_keeps
           (fun m => Message.id m = message_id)
           (other_rows_of w message_id)); try exact Hid.
  - intros m w0 Hm H0 k Hk. unfold DeliveryService.save. simpl.
    rewrite lookup_insert_ne by congruence. by apply H0.
  - intros c k n w0 H0. exact H0.
  - intros q w0 H0. exact H0.
  - intros t r c e m H. exact H.
  - intros t a x m H. exact H.
  - intros t m H. unfold Message.queue. by destruct (negb _).
  - intros t m H. unfold Message.trigger_fallback. by destruct (negb _).
  - intros t m _ H. exact H.
  - by intros k Hk.
Qed.

Lemma processing_writes_only_its_row_witness :
  other_rows_of sample_world "m-1"
    (snd (DeliveryService.process_message_delivery refusing_vendor 2000
            "m-1" sample_world)).
Proof.
  apply (processing_writes_only_its_row refusing_vendor 2000 "m-1"
           sample_world).
  intros m. vm_compute. by intros [= <-].
Defined.

(** ** The delivery service: the paths of one processing *)

(** X17. The accepted send. A PENDING message, on SMS or with an RCS-capable
    recipient, that the vendor accepts: the row is saved as QUEUED and then
    as SENT with the vendor's name and id and one attempt more in its log,
    [messages_sent] of its campaign is advanced by one, and nothing is put
    on the queue. *)
Theorem accepted_send_is_recorded
    (aggregator : AggregatorPort) (now : datetime)
    (w : DeliveryService.World) (mid : UUID) (m : Message.t)
    (response : SendMessageResponse) :
  DeliveryService.messages w !! mid = Some m ->
  Message.status m = MessageStatus.PENDING ->
  (Message.channel m = MessageChannel.RCS ->
   exists r rs,
     check_rcs_capability aggregator [Message.recipient_phone m]
     = Ok (r :: rs) /\ rcs_enabled r = true) ->
  (forall req, send_rcs_message aggregator req = Ok response) ->
  (forall req, send_sms_message aggregator req = Ok response) ->
  success response = true ->
  let queued := snd (Message.queue now m) in
  let sent :=
    Message.mark_sent now (get_name aggregator) (resp_external_id response)
      queued in
  DeliveryService.process_message_delivery aggregator now mid w
  = (Ok tt,
     DeliveryService.update_stats (Message.campaign_id m) "messages_sent" 1
       (DeliveryService.save sent (DeliveryService.save queued w))) /\
  Message.status sent = MessageStatus.SENT /\
  Message.external_id sent = resp_external_id response /\
  List.length (Message.delivery_attempts sent)
  = S (List.length (Message.delivery_attempts m)) /\
  DeliveryService.queue_calls
    (snd (DeliveryService.process_message_delivery aggregator now mid w))
  = DeliveryService.queue_calls w.
Proof.
  intros Hm Hs Hcap Hrcs Hsms Hok queued sent.
  assert (DeliveryService.process_message_delivery aggregator now mid w
          = (Ok tt,
             DeliveryService.update_stats (Message.campaign_id m)
               "messages_sent" 1
               (DeliveryService.save sent (DeliveryService.save queued w))))
    as Hrun.
  { subst sent queued. rewrite (queue_pending now m Hs). cbn [snd].
    unfold DeliveryService.process_message_delivery,
      DeliveryService.with_uow. rewrite Hm.
    unfold try_except, DeliveryService.attempt_delivery, bind,
      DeliveryService.the_message. cbn [fst snd].
    case_bool_decide as Hc.
    - destruct (Hcap Hc) as (r & rs & Hr & He).
      unfold DeliveryService._check_rcs_capability, bind, lift.
      cbn [fst snd]. rewrite Hr. cbn [fst snd ret]. rewrite He.
      cbn [negb ret]. unfold DeliveryService.call_message. cbn [fst snd].
      rewrite (queue_pending now m Hs).
      unfold DeliveryService._send_via_aggregator, bind,
        DeliveryService.the_message, lift,
        DeliveryService.save_message, modify. cbn [fst snd].
      rewrite bool_decide_eq_true_2 by exact Hc.
      rewrite Hrcs. cbn [ret]. rewrite Hok. reflexivity.
    - cbn [ret]. unfold DeliveryService.call_message. cbn [fst snd].
      rewrite (queue_pending now m Hs).
      unfold DeliveryService._send_via_aggregator, bind,
        DeliveryService.the_message, lift,
        DeliveryService.save_message, modify. cbn [fst snd].
      rewrite bool_decide_eq_false_2 by exact Hc.
      rewrite Hsms. cbn [ret]. rewrite Hok. reflexivity. }
  split; [exact Hrun|]. rewrite Hrun.
  subst sent queued. rewrite (queue_pending now m Hs).
  repeat split.
  unfold Message.mark_sent, Message._record_attempt. cbn.
  rewrite length_app. simpl. lia.
Qed.

Lemma accepted_send_is_recorded_witness :
  DeliveryService.queue_calls
    (snd (DeliveryService.process_message_delivery accepting_vendor 2000
            "m-1" sample_world))
  = DeliveryService.queue_calls sample_world.
Proof.
  apply (accepted_send_is_recorded accepting_vendor 2000 sample_world "m-1"
           sample_message
           (mkSendMessageResponse true (Some "ext-1") None None None)).
  - vm_compute. reflexivity.
  - reflexivity.
  - intros _. eexists _, _. split; reflexivity.
  - reflexivity.
  - reflexivity.
  - reflexivity.
Defined.

Lemma mark_failed_fields (now : datetime) (r : FailureReason.t)
    (c e : option string) (m : Message.t) :
  let m' := Message.mark_failed now r c e m in
  Message.channel m' = Message.channel m /\
  Message.fallback_enabled m' = Message.fallback_enabled m /\
  Message.fallback_triggered m' = Message.fallback_triggered m /\
  Message.retry_count m' = Message.retry_count m /\
  Message.max_retries m' = Message.max_retries m /\
  Message.status m' = MessageStatus.FAILED /\
  Message.failure_reason m' = Some r.
Proof. repeat split. Qed.

Lemma should_fallback_after_unsupported (now : datetime) (m : Message.t)
    (c e : option string) :
  Message.channel m = MessageChannel.RCS ->
  Message.fallback_enabled m = true ->
  Message.fallback_triggered m = false ->
  Message.should_fallback_to_sms
    (Message.mark_failed now FailureReason.RCS_NOT_SUPPORTED c e m) = true.
Proof.
  intros Hc He Ht.
  destruct (mark_failed_fields now FailureReason.RCS_NOT_SUPPORTED c e m)
    as (H1 & H2 & H3 & _ & _ & _ & H4).
  unfold Message.should_fallback_to_sms.
  rewrite H1, H2, H3, H4, He, Ht, Hc. reflexivity.
Qed.

(** ** The delivery service: status updates from the vendor *)

Lemma rollback_same (w : DeliveryService.World) :
  {| DeliveryService.messages := DeliveryService.messages w;
     DeliveryService.stats_updates := DeliveryService.stats_updates w;
     DeliveryService.queue_calls := DeliveryService.queue_calls w |} = w.
Proof. by destruct w. Qed.

Lemma status_update_on_message (now : datetime) (external_id status : string)
    (c e : option string) (w : DeliveryService.World) (m : Message.t) :
  StatusUpdates.get_by_external_id external_id w = (Ok (Some m), w) ->
  StatusUpdates.handle_delivery_status_update now external_id status c e w
  = DeliveryService.with_uow
      (fun w =>
         let '(r, (_, w')) :=
           StatusUpdates.apply_status now status c e (m, w) in (r, w')) w.
Proof.
  intros H. unfold StatusUpdates.handle_delivery_status_update,
    DeliveryService.with_uow, bind. by rewrite H.
Qed.

(** X20. A status update for a vendor id that no stored message carries
    changes nothing and returns. So does, but for the row being saved
    again as it is, an update whose status is none of "delivered", "read"
    and "failed": no counter moves and nothing is enqueued. *)
Theorem unknown_status_update_changes_nothing
    (now : datetime) (external_id status : string) (c e : option string)
    (w : DeliveryService.World) :
  (StatusUpdates.rows_with_external_id external_id w = [] ->
   StatusUpdates.handle_delivery_status_update now external_id status c e w
   = (Ok tt, w)) /\
  (forall m,
     StatusUpdates.get_by_external_id external_id w = (Ok (Some m), w) ->
     status <> "delivered" -> status <> "read" -> status <> "failed" ->
     StatusUpdates.handle_delivery_status_update now external_id status c e w
     = (Ok tt, DeliveryService.save m w)).
Proof.
  split.
  - intros H. unfold StatusUpdates.handle_delivery_status_update,
      DeliveryService.with_uow, bind, StatusUpdates.get_by_external_id.
    by rewrite H.
  - intros m Hm H1 H2 H3.
    rewrite (status_update_on_message _ _ _ _ _ _ _ Hm).
    unfold DeliveryService.with_uow, StatusUpdates.apply_status, bind.
    apply String.eqb_neq in H1, H2, H3. rewrite H1, H2, H3.
    reflexivity.
Qed.

Lemma unknown_status_update_changes_nothing_witness :
  StatusUpdates.handle_delivery_status_update 2100 "ext-9" "delivered"
    None None sent_world
  = (Ok tt, sent_world) /\
  StatusUpdates.handle_delivery_status_update 2100 "ext-1" "bounced"
    None None sent_world
  = (Ok tt, DeliveryService.save sent_message sent_world).
Proof.
  split.
  - apply (proj1 (unknown_status_update_changes_nothing 2100 "ext-9"
                    "delivered" None None sent_world)).
    vm_compute. reflexivity.
  - apply (proj2 (unknown_status_update_changes_nothing 2100 "ext-1"
                    "bounced" None None sent_world) sent_message).
    + vm_compute. reflexivity.
    + discriminate.
    + discriminate.
    + discriminate.
Defined.

(** X21. A "delivered" update for a stored message that is SENT or QUEUED
    returns: [messages_delivered] of its campaign is advanced by one and
    the row is saved as DELIVERED, with [delivered_at] the clock reading.
    For a message in any other status, so for one that is DELIVERED
    already, [mark_delivered()] raises its [ValueError], the update leaves
    the call as that exception and the world is as it was. *)
Theorem delivered_update_needs_sent_or_queued
    (now : datetime) (external_id : string) (c e : option string)
    (w : DeliveryService.World) (m : Message.t) :
  StatusUpdates.get_by_external_id external_id w = (Ok (Some m), w) ->
  let m' := snd (Message.mark_delivered now m) in
  (Message.status m ∈ [MessageStatus.SENT; MessageStatus.QUEUED] ->
   StatusUpdates.handle_delivery_status_update now external_id "delivered"
     c e w
   = (Ok tt,
      DeliveryService.save m'
        (DeliveryService.update_stats (Message.campaign_id m)
           "messages_delivered" 1 w)) /\
   Message.status m' = MessageStatus.DELIVERED /\
   Message.delivered_at m' = Some now) /\
  (Message.status m ∉ [MessageStatus.SENT; MessageStatus.QUEUED] ->
   StatusUpdates.handle_delivery_status_update now external_id "delivered"
     c e w
   = (Raise (ValueError "Cannot mark delivered"), w)).
Proof.
  intros Hm m'. subst m'.
  rewrite (status_update_on_message _ _ _ _ _ _ _ Hm).
  unfold DeliveryService.with_uow, StatusUpdates.apply_status, bind,
    DeliveryService.call_message, Message.mark_delivered.
  cbn [String.eqb Ascii.eqb Bool.eqb fst snd].
  split; intros Hs.
  - rewrite bool_decide_eq_true_2 by exact Hs. cbn [negb fst snd].
    repeat split.
  - rewrite bool_decide_eq_false_2 by exact Hs. cbn [negb fst snd].
    by rewrite rollback_same.
Qed.

Lemma delivered_update_needs_sent_or_queued_witness :
  let once :=
    snd (StatusUpdates.handle_delivery_status_update 2100 "ext-1"
           "delivered" None None sent_world) in
  once
  = DeliveryService.save (snd (Message.mark_delivered 2100 sent_message))
      (DeliveryService.update_stats "c-1" "messages_delivered" 1
         sent_world) /\
  StatusUpdates.handle_delivery_status_update 2200 "ext-1" "delivered"
    None None once
  = (Raise (ValueError "Cannot mark delivered"), once).
Proof.
  intros once.
  assert (StatusUpdates.get_by_external_id "ext-1" sent_world
          = (Ok (Some sent_message), sent_world)) as H1
    by (vm_compute; reflexivity).
  destruct (proj1 (delivered_update_needs_sent_or_queued 2100 "ext-1"
                     None None sent_world sent_message H1))
    as (Hrun & _ & _).
  { assert (Message.status sent_message = MessageStatus.SENT) as ->
      by (vm_compute; reflexivity).
    apply elem_of_cons. by left. }
  assert (once
          = DeliveryService.save
              (snd (Message.mark_delivered 2100 sent_message))
              (DeliveryService.update_stats "c-1" "messages_delivered" 1
                 sent_world)) as Honce.
  { subst once. rewrite Hrun. reflexivity. }
  split; [exact Honce|].
  assert (StatusUpdates.get_by_external_id "ext-1" once
          = (Ok (Some (snd (Message.mark_delivered 2100 sent_message))),
             once)) as H2.
  { rewrite Honce. vm_compute. reflexivity. }
  apply (proj2 (delivered_update_needs_sent_or_queued 2200 "ext-1"
                  None None once _ H2)).
  assert (Message.status (snd (Message.mark_delivered 2100 sent_message))
          = MessageStatus.DELIVERED) as -> by (vm_compute; reflexivity).
  intros H.
  apply elem_of_cons in H as [H|H]; [discriminate|].
  apply elem_of_cons in H as [H|H]; [discriminate|].
  by apply elem_of_nil in H.
Defined.

(** X22. A "read" update for a message that is not on RCS leaves the
    message as it is (it is saved unchanged, whatever its status) and
    still advances [messages_read] of the campaign by one. On RCS it marks
    a DELIVERED message READ, and for any other status raises with the
    world as it was. *)
Theorem read_update_counts_even_on_sms
    (now : datetime) (external_id : string) (c e : option string)
    (w : DeliveryService.World) (m : Message.t) :
  StatusUpdates.get_by_external_id external_id w = (Ok (Some m), w) ->
  let counted :=
    DeliveryService.update_stats (Message.campaign_id m) "messages_read" 1
      w in
  (Message.channel m <> MessageChannel.RCS ->
   StatusUpdates.handle_delivery_status_update now external_id "read" c e w
   = (Ok tt, DeliveryService.save m counted)) /\
  (Message.channel m = MessageChannel.RCS ->
   Message.status m = MessageStatus.DELIVERED ->
   StatusUpdates.handle_delivery_status_update now external_id "read" c e w
   = (Ok tt, DeliveryService.save (snd (Message.mark_read now m)) counted)
   /\ Message.status (snd (Message.mark_read now m)) = MessageStatus.READ) /\
  (Message.channel m = MessageChannel.RCS ->
   Message.status m <> MessageStatus.DELIVERED ->
   StatusUpdates.handle_delivery_status_update now external_id "read" c e w
   = (Raise (ValueError "Cannot mark read"), w)).
Proof.
  intros Hm counted. subst counted.
  rewrite (status_update_on_message _ _ _ _ _ _ _ Hm).
  unfold DeliveryService.with_uow, StatusUpdates.apply_status, bind,
    DeliveryService.call_message, Message.mark_read.
  cbn [String.eqb Ascii.eqb Bool.eqb fst snd].
  split; [|split].
  - intros Hc. rewrite bool_decide_eq_false_2 by exact Hc.
    reflexivity.
  - intros Hc Hs. rewrite bool_decide_eq_true_2 by exact Hc.
    rewrite bool_decide_eq_true_2 by exact Hs. cbn [negb fst snd].
    split; reflexivity.
  - intros Hc Hs. rewrite bool_decide_eq_true_2 by exact Hc.
    rewrite bool_decide_eq_false_2 by exact Hs. cbn [negb fst snd].
    by rewrite rollback_same.
Qed.

Lemma read_update_counts_even_on_sms_witness :
  StatusUpdates.handle_delivery_status_update 2100 "ext-1" "read" None None
    sent_world
  = (Raise (ValueError "Cannot mark read"), sent_world).
Proof.
  assert (StatusUpdates.get_by_external_id "ext-1" sent_world
          = (Ok (Some sent_message), sent_world)) as H1
    by (vm_compute; reflexivity).
  apply (proj2 (proj2 (read_update_counts_even_on_sms 2100 "ext-1" None
                         None sent_world sent_message H1))).
  - vm_compute. reflexivity.
  - assert (Message.status sent_message = MessageStatus.SENT) as ->
      by (vm_compute; reflexivity).
    discriminate.
Defined.

Lemma should_fallback_after_network_error (now : datetime) (m : Message.t)
    (c e : option string) :
  Message.should_fallback_to_sms
    (Message.mark_failed now FailureReason.NETWORK_ERROR c e m)
  = Message.fallback_enabled m && negb (Message.fallback_triggered m)
    && negb (bool_decide (Message.channel m = MessageChannel.SMS))
    && (Message.retry_count m >=? Message.max_retries m).
Proof.
  destruct (mark_failed_fields now FailureReason.NETWORK_ERROR c e m)
    as (H1 & H2 & H3 & H4 & H5 & _ & H6).
  unfold Message.should_fallback_to_sms.
  rewrite H1, H2, H3, H4, H5, H6.
  rewrite (bool_decide_eq_false_2
             (Some FailureReason.NETWORK_ERROR
              = Some FailureReason.RCS_NOT_SUPPORTED))
    by (intros ?; discriminate).
  destruct (Message.fallback_enabled m), (Message.fallback_triggered m),
    (bool_decide _), (_ >=? _); reflexivity.
Qed.

(** ** The campaign repository *)

(** X24. What a campaign keeps when it is written to a row and read back:
    everything but its audience ids and its pending events, which come back
    empty, and the total of its statistics, which comes back as the
    recipient count. So the campaign read back is the campaign written
    exactly when it had no audience id, no pending event, and a total equal
    to its recipient count. *)
Theorem campaign_row_round_trip (c : Campaign.t) :
  CampaignRepo._to_domain (CampaignRepo._to_model c)
  = Campaign.set__events []
      (Campaign.set_audience_ids []
         (Campaign.set_stats
            (mkCampaignStats (Campaign.recipient_count c)
               (messages_sent (Campaign.stats c))
               (messages_delivered (Campaign.stats c))
               (messages_failed (Campaign.stats c))
               (messages_read (Campaign.stats c))
               (stats_fallback_triggered (Campaign.stats c))
               (opt_outs (Campaign.stats c))) c)) /\
  (CampaignRepo._to_domain (CampaignRepo._to_model c) = c <->
   Campaign.audience_ids c = [] /\ Campaign._events c = [] /\
   total_recipients (Campaign.stats c) = Campaign.recipient_count c).
Proof.
  split; [by destruct c|].
  destruct c as [? ? ? ? ? ? ? ? ? ? aud rc ? ? ? st ? ? ev].
  destruct st as [tot ? ? ? ? ? ?].
  unfold CampaignRepo._to_domain, CampaignRepo._to_model. simpl. split.
  - intros H. injection H as <- <- <-. done.
  - intros (-> & -> & ->). reflexivity.
Qed.

Lemma save_keeps_keyed (now : datetime) (c : Campaign.t)
    (rows : gmap UUID CampaignRepo.CampaignModel) :
  CampaignRepo.keyed rows -> CampaignRepo.keyed (CampaignRepo.save now c rows).
Proof.
  intros Hk k row. unfold CampaignRepo.save.
  destruct (rows !! Campaign.id c) as [existing|] eqn:Hex.
  - destruct (decide (k = Campaign.id c)) as [->|Hne].
    + rewrite lookup_insert_eq. intros [= <-]. simpl. by apply Hk.
    + rewrite lookup_insert_ne by done. apply Hk.
  - destruct (decide (k = Campaign.id c)) as [->|Hne].
    + rewrite lookup_insert_eq. by intros [= <-].
    + rewrite lookup_insert_ne by done. apply Hk.
Qed.

(** X25. [save] then [get_by_id], on rows stored under their ids. The other
    campaigns read as before. The saved one reads back with the name, the
    status, the type, the priority, the schedule, the fallback settings,
    the rate limit, the recipient count, the counters, the metadata and the
    tags it was saved with, and with no audience id and no pending event.
    When the campaign was stored already, [save] keeps the tenant, the
    template and the creation time of the row and stamps [updated_at] with
    its own clock reading; a new row takes all four from the campaign. *)
Theorem save_then_get_by_id (now : datetime) (c : Campaign.t)
    (rows : gmap UUID CampaignRepo.CampaignModel) :
  CampaignRepo.keyed rows ->
  CampaignRepo.keyed (CampaignRepo.save now c rows) /\
  (forall j, j <> Campaign.id c ->
     CampaignRepo.get_by_id j (CampaignRepo.save now c rows)
     = CampaignRepo.get_by_id j rows) /\
  exists c',
    CampaignRepo.get_by_id (Campaign.id c) (CampaignRepo.save now c rows)
    = Some c' /\
    Campaign.id c' = Campaign.id c /\
    Campaign.name c' = Campaign.name c /\
    Campaign.status c' = Campaign.status c /\
    Campaign.campaign_type c' = Campaign.campaign_type c /\
    Campaign.priority c' = Campaign.priority c /\
    Campaign.scheduled_for c' = Campaign.scheduled_for c /\
    Campaign.enable_fallback c' = Campaign.enable_fallback c /\
    Campaign.fallback_channel c' = Campaign.fallback_channel c /\
    Campaign.rate_limit c' = Campaign.rate_limit c /\
    Campaign.recipient_count c' = Campaign.recipient_count c /\
    Campaign.metadata c' = Campaign.metadata c /\
    Campaign.tags c' = Campaign.tags c /\
    Campaign.stats c'
    = mkCampaignStats (Campaign.recipient_count c)
        (messages_sent (Campaign.stats c))
        (messages_delivered (Campaign.stats c))
        (messages_failed (Campaign.stats c))
        (messages_read (Campaign.stats c))
        (stats_fallback_triggered (Campaign.stats c))
        (opt_outs (Campaign.stats c)) /\
    Campaign.audience_ids c' = [] /\ Campaign._events c' = [] /\
    match rows !! Campaign.id c with
    | Some existing =>
        Campaign.tenant_id c' = CampaignRepo.row_tenant_id existing /\
        Campaign.template_id c' = CampaignRepo.row_template_id existing /\
        Campaign.created_at c' = CampaignRepo.row_created_at existing /\
        Campaign.updated_at c' = now
    | None =>
        Campaign.tenant_id c' = Campaign.tenant_id c /\
        Campaign.template_id c' = Campaign.template_id c /\
        Campaign.created_at c' = Campaign.created_at c /\
        Campaign.updated_at c' = Campaign.updated_at c
    end.
Proof.
  intros Hk. split; [by apply save_keeps_keyed|]. split.
  - intros j Hj. unfold CampaignRepo.get_by_id, CampaignRepo.save.
    destruct (rows !! Campaign.id c); by rewrite lookup_insert_ne.
  - unfold CampaignRepo.get_by_id, CampaignRepo.save.
    destruct (rows !! Campaign.id c) as [existing|] eqn:Hex;
      rewrite lookup_insert_eq; simpl; eexists; (split; [reflexivity|]).
    + pose proof (Hk _ _ Hex) as Hid. destruct c. simpl in *.
      repeat split; done.
    + destruct c. simpl. repeat split; done.
Qed.

Lemma save_then_get_by_id_witness :
  exists c',
    CampaignRepo.get_by_id "c-1"
      (CampaignRepo.save 2000
         (Campaign.__init__ 1500 "c-1" "t-2" "Summer sale" PROMOTIONAL
            "tpl-2" CampaignStatus.DRAFT HIGH None)
         (CampaignService.campaigns campaign_world))
    = Some c' /\
    Campaign.name c' = "Summer sale" /\
    Campaign.audience_ids c' = [] /\
    Campaign.tenant_id c' = "t-1" /\ Campaign.updated_at c' = 2000.
Proof.
  assert (CampaignRepo.keyed (CampaignService.campaigns campaign_world))
    as Hk.
  { intros k row. unfold campaign_world, CampaignRepo.save. simpl.
    rewrite lookup_empty. intros H.
    apply lookup_insert_Some in H as [[<- <-]|[_ H]]; [reflexivity|].
    by rewrite lookup_empty in H. }
  destruct (save_then_get_by_id 2000
              (Campaign.__init__ 1500 "c-1" "t-2" "Summer sale" PROMOTIONAL
                 "tpl-2" CampaignStatus.DRAFT HIGH None)
              _ Hk)
    as (_ & _ & c' & Hget & _ & Hname & _ & _ & _ & _ & _ & _ & _ & _ & _
        & _ & _ & Haud & _ & Hrow).
  exists c'. split; [exact Hget|]. split; [exact Hname|].
  split; [exact Haud|].
  assert (CampaignService.campaigns campaign_world
            !! Campaign.id (Campaign.__init__ 1500 "c-1" "t-2" "Summer sale"
                              PROMOTIONAL "tpl-2" CampaignStatus.DRAFT HIGH
                              None)
          = Some (CampaignRepo._to_model sample_campaign)) as Hex
    by (vm_compute; reflexivity).
  rewrite Hex in Hrow. destruct Hrow as (Ht & _ & _ & Hu).
  split; [exact Ht|exact Hu].
Defined.

(** ** The campaign service *)

Lemma world_eta (w : CampaignService.World) :
  CampaignService.mkWorld (CampaignService.campaigns w)
    (CampaignService.events w) (CampaignService.queue_calls w) = w.
Proof. by destruct w. Qed.

(** What a block on a loaded campaign does, step by step. *)
Lemma audience_block_run (m : M Campaign.t unit) (now : datetime)
    (campaign_id : UUID) (w : CampaignService.World) :
  CampaignService.with_campaign campaign_id
    (CampaignService.call_campaign m ;;; CampaignService.save_campaign now) w
  = match CampaignService.campaigns w !! campaign_id with
    | None => (Raise (ValueError ("Campaign " ++ campaign_id ++ " not found")), w)
    | Some row =>
        match m (CampaignRepo._to_domain row) with
        | (Raise e, _) => (Raise e, w)
        | (Ok _, c1) =>
            (Ok c1,
             CampaignService.mkWorld
               (CampaignRepo.save now c1 (CampaignService.campaigns w))
               (CampaignService.events w) (CampaignService.queue_calls w))
        end
    end.
Proof.
  unfold CampaignService.with_campaign, CampaignService.with_uow,
    CampaignRepo.get_by_id.
  destruct (CampaignService.campaigns w !! campaign_id) as [row|];
    cbn [fmap option_fmap option_map]; [|by rewrite world_eta].
  unfold bind, CampaignService.call_campaign,
    CampaignService.save_campaign, modify. cbn [fst snd].
  destruct (m (CampaignRepo._to_domain row)) as [[[]|e] c1]; cbn [fst snd];
    [reflexivity|by rewrite world_eta].
Qed.

Lemma publishing_block_run (m : M Campaign.t unit) (now : datetime)
    (campaign_id : UUID) (w : CampaignService.World) :
  CampaignService.with_campaign campaign_id
    (CampaignService.call_campaign m ;;; CampaignService.save_campaign now ;;;
     CampaignService._publish_events) w
  = match CampaignService.campaigns w !! campaign_id with
    | None => (Raise (ValueError ("Campaign " ++ campaign_id ++ " not found")), w)
    | Some row =>
        match m (CampaignRepo._to_domain row) with
        | (Raise e, _) => (Raise e, w)
        | (Ok _, c1) =>
            match CampaignService.save_events (Campaign._events c1)
                    (CampaignService.events w) with
            | (Ok _, log) =>
                (Ok (Campaign.set__events [] c1),
                 CampaignService.mkWorld
                   (CampaignRepo.save now c1 (CampaignService.campaigns w))
                   log (CampaignService.queue_calls w))
            | (Raise e, _) => (Raise e, w)
            end
        end
    end.
Proof.
  unfold CampaignService.with_campaign, CampaignService.with_uow,
    CampaignRepo.get_by_id.
  destruct (CampaignService.campaigns w !! campaign_id) as [row|];
    cbn [fmap option_fmap option_map]; [|by rewrite world_eta].
  unfold bind, CampaignService.call_campaign,
    CampaignService.save_campaign, modify, CampaignService._publish_events,
    CampaignMethods.collect_events. cbn [fst snd].
  destruct (m (CampaignRepo._to_domain row)) as [[[]|e] c1]; cbn [fst snd];
    [|by rewrite world_eta].
  cbn [CampaignService.events CampaignService.campaigns
       CampaignService.queue_calls].
  destruct (CampaignService.save_events _ _) as [[[]|e] log];
    [reflexivity|]. cbn [CampaignService.queue_calls]. by rewrite world_eta.
Qed.

Lemma queueing_block_run (m : M Campaign.t unit) (now : datetime)
    (q : Campaign.t -> QueueCall)
    (campaign_id : UUID) (w : CampaignService.World) :
  CampaignService.with_campaign campaign_id
    (CampaignService.call_campaign m ;;; CampaignService.save_campaign now ;;;
     CampaignService._publish_events ;;;
     fun s => CampaignService.queue_call (q (fst s)) s) w
  = match CampaignService.campaigns w !! campaign_id with
    | None => (Raise (ValueError ("Campaign " ++ campaign_id ++ " not found")), w)
    | Some row =>
        match m (CampaignRepo._to_domain row) with
        | (Raise e, _) => (Raise e, w)
        | (Ok _, c1) =>
            match CampaignService.save_events (Campaign._events c1)
                    (CampaignService.events w) with
            | (Ok _, log) =>
                (Ok (Campaign.set__events [] c1),
                 CampaignService.mkWorld
                   (CampaignRepo.save now c1 (CampaignService.campaigns w))
                   log
                   (CampaignService.queue_calls w
                    ++ [q (Campaign.set__events [] c1)])%list)
            | (Raise e, _) => (Raise e, w)
            end
        end
    end.
Proof.
  unfold CampaignService.with_campaign, CampaignService.with_uow,
    CampaignRepo.get_by_id.
  destruct (CampaignService.campaigns w !! campaign_id) as [row|];
    cbn [fmap option_fmap option_map]; [|by rewrite world_eta].
  unfold bind, CampaignService.call_campaign,
    CampaignService.save_campaign, modify, CampaignService._publish_events,
    CampaignMethods.collect_events, CampaignService.queue_call.
  cbn [fst snd].
  destruct (m (CampaignRepo._to_domain row)) as [[[]|e] c1]; cbn [fst snd];
    [|by rewrite world_eta].
  cbn [CampaignService.events CampaignService.campaigns
       CampaignService.queue_calls].
  destruct (CampaignService.save_events _ _) as [[[]|e] log];
    [reflexivity|]. cbn [CampaignService.queue_calls]. by rewrite world_eta.
Qed.

Lemma events_of_snoc (aggregate_id_ : UUID)
    (log : list CampaignService.SavedEvent)
    (e : CampaignService.SavedEvent) :
  CampaignService.saved_aggregate_id e = aggregate_id_ ->
  CampaignService.events_of aggregate_id_ (log ++ [e])
  = (CampaignService.events_of aggregate_id_ log ++ [e])%list.
Proof.
  intros He. unfold CampaignService.events_of.
  rewrite List.filter_app. simpl. by rewrite bool_decide_eq_true_2.
Qed.

(** [save_event] returns exactly when fewer than two events of the
    aggregate are logged, and then appends one. *)
Lemma save_event_cases (type_ : string) (aggregate_id_ : UUID)
    (aggregate_type : string) (data_ : list (string * EventValue))
    (log : list CampaignService.SavedEvent) :
  ((List.length (CampaignService.events_of aggregate_id_ log) < 2)%nat /\
   exists v,
     CampaignService.save_event type_ aggregate_id_ aggregate_type data_ log
     = (Ok tt,
        (log ++ [CampaignService.mkSavedEvent type_ aggregate_id_
                   aggregate_type v data_])%list)) \/
  ((2 <= List.length (CampaignService.events_of aggregate_id_ log))%nat /\
   CampaignService.save_event type_ aggregate_id_ aggregate_type data_ log
   = (Raise (OtherException "MultipleResultsFound"), log)).
Proof.
  unfold CampaignService.save_event.
  destruct (CampaignService.events_of aggregate_id_ log) as [|e1 [|e2 l]];
    simpl.
  - left. split; [lia|]. by eexists.
  - left. split; [lia|]. by eexists.
  - right. split; [lia|reflexivity].
Qed.

(** A method of a campaign just loaded either raises or returns with no
    pending event ([add_audience]) or with one, about this campaign. *)
Lemma loaded_call_cases (op : CampaignMethods.Op)
    (row : CampaignRepo.CampaignModel) :
  (exists e c1,
     CampaignMethods.call op (CampaignRepo._to_domain row) = (Raise e, c1))
  \/
  (exists c1,
     CampaignMethods.call op (CampaignRepo._to_domain row) = (Ok tt, c1) /\
     Campaign.id c1 = CampaignRepo.row_id row /\
     match CampaignMethods.event_type_of op with
     | Some type_ =>
         exists ev,
           Campaign._events c1 = [ev] /\ event_type ev = type_ /\
           aggregate_id ev = CampaignRepo.row_id row
     | None => Campaign._events c1 = []
     end).
Proof.
  destruct op as [? ? ?|? ?|? ?|? ?|? ? ?|? ? ?|k ?]; simpl;
    try (right; eexists; split; [reflexivity|]; split; [by destruct k|];
         by destruct k);
    campaign_guards;
    try (left; by do 2 eexists);
    right; eexists; (split; [reflexivity|]); (split; [reflexivity|]);
    try reflexivity; eexists; (split; [reflexivity|]); split; reflexivity.
Qed.

(** Every call on the service, step by step: the campaign is loaded, its
    method is called, the campaign is saved, its events are published when
    the call publishes, and the job is sent to the queue last. *)
Lemma service_call_run (campaign_id : UUID) (op : CampaignService.Op)
    (w : CampaignService.World) :
  CampaignService.call campaign_id op w
  = match CampaignService.campaigns w !! campaign_id with
    | None => (Raise (ValueError ("Campaign " ++ campaign_id ++ " not found")), w)
    | Some row =>
        match CampaignMethods.call (CampaignService.method_of op)
                (CampaignRepo._to_domain row) with
        | (Raise e, _) => (Raise e, w)
        | (Ok _, c1) =>
            match (if CampaignService.publishes op
                   then CampaignService.save_events (Campaign._events c1)
                          (CampaignService.events w)
                   else (Ok tt, CampaignService.events w)) with
            | (Ok _, log) =>
                let c' := if CampaignService.publishes op
                          then Campaign.set__events [] c1 else c1 in
                (Ok c',
                 CampaignService.mkWorld
                   (CampaignRepo.save (CampaignService.clock_of op) c1
                      (CampaignService.campaigns w))
                   log
                   (CampaignService.queue_calls w
                    ++ CampaignService.queued campaign_id op c')%list)
            | (Raise e, _) => (Raise e, w)
            end
        end
    end.
Proof.
  destruct op as [now a ph|now fresh at_|now fresh|now fresh|now fresh
                 |now fresh reason];
    cbn [CampaignService.call CampaignService.method_of
         CampaignService.publishes CampaignService.clock_of
         CampaignService.queued CampaignMethods.call].
  - unfold CampaignService.add_audience. rewrite audience_block_run.
    destruct (_ !! _) as [row|]; [|reflexivity].
    destruct (Campaign.add_audience _ _ _ _) as [[[]|e] c1];
      [|reflexivity]. cbv zeta. by rewrite app_nil_r.
  - unfold CampaignService.schedule_campaign,
      CampaignService.schedule_campaign_on,
      CampaignService.recorded_schedule.
    rewrite (queueing_block_run _ _
               (fun c => Schedule
                           (CampaignService.orchestration_job campaign_id c)
                           (reading at_))).
    reflexivity.
  - unfold CampaignService.activate_campaign.
    rewrite (queueing_block_run _ _
               (fun c => Enqueue
                           (CampaignService.orchestration_job campaign_id
                              c))).
    reflexivity.
  - unfold CampaignService.pause_campaign. rewrite publishing_block_run.
    destruct (_ !! _) as [row|]; [|reflexivity].
    destruct (Campaign.pause _ _ _) as [[[]|e] c1]; [|reflexivity].
    destruct (CampaignService.save_events _ _) as [[[]|e] log];
      [|reflexivity]. cbv zeta. by rewrite app_nil_r.
  - unfold CampaignService.resume_campaign. rewrite publishing_block_run.
    destruct (_ !! _) as [row|]; [|reflexivity].
    destruct (Campaign.resume _ _ _) as [[[]|e] c1]; [|reflexivity].
    destruct (CampaignService.save_events _ _) as [[[]|e] log];
      [|reflexivity]. cbv zeta. by rewrite app_nil_r.
  - unfold CampaignService.cancel_campaign. rewrite publishing_block_run.
    destruct (_ !! _) as [row|]; [|reflexivity].
    destruct (Campaign.cancel _ _ _ _) as [[[]|e] c1]; [|reflexivity].
    destruct (CampaignService.save_events _ _) as [[[]|e] log];
      [|reflexivity]. cbv zeta. by rewrite app_nil_r.
Qed.

Lemma save_events_one (ev : DomainEvent)
    (log : list CampaignService.SavedEvent) :
  ((List.length (CampaignService.events_of (aggregate_id ev) log) < 2)%nat /\
   exists v,
     CampaignService.save_events [ev] log
     = (Ok tt,
        (log ++ [CampaignService.mkSavedEvent (event_type ev)
                   (aggregate_id ev) "campaign" v (data ev)])%list)) \/
  ((2 <= List.length
           (CampaignService.events_of (aggregate_id ev) log))%nat /\
   CampaignService.save_events [ev] log
   = (Raise (OtherException "MultipleResultsFound"), log)).
Proof.
  unfold CampaignService.save_events, bind, ret.
  destruct (save_event_cases (event_type ev) (aggregate_id ev) "campaign"
              (data ev) log) as [[Hlt [v ->]]|[Hge ->]].
  - left. split; [exact Hlt|]. by exists v.
  - right. by split.
Qed.

Lemma publishing_has_event_type (op : CampaignService.Op) :
  CampaignService.publishes op = true ->
  exists type_,
    CampaignMethods.event_type_of (CampaignService.method_of op)
    = Some type_.
Proof. destruct op; simpl; intros H; try discriminate; by eexists. Qed.

(** A call on the service either raises, and the world is as before, or
    returns; the rows stay under their ids; a publishing call returns only
    when fewer than two events of the campaign are logged, and logs one
    more; [add_audience] leaves the log alone. *)
Lemma service_call_cases (campaign_id : UUID) (op : CampaignService.Op)
    (w : CampaignService.World) :
  CampaignRepo.keyed (CampaignService.campaigns w) ->
  (exists e, CampaignService.call campaign_id op w = (Raise e, w)) \/
  (exists c' w',
     CampaignService.call campaign_id op w = (Ok c', w') /\
     CampaignRepo.keyed (CampaignService.campaigns w') /\
     if CampaignService.publishes op then
       (List.length (CampaignService.events_of campaign_id
                       (CampaignService.events w)) < 2)%nat /\
       List.length (CampaignService.events_of campaign_id
                      (CampaignService.events w'))
       = S (List.length (CampaignService.events_of campaign_id
                           (CampaignService.events w)))
     else CampaignService.events w' = CampaignService.events w).
Proof.
  intros Hk. rewrite service_call_run.
  destruct (CampaignService.campaigns w !! campaign_id) as [row|] eqn:Hrow;
    [|left; by eexists].
  pose proof (Hk _ _ Hrow) as Hid.
  destruct (loaded_call_cases (CampaignService.method_of op) row)
    as [(e & c1 & ->)|(c1 & -> & _ & Hev)]; [left; by eexists|].
  destruct (CampaignService.publishes op) eqn:Hp.
  - destruct (publishing_has_event_type op Hp) as [type_ Hty].
    rewrite Hty in Hev. destruct Hev as (ev & -> & _ & Hagg).
    rewrite Hid in Hagg.
    destruct (save_events_one ev (CampaignService.events w))
      as [[Hlt [v ->]]|[Hge ->]]; [|left; by eexists].
    right. do 2 eexists. split; [reflexivity|].
    cbn [CampaignService.campaigns CampaignService.events].
    split; [by apply save_keeps_keyed|].
    rewrite Hagg in Hlt. split; [exact Hlt|].
    rewrite events_of_snoc by exact Hagg.
    rewrite length_app. simpl. lia.
  - right. do 2 eexists. split; [reflexivity|].
    cbn [CampaignService.campaigns CampaignService.events].
    split; [by apply save_keeps_keyed|reflexivity].
Qed.

(** X27. A call on the campaign service that raises leaves everything as
    it was: the rows, the event log and the queue. Whatever the call sends
    to the queue it sends last, after the events are published, so no job
    is queued for a transition that was rolled back. *)
Theorem failed_service_call_changes_nothing
    (campaign_id : UUID) (op : CampaignService.Op)
    (w : CampaignService.World) (e : Exception) :
  fst (CampaignService.call campaign_id op w) = Raise e ->
  snd (CampaignService.call campaign_id op w) = w.
Proof.
  rewrite service_call_run.
  destruct (CampaignService.campaigns w !! campaign_id) as [row|];
    [|reflexivity].
  destruct (CampaignMethods.call _ _) as [[[]|e1] c1]; [|reflexivity].
  destruct (if CampaignService.publishes op then _ else _)
    as [[[]|e2] log]; [discriminate|reflexivity].
Qed.

Lemma failed_service_call_changes_nothing_witness :
  snd (CampaignService.call "c-1" (CampaignService.ActivateCampaign 1002 "e-0")
         campaign_world)
  = campaign_world.
Proof.
  apply (failed_service_call_changes_nothing "c-1"
           (CampaignService.ActivateCampaign 1002 "e-0") campaign_world
           (ValueError "Campaign must have at least one recipient")).
  vm_compute. reflexivity.
Defined.

(** X29. At most two published transitions per campaign. Reading the last
    event of an aggregate fails once two are logged, so whatever calls are
    made on a campaign, in whatever order, the number of publishing calls
    ([schedule_campaign], [activate_campaign], [pause_campaign],
    [resume_campaign], [cancel_campaign]) that return is at most two less
    the number of its events already in the log; with two or more in the
    log, none returns. *)
Theorem at_most_two_published_transitions
    (campaign_id : UUID) (ops : list CampaignService.Op)
    (w : CampaignService.World) :
  CampaignRepo.keyed (CampaignService.campaigns w) ->
  (fst (CampaignService.returned campaign_id ops w)
   <= 2 - List.length (CampaignService.events_of campaign_id
                         (CampaignService.events w)))%nat.
Proof.
  revert w. induction ops as [|op rest IH]; intros w Hk; simpl; [lia|].
  destruct (service_call_cases campaign_id op w Hk)
    as [[e ->]|(c' & w' & -> & Hk' & Hev)].
  - specialize (IH w Hk).
    destruct (CampaignService.returned campaign_id rest w) as [n w''].
    exact IH.
  - specialize (IH w' Hk').
    destruct (CampaignService.returned campaign_id rest w') as [n w''].
    simpl in *. destruct (CampaignService.publishes op).
    + destruct Hev as [Hlt Hlen]. rewrite Hlen in IH. lia.
    + rewrite Hev in IH. exact IH.
Qed.

Lemma keyed_one_row (now : datetime) (c : Campaign.t) :
  CampaignRepo.keyed (CampaignRepo.save now c ∅).
Proof.
  apply save_keeps_keyed. intros k row H. by rewrite lookup_empty in H.
Qed.

Lemma at_most_two_published_transitions_witness :
  (fst (CampaignService.returned "c-1"
          [CampaignService.ActivateCampaign 1002%Z "e-0";
           CampaignService.PauseCampaign 1003%Z "e-1";
           CampaignService.ResumeCampaign 1004%Z "e-2"] audience_world)
   <= 2 - List.length (CampaignService.events_of "c-1"
                         (CampaignService.events audience_world)))%nat.
Proof.
  apply (at_most_two_published_transitions "c-1"
           [CampaignService.ActivateCampaign 1002 "e-0";
            CampaignService.PauseCampaign 1003 "e-1";
            CampaignService.ResumeCampaign 1004 "e-2"] audience_world).
  apply keyed_one_row.
Defined.

(** [add_audience] of the service on a stored DRAFT campaign: it returns,
    whatever the audience, and the row has that many recipients more. *)
Lemma service_add_audience_run (now : datetime)
    (campaign_id audience_id : UUID) (recipient_phones : list string)
    (w : CampaignService.World) (row : CampaignRepo.CampaignModel) :
  CampaignRepo.keyed (CampaignService.campaigns w) ->
  CampaignService.campaigns w !! campaign_id = Some row ->
  CampaignRepo.row_status row = CampaignStatus.DRAFT ->
  exists c' row',
    CampaignService.add_audience now campaign_id audience_id
      recipient_phones w
    = (Ok c',
       CampaignService.mkWorld
         (<[campaign_id := row']> (CampaignService.campaigns w))
         (CampaignService.events w) (CampaignService.queue_calls w)) /\
    CampaignRepo.row_id row' = campaign_id /\
    CampaignRepo.row_status row' = CampaignStatus.DRAFT /\
    CampaignRepo.row_recipient_count row'
    = CampaignRepo.row_recipient_count row
      + Z.of_nat (List.length recipient_phones) /\
    Campaign.recipient_count c'
    = CampaignRepo.row_recipient_count row
      + Z.of_nat (List.length recipient_phones) /\
    Campaign.audience_ids c' = [audience_id].
Proof.
  intros Hk Hrow Hst. pose proof (Hk _ _ Hrow) as Hid.
  unfold CampaignService.add_audience. rewrite audience_block_run, Hrow.
  unfold Campaign.add_audience.
  assert (Campaign.status (CampaignRepo._to_domain row)
          = CampaignStatus.DRAFT) as -> by exact Hst.
  assert (Campaign.audience_ids (CampaignRepo._to_domain row) = []) as ->
    by reflexivity.
  rewrite (bool_decide_eq_true_2
             (CampaignStatus.DRAFT ∈ [CampaignStatus.DRAFT]))
    by (apply elem_of_cons; by left).
  rewrite (bool_decide_eq_false_2 (audience_id ∈ []))
    by (intros H; by apply elem_of_nil in H).
  cbn [negb]. unfold CampaignRepo.save.
  cbn [Campaign.id Campaign.set_updated_at Campaign.set_stats
       Campaign.set_recipient_count Campaign.set_audience_ids
       CampaignRepo._to_domain].
  rewrite Hid, Hrow. do 2 eexists. split; [reflexivity|].
  cbn. rewrite Hst. repeat split; done.
Qed.

(** X26. The service counts an audience again. [Campaign.add_audience]
    skips an audience id the campaign has already, but the ids are not
    stored with the row, so a campaign is loaded without them: two calls
    of the service's [add_audience] with the same audience on a stored
    DRAFT campaign both return, and the recipient count, in the campaign
    returned and in the row, has grown by twice the size of the
    audience. *)
Theorem service_add_audience_counts_again
    (now1 now2 : datetime) (campaign_id audience_id : UUID)
    (recipient_phones : list string)
    (w : CampaignService.World) (row : CampaignRepo.CampaignModel) :
  CampaignRepo.keyed (CampaignService.campaigns w) ->
  CampaignService.campaigns w !! campaign_id = Some row ->
  CampaignRepo.row_status row = CampaignStatus.DRAFT ->
  let n := Z.of_nat (List.length recipient_phones) in
  let r1 := CampaignService.add_audience now1 campaign_id audience_id
              recipient_phones w in
  let r2 := CampaignService.add_audience now2 campaign_id audience_id
              recipient_phones (snd r1) in
  (exists c1,
     fst r1 = Ok c1 /\
     Campaign.recipient_count c1 = CampaignRepo.row_recipient_count row + n /\
     Campaign.audience_ids c1 = [audience_id]) /\
  (exists c2,
     fst r2 = Ok c2 /\
     Campaign.recipient_count c2
     = CampaignRepo.row_recipient_count row + 2 * n /\
     Campaign.audience_ids c2 = [audience_id]) /\
  CampaignRepo.row_recipient_count
    <$> CampaignService.campaigns (snd r2) !! campaign_id
  = Some (CampaignRepo.row_recipient_count row + 2 * n).
Proof.
  intros Hk Hrow Hst n r1 r2.
  destruct (service_add_audience_run now1 campaign_id audience_id
              recipient_phones w row Hk Hrow Hst)
    as (c1 & row1 & H1 & Hid1 & Hst1 & Hrc1 & Hc1 & Ha1).
  subst r2 r1. rewrite H1. cbn [fst snd].
  split; [exists c1; by repeat split|].
  match goal with
  | |- context [CampaignService.add_audience now2 _ _ _ ?w1] =>
      destruct (service_add_audience_run now2 campaign_id audience_id
                  recipient_phones w1 row1)
        as (c2 & row2 & H2 & Hid2 & Hst2 & Hrc2 & Hc2 & Ha2)
  end.
  - cbn [CampaignService.campaigns]. intros k r Hr.
    apply lookup_insert_Some in Hr as [[<- <-]|[_ Hr]];
      [exact Hid1|by apply Hk].
  - cbn [CampaignService.campaigns]. by rewrite lookup_insert_eq.
  - exact Hst1.
  - rewrite H2. cbn [fst snd CampaignService.campaigns]. split.
    + exists c2. split; [reflexivity|]. split; [|exact Ha2].
      rewrite Hc2, Hrc1. subst n. lia.
    + rewrite lookup_insert_eq. cbn. f_equal. rewrite Hrc2, Hrc1.
      subst n. lia.
Qed.

Lemma service_add_audience_counts_again_witness :
  CampaignRepo.row_recipient_count
    <$> CampaignService.campaigns
          (snd (CampaignService.add_audience 1006 "c-1" "a-1"
                  ["+919876543210"; "+919876543211"]
                  (snd (CampaignService.add_audience 1005 "c-1" "a-1"
                          ["+919876543210"; "+919876543211"]
                          campaign_world))))
        !! "c-1"
  = Some 4.
Proof.
  apply (service_add_audience_counts_again 1005 1006 "c-1" "a-1"
           ["+919876543210"; "+919876543211"] campaign_world
           (CampaignRepo._to_model sample_campaign)).
  - apply keyed_one_row.
  - vm_compute. reflexivity.
  - reflexivity.
Defined.

(** A publishing call that returns: what it found, and what it left. *)
Lemma publishing_call_ok (campaign_id : UUID) (op : CampaignService.Op)
    (w : CampaignService.World) (c' : Campaign.t) :
  CampaignRepo.keyed (CampaignService.campaigns w) ->
  CampaignService.publishes op = true ->
  fst (CampaignService.call campaign_id op w) = Ok c' ->
  exists row c1 ev v,
    CampaignService.campaigns w !! campaign_id = Some row /\
    CampaignMethods.call (CampaignService.method_of op)
      (CampaignRepo._to_domain row) = (Ok tt, c1) /\
    Campaign.id c1 = campaign_id /\
    Campaign._events c1 = [ev] /\
    (List.length (CampaignService.events_of campaign_id
                    (CampaignService.events w)) < 2)%nat /\
    c' = Campaign.set__events [] c1 /\
    snd (CampaignService.call campaign_id op w)
    = CampaignService.mkWorld
        (CampaignRepo.save (CampaignService.clock_of op) c1
           (CampaignService.campaigns w))
        (CampaignService.events w
         ++ [CampaignService.mkSavedEvent (event_type ev) campaign_id
               "campaign" v (data ev)])%list
        (CampaignService.queue_calls w
         ++ CampaignService.queued campaign_id op c')%list.
Proof.
  intros Hk Hp. rewrite service_call_run.
  destruct (CampaignService.campaigns w !! campaign_id) as [row|] eqn:Hrow;
    [|discriminate].
  pose proof (Hk _ _ Hrow) as Hid.
  destruct (loaded_call_cases (CampaignService.method_of op) row)
    as [(e & c1 & ->)|(c1 & Hc & Hid1 & Hev)]; [discriminate|].
  rewrite Hc, Hp.
  destruct (publishing_has_event_type op Hp) as [type_ Hty].
  rewrite Hty in Hev. destruct Hev as (ev & Hevs & _ & Hagg).
  rewrite Hevs. rewrite Hid in Hagg, Hid1.
  destruct (save_events_one ev (CampaignService.events w))
    as [[Hlt [v ->]]|[Hge ->]]; [|discriminate].
  cbv zeta. cbn [fst snd]. intros [= <-].
  exists row, c1, ev, v. rewrite Hagg in Hlt |- *. by repeat split.
Qed.

Lemma publishing_call_returns (campaign_id : UUID) (op : CampaignService.Op)
    (w : CampaignService.World) (row : CampaignRepo.CampaignModel) :
  CampaignRepo.keyed (CampaignService.campaigns w) ->
  CampaignService.publishes op = true ->
  CampaignService.campaigns w !! campaign_id = Some row ->
  fst (CampaignMethods.call (CampaignService.method_of op)
         (CampaignRepo._to_domain row)) = Ok tt ->
  (List.length (CampaignService.events_of campaign_id
                  (CampaignService.events w)) < 2)%nat ->
  exists c', fst (CampaignService.call campaign_id op w) = Ok c'.
Proof.
  intros Hk Hp Hrow Hok Hlt. rewrite service_call_run, Hrow.
  pose proof (Hk _ _ Hrow) as Hid.
  destruct (loaded_call_cases (CampaignService.method_of op) row)
    as [(e & c1 & Hc)|(c1 & Hc & _ & Hev)]; rewrite Hc in Hok |- *;
    [discriminate|].
  rewrite Hp.
  destruct (publishing_has_event_type op Hp) as [type_ Hty].
  rewrite Hty in Hev. destruct Hev as (ev & -> & _ & Hagg).
  rewrite Hid in Hagg.
  destruct (save_events_one ev (CampaignService.events w))
    as [[_ [v ->]]|[Hge _]]; [by eexists|].
  rewrite Hagg in Hge. lia.
Qed.

(** The row of a campaign just saved. *)
Lemma saved_row (now : datetime) (c : Campaign.t)
    (rows : gmap UUID CampaignRepo.CampaignModel) :
  exists row,
    CampaignRepo.save now c rows !! Campaign.id c = Some row /\
    CampaignRepo.row_status row = Campaign.status c /\
    CampaignRepo.row_scheduled_for row = Campaign.scheduled_for c /\
    CampaignRepo.row_recipient_count row = Campaign.recipient_count c.
Proof.
  unfold CampaignRepo.save.
  destruct (rows !! Campaign.id c); rewrite lookup_insert_eq;
    eexists; (split; [reflexivity|]); by repeat split.
Qed.

Lemma activate_loaded (now : datetime) (fresh : UUID)
    (row : CampaignRepo.CampaignModel) (c1 : Campaign.t) :
  Campaign.activate now fresh (CampaignRepo._to_domain row) = (Ok tt, c1) ->
  Campaign.status c1 = CampaignStatus.ACTIVE /\
  Campaign._events c1
  = [mkDomainEvent fresh "campaign.activated" now (CampaignRepo.row_id row)
       [("recipient_count", VInt (CampaignRepo.row_recipient_count row))]].
Proof.
  unfold Campaign.activate.
  destruct (negb _); [discriminate|].
  destruct (_ =? _); [discriminate|].
  intros [= <-]. by split.
Qed.

Lemma schedule_loaded (now : datetime) (fresh : UUID) (at_ : PyDatetime)
    (row : CampaignRepo.CampaignModel) (c1 : Campaign.t) :
  Campaign.schedule now fresh at_ (CampaignRepo._to_domain row)
  = (Ok tt, c1) ->
  aware at_ = true /\
  now < reading at_ /\
  CampaignRepo.row_status row = CampaignStatus.DRAFT /\
  Campaign.status c1 = CampaignStatus.SCHEDULED /\
  Campaign.scheduled_for c1 = Some (reading at_) /\
  Campaign._events c1
  = [mkDomainEvent fresh "campaign.scheduled" now (CampaignRepo.row_id row)
       [("scheduled_for", VTime (reading at_))]].
Proof.
  unfold Campaign.schedule, Campaign._ensure_status, bind.
  case_bool_decide as Hs; cbn [negb]; [|discriminate].
  destruct (aware at_) eqn:Ha; cbn [negb]; [|discriminate].
  destruct (reading at_ <=? now) eqn:Hle; [discriminate|].
  apply Z.leb_gt in Hle. intros [= <-]. by repeat split.
Qed.

(** X28. [activate_campaign] returns exactly when the campaign is stored,
    DRAFT or SCHEDULED, with a recipient count other than zero, and with
    fewer than two of its events in the log. When it returns, the campaign
    returned and the row are ACTIVE, one "campaign.activated" event with
    the recipient count is logged, and one job is put on the queue, the
    campaign's job on "campaign.orchestrator". *)
Theorem activate_campaign_outcome (now : datetime) (fresh : UUID)
    (campaign_id : UUID) (w : CampaignService.World) :
  CampaignRepo.keyed (CampaignService.campaigns w) ->
  let r := CampaignService.activate_campaign now fresh campaign_id w in
  ((exists c', fst r = Ok c') <->
   exists row,
     CampaignService.campaigns w !! campaign_id = Some row /\
     (CampaignRepo.row_status row = CampaignStatus.DRAFT \/
      CampaignRepo.row_status row = CampaignStatus.SCHEDULED) /\
     CampaignRepo.row_recipient_count row <> 0 /\
     (List.length (CampaignService.events_of campaign_id
                     (CampaignService.events w)) < 2)%nat) /\
  (forall c',
     fst r = Ok c' ->
     Campaign.status c' = CampaignStatus.ACTIVE /\
     CampaignRepo.row_status
       <$> CampaignService.campaigns (snd r) !! campaign_id
     = Some CampaignStatus.ACTIVE /\
     CampaignService.queue_calls (snd r)
     = (CampaignService.queue_calls w
        ++ [Enqueue (CampaignService.orchestration_job campaign_id c')])%list
     /\
     queue_name (CampaignService.orchestration_job campaign_id c')
     = "campaign.orchestrator" /\
     exists v count,
       CampaignService.events (snd r)
       = (CampaignService.events w
          ++ [CampaignService.mkSavedEvent "campaign.activated" campaign_id
                "campaign" v [("recipient_count", VInt count)]])%list /\
       count <> 0).
Proof.
  intros Hk r. subst r.
  change (CampaignService.activate_campaign now fresh campaign_id)
    with (CampaignService.call campaign_id
            (CampaignService.ActivateCampaign now fresh)).
  set (op := CampaignService.ActivateCampaign now fresh).
  split; [split|].
  - intros [c' Hok].
    destruct (publishing_call_ok campaign_id op w c' Hk eq_refl Hok)
      as (row & c1 & ev & v & Hrow & Hc & _ & _ & Hlt & _).
    exists row. split; [exact Hrow|].
    assert (fst (Campaign.activate now fresh (CampaignRepo._to_domain row))
            = Ok tt) as Hact by (simpl in Hc; by rewrite Hc).
    apply activate_returns_iff in Hact as [Hs Hrc]. by repeat split.
  - intros (row & Hrow & Hs & Hrc & Hlt).
    apply (publishing_call_returns campaign_id op w row Hk eq_refl Hrow);
      [|exact Hlt].
    apply activate_returns_iff. by split.
  - intros c' Hok.
    destruct (publishing_call_ok campaign_id op w c' Hk eq_refl Hok)
      as (row & c1 & ev & v & Hrow & Hc & Hid & Hev & Hlt & -> & ->).
    cbn [CampaignService.method_of CampaignMethods.call op] in Hc.
    assert (fst (Campaign.activate now fresh (CampaignRepo._to_domain row))
            = Ok tt) as Hact by (by rewrite Hc).
    apply activate_returns_iff in Hact as [_ Hrc].
    destruct (activate_loaded now fresh row c1 Hc) as [Hst Hevs].
    rewrite Hevs in Hev. injection Hev as <-.
    cbn [CampaignService.campaigns CampaignService.queue_calls
         CampaignService.events CampaignService.queued
         CampaignService.clock_of op event_type data].
    split; [exact Hst|]. split.
    { destruct (saved_row now c1 (CampaignService.campaigns w))
        as (row' & Hrow' & Hst' & _).
      rewrite Hid in Hrow'. rewrite Hrow'. simpl. by rewrite Hst', Hst. }
    split; [reflexivity|]. split; [reflexivity|].
    exists v, (CampaignRepo.row_recipient_count row). by split.
Qed.

Lemma activate_campaign_outcome_witness :
  exists c',
    fst (CampaignService.activate_campaign 1002 "e-0" "c-1" audience_world)
    = Ok c'.
Proof.
  apply (proj1 (activate_campaign_outcome 1002 "e-0" "c-1" audience_world
                  (keyed_one_row 1001 sample_campaign_with_audience))).
  exists (CampaignRepo._to_model sample_campaign_with_audience).
  split; [vm_compute; reflexivity|]. split; [by left|].
  split; [vm_compute; discriminate|]. simpl. lia.
Defined.

(** [schedule_campaign] with the RabbitMQ adapter as its queue, step by
    step. *)
Lemma rabbitmq_block_run (served now : datetime) (fresh : UUID)
    (campaign_id : UUID) (at_ : PyDatetime) (w : CampaignService.World) :
  CampaignService.schedule_campaign_on
    (CampaignService.rabbitmq_schedule_call served) now fresh campaign_id
    at_ w
  = match CampaignService.campaigns w !! campaign_id with
    | None =>
        (Raise (ValueError ("Campaign " ++ campaign_id ++ " not found")), w)
    | Some row =>
        match Campaign.schedule now fresh at_
                (CampaignRepo._to_domain row) with
        | (Raise e, _) => (Raise e, w)
        | (Ok _, c1) =>
            match CampaignService.save_events (Campaign._events c1)
                    (CampaignService.events w) with
            | (Ok _, log) =>
                match RabbitMQAdapter.schedule served
                        (CampaignService.orchestration_job campaign_id
                           (Campaign.set__events [] c1)) at_ with
                | Ok job =>
                    (Ok (Campaign.set__events [] c1),
                     CampaignService.mkWorld
                       (CampaignRepo.save now c1
                          (CampaignService.campaigns w))
                       log
                       (CampaignService.queue_calls w ++ [Enqueue job])%list)
                | Raise e => (Raise e, w)
                end
            | (Raise e, _) => (Raise e, w)
            end
        end
    end.
Proof.
  unfold CampaignService.schedule_campaign_on,
    CampaignService.with_campaign, CampaignService.with_uow,
    CampaignRepo.get_by_id.
  destruct (CampaignService.campaigns w !! campaign_id) as [row|];
    cbn [fmap option_fmap option_map]; [|by rewrite world_eta].
  unfold CampaignService.rabbitmq_schedule_call, bind,
    CampaignService.call_campaign, CampaignService.save_campaign,
    CampaignService._publish_events, CampaignMethods.collect_events,
    CampaignService.queue_call, modify, lift.
  cbn [fst snd].
  destruct (Campaign.schedule now fresh at_ (CampaignRepo._to_domain row))
    as [[[]|e] c1]; cbn [fst snd]; [|by rewrite world_eta].
  cbn [CampaignService.events CampaignService.campaigns
       CampaignService.queue_calls].
  destruct (CampaignService.save_events _ _) as [[[]|e] log];
    [|cbn [CampaignService.queue_calls]; by rewrite world_eta].
  cbn [fst snd].
  destruct (RabbitMQAdapter.schedule _ _ _) as [job|e];
    unfold ret, raise; cbn [fst snd]; [reflexivity|].
  cbn [CampaignService.queue_calls]. by rewrite world_eta.
Qed.

(** X30. [schedule_campaign] and the queue. With a queue that takes the
    call, [schedule_campaign] returns only for an aware time later than the
    clock reading of the call; the campaign returned and the row are then
    SCHEDULED for that time, one "campaign.scheduled" event is logged, and
    the one call made on the queue is [schedule] of the campaign's job,
    which carries no delay, for that time. [RabbitMQAdapter.schedule]
    compares the time with the naive [datetime.utcnow()] and so answers
    that very call with TypeError. With the RabbitMQ adapter as its queue,
    [schedule_campaign] therefore returns for no input: it raises, and the
    rows, the event log and the queue are as they were. *)
Theorem schedule_campaign_fails_on_rabbitmq (served now : datetime)
    (fresh : UUID) (campaign_id : UUID) (scheduled_for : PyDatetime)
    (w : CampaignService.World) :
  CampaignRepo.keyed (CampaignService.campaigns w) ->
  (exists e,
     CampaignService.schedule_campaign_on
       (CampaignService.rabbitmq_schedule_call served) now fresh
       campaign_id scheduled_for w
     = (Raise e, w)) /\
  forall c',
    let r := CampaignService.schedule_campaign now fresh campaign_id
               scheduled_for w in
    fst r = Ok c' ->
    let job := CampaignService.orchestration_job campaign_id c' in
    aware scheduled_for = true /\
    now < reading scheduled_for /\
    Campaign.status c' = CampaignStatus.SCHEDULED /\
    Campaign.scheduled_for c' = Some (reading scheduled_for) /\
    (exists row,
       CampaignService.campaigns (snd r) !! campaign_id = Some row /\
       CampaignRepo.row_status row = CampaignStatus.SCHEDULED /\
       CampaignRepo.row_scheduled_for row
       = Some (reading scheduled_for)) /\
    (exists v,
       CampaignService.events (snd r)
       = (CampaignService.events w
          ++ [CampaignService.mkSavedEvent "campaign.scheduled" campaign_id
                "campaign" v
                [("scheduled_for", VTime (reading scheduled_for))]])%list)
    /\
    CampaignService.queue_calls (snd r)
    = (CampaignService.queue_calls w
       ++ [Schedule job (reading scheduled_for)])%list /\
    delay job = None /\
    RabbitMQAdapter.schedule served job scheduled_for
    = Raise naive_aware_error /\
    CampaignService.schedule_campaign_on
      (CampaignService.rabbitmq_schedule_call served) now fresh
      campaign_id scheduled_for w
    = (Raise naive_aware_error, w).
Proof.
  intros Hk. split.
  - rewrite rabbitmq_block_run.
    destruct (CampaignService.campaigns w !! campaign_id) as [row|];
      [|by eexists].
    destruct (Campaign.schedule now fresh scheduled_for
                (CampaignRepo._to_domain row)) as [[[]|e] c1] eqn:Hc;
      [|by eexists].
    destruct (CampaignService.save_events _ _) as [[[]|e] log];
      [|by eexists].
    destruct (schedule_loaded now fresh scheduled_for row c1 Hc)
      as (Ha & _).
    unfold RabbitMQAdapter.schedule. rewrite Ha. by eexists.
  - intros c' r. subst r.
    change (CampaignService.schedule_campaign now fresh campaign_id
              scheduled_for)
      with (CampaignService.call campaign_id
              (CampaignService.ScheduleCampaign now fresh scheduled_for)).
    set (op := CampaignService.ScheduleCampaign now fresh scheduled_for).
    intros Hok job.
    destruct (publishing_call_ok campaign_id op w c' Hk eq_refl Hok)
      as (row & c1 & ev & v & Hrow & Hc & Hid & Hev & Hlt & Hc' & Hw).
    cbn [CampaignService.method_of CampaignMethods.call op] in Hc.
    destruct (schedule_loaded now fresh scheduled_for row c1 Hc)
      as (Ha & Hnow & _ & Hst & Hsf & Hevs).
    assert (RabbitMQAdapter.schedule served job scheduled_for
            = Raise naive_aware_error) as Hadapter
      by (unfold RabbitMQAdapter.schedule; by rewrite Ha).
    rewrite Hw. rewrite Hevs in Hev. injection Hev as <-.
    cbn [CampaignService.campaigns CampaignService.queue_calls
         CampaignService.events CampaignService.queued
         CampaignService.clock_of op event_type data].
    split; [exact Ha|]. split; [exact Hnow|].
    split; [by rewrite Hc'|]. split; [by rewrite Hc'|]. split.
    { destruct (saved_row now c1 (CampaignService.campaigns w))
        as (row' & Hrow' & Hst' & Hsf' & _).
      rewrite Hid in Hrow'. exists row'. split; [exact Hrow'|].
      by rewrite Hst', Hsf', Hst, Hsf. }
    split; [by exists v|]. split; [reflexivity|]. split; [reflexivity|].
    split; [exact Hadapter|].
    rewrite rabbitmq_block_run, Hrow, Hc, Hevs.
    destruct (save_events_one
                (mkDomainEvent fresh "campaign.scheduled" now
                   (CampaignRepo.row_id row)
                   [("scheduled_for", VTime (reading scheduled_for))])
                (CampaignService.events w))
      as [[_ [v' ->]]|[Hge _]].
    + subst job. rewrite Hc' in Hadapter. by rewrite Hadapter.
    + cbn [aggregate_id] in Hge. rewrite (Hk _ _ Hrow) in Hge. lia.
Qed.

Lemma schedule_campaign_fails_on_rabbitmq_witness :
  CampaignService.schedule_campaign_on
    (CampaignService.rabbitmq_schedule_call 1002) 1002 "e-0" "c-1"
    (mkPyDatetime 5000 true) campaign_world
  = (Raise naive_aware_error, campaign_world).
Proof.
  destruct (fst (CampaignService.schedule_campaign 1002 "e-0" "c-1"
                   (mkPyDatetime 5000 true) campaign_world))
    as [c'|e] eqn:Hok; [|vm_compute in Hok; discriminate].
  exact (proj2 (proj2 (proj2 (proj2 (proj2 (proj2 (proj2 (proj2 (proj2
           (proj2 (schedule_campaign_fails_on_rabbitmq 1002 1002 "e-0"
                     "c-1" (mkPyDatetime 5000 true) campaign_world
                     (keyed_one_row 1000 sample_campaign)) c'
              Hok)))))))))).
Defined.

(** ** The delivery service on stored rows *)

Lemma stored_world_eta (w : StoredDelivery.World) :
  StoredDelivery.mkWorld (StoredDelivery.rows w)
    (StoredDelivery.stats_updates w) (StoredDelivery.queue_calls w) = w.
Proof. by destruct w. Qed.

(** The text of a loaded content is made only when the content is plain. *)
Lemma to_sms_text_loaded (content_data : MessageRepo.ContentData) :
  StoredDelivery.to_sms_text (MessageRepo.loaded_content content_data)
  = if MessageRepo.plain content_data
    then Ok (MessageRepo.cd_text content_data)
    else Raise attribute_error.
Proof. by destruct content_data as [t [c|] [|s l]]. Qed.

Lemma to_sms_text_raises (content : MessageContent.t) (e : Exception) :
  StoredDelivery.to_sms_text content = Raise e -> e = attribute_error.
Proof.
  unfold StoredDelivery.to_sms_text.
  destruct (MessageContent.rich_card content); [by intros [= <-]|].
  destruct (MessageContent.suggestions content); [discriminate|].
  by intros [= <-].
Qed.

Lemma switched_fields (now : datetime) (m : Message.t) :
  let m' := StoredDelivery.switched_to_sms now m in
  Message.channel m' = MessageChannel.SMS /\
  Message.status m' = MessageStatus.PENDING /\
  Message.fallback_triggered m' = true /\
  Message.retry_count m' = 0 /\
  Message.max_retries m' = Message.max_retries m /\
  Message.fallback_enabled m' = Message.fallback_enabled m /\
  Message.failure_reason m' = Message.failure_reason m /\
  Message.expires_at m' = Message.expires_at m /\
  Message.content m' = Message.content m /\
  Message.id m' = Message.id m /\
  Message.priority m' = Message.priority m /\
  Message.metadata m'
  = <["original_channel" := "rcs"]> (Message.metadata m).
Proof. repeat split. Qed.

Lemma stored_trigger_fallback_run (now : datetime) (m : Message.t) :
  Message.should_fallback_to_sms m = true ->
  StoredDelivery.trigger_fallback now m
  = match StoredDelivery.to_sms_text (Message.content m) with
    | Ok sms_text =>
        (Ok tt,
         Message.set_metadata
           (<["sms_text" := sms_text]>
              (<["original_channel" := "rcs"]> (Message.metadata m)))
           (StoredDelivery.switched_to_sms now m))
    | Raise e => (Raise e, StoredDelivery.switched_to_sms now m)
    end.
Proof.
  intros H. unfold StoredDelivery.trigger_fallback. rewrite H.
  cbn [negb]. cbv zeta.
  destruct (switched_fields now m)
    as (_ & _ & _ & _ & _ & _ & _ & _ & Hc & _ & _ & Hm).
  rewrite Hc, Hm. reflexivity.
Qed.

Lemma stored_queue_fallback_run (now : datetime)
    (m : Message.t) (w : StoredDelivery.World) :
  StoredDelivery._queue_fallback now (m, w)
  = match StoredDelivery.trigger_fallback now m with
    | (Ok _, m') =>
        (Ok tt,
         (m', StoredDelivery.queue_call
                (Enqueue (DeliveryService.dispatch_job m'))
                (StoredDelivery.save now m' w)))
    | (Raise e, m') => (Raise e, (m', w))
    end.
Proof.
  unfold StoredDelivery._queue_fallback, bind,
    StoredDelivery.call_message. cbn [fst snd].
  destruct (StoredDelivery.trigger_fallback now m) as [[[]|e] m'];
    reflexivity.
Qed.

Lemma stored_handle_failure_run (now : datetime) (e : Exception)
    (m : Message.t) (w : StoredDelivery.World) :
  StoredDelivery._handle_delivery_failure now e (m, w)
  = let m1 := Message.mark_failed now FailureReason.NETWORK_ERROR
                (DeliveryService.exception_error_code e)
                (Some (DeliveryService.exception_str e)) m in
    if Message.should_retry now m1 then
      let m2 := Message.increment_retry now m1 in
      (Ok tt,
       (m2, StoredDelivery.queue_call
              (Enqueue (DeliveryService.dispatch_job m2))
              (StoredDelivery.save now m2 w)))
    else if Message.should_fallback_to_sms m1 then
      StoredDelivery._queue_fallback now (m1, w)
    else (Ok tt, (m1, StoredDelivery.save now m1 w)).
Proof.
  unfold StoredDelivery._handle_delivery_failure, bind,
    StoredDelivery.on_message, modify, StoredDelivery.the_message.
  cbn [fst snd]. cbv zeta.
  destruct (Message.should_retry now _); [reflexivity|].
  destruct (Message.should_fallback_to_sms _); reflexivity.
Qed.

(** The failure handler raises only from the fallback, only the
    AttributeError of the text, and before anything is written. *)
Lemma stored_handle_failure_raises (now : datetime) (e e' : Exception)
    (m : Message.t) (w : StoredDelivery.World) (s' : StoredDelivery.Local) :
  StoredDelivery._handle_delivery_failure now e (m, w) = (Raise e', s') ->
  e' = attribute_error /\ snd s' = w /\
  StoredDelivery.to_sms_text (Message.content m) = Raise attribute_error /\
  Message.fallback_enabled m = true /\
  Message.fallback_triggered m = false /\
  Message.channel m <> MessageChannel.SMS /\
  Message.max_retries m <= Message.retry_count m.
Proof.
  rewrite stored_handle_failure_run. cbv zeta.
  destruct (Message.should_retry now _); [discriminate|].
  destruct (Message.should_fallback_to_sms _) eqn:Hf; [|discriminate].
  rewrite stored_queue_fallback_run, (stored_trigger_fallback_run _ _ Hf).
  assert (Message.content
            (Message.mark_failed now FailureReason.NETWORK_ERROR
               (DeliveryService.exception_error_code e)
               (Some (DeliveryService.exception_str e)) m)
          = Message.content m) as -> by reflexivity.
  destruct (StoredDelivery.to_sms_text (Message.content m)) as [t|e0] eqn:Ht;
    [discriminate|].
  intros [= <- <-]. pose proof (to_sms_text_raises _ _ Ht) as ->.
  split; [reflexivity|]. split; [reflexivity|]. split; [reflexivity|].
  rewrite should_fallback_after_network_error in Hf.
  apply andb_true_iff in Hf as [Hf Hr].
  apply andb_true_iff in Hf as [Hf Hc].
  apply andb_true_iff in Hf as [He Ht'].
  apply negb_true_iff in Ht'. apply negb_true_iff in Hc.
  apply bool_decide_eq_false in Hc. apply geb_true_iff in Hr.
  repeat split; first [assumption | lia].
Qed.

Lemma stored_on_exception_raises (now : datetime) (e e' : Exception)
    (m : Message.t) (w : StoredDelivery.World) (s' : StoredDelivery.Local) :
  StoredDelivery.on_exception now e (m, w) = (Raise e', s') ->
  e' = attribute_error /\ snd s' = w /\
  StoredDelivery.to_sms_text (Message.content m) = Raise attribute_error /\
  Message.fallback_enabled m = true /\
  Message.fallback_triggered m = false /\
  Message.channel m <> MessageChannel.SMS /\
  Message.max_retries m <= Message.retry_count m.
Proof.
  destruct e; cbn [StoredDelivery.on_exception];
    try apply stored_handle_failure_raises.
  discriminate.
Qed.

Lemma queue_cases (now : datetime) (m : Message.t) :
  (Message.status m = MessageStatus.PENDING /\
   Message.queue now m
   = (Ok tt,
      Message.set_updated_at now
        (Message.set_queued_at (Some now)
           (Message.set_status MessageStatus.QUEUED m)))) \/
  (Message.status m <> MessageStatus.PENDING /\
   Message.queue now m = (Raise (ValueError "Cannot queue message"), m)).
Proof.
  unfold Message.queue. case_bool_decide; [left|right]; by split.
Qed.

(** A raise of [queue_and_send]: the queue as it was, and a message with
    its content and its budget as they were. *)
Lemma queue_and_send_raises (aggregator : AggregatorPort) (now : datetime)
    (m : Message.t) (w : StoredDelivery.World) (e : Exception)
    (m' : Message.t) (w' : StoredDelivery.World) :
  StoredDelivery.queue_and_send aggregator now (m, w)
  = (Raise e, (m', w')) ->
  StoredDelivery.queue_calls w' = StoredDelivery.queue_calls w /\
  Message.content m' = Message.content m /\ same_budget m m'.
Proof.
  unfold StoredDelivery.queue_and_send, bind, StoredDelivery.call_message.
  cbn [fst snd].
  destruct (queue_cases now m) as [[_ ->]|[_ ->]].
  - unfold StoredDelivery.save_message, modify,
      StoredDelivery._send_via_aggregator, bind,
      StoredDelivery.the_message, lift. cbn [fst snd].
    match goal with
    | |- context [if bool_decide ?P then ?a else ?b] =>
        destruct (if bool_decide P then a else b) as [response|e0]
    end; unfold ret, raise; cbn [fst snd].
    + destruct (success response); cbn [fst snd].
      * unfold StoredDelivery.on_message, StoredDelivery.on_world, modify.
        cbn [fst snd]. discriminate.
      * intros [= <- <- <-]. by repeat split.
    + intros [= <- <- <-]. by repeat split.
  - intros [= <- <- <-]. by repeat split.
Qed.

(** The immediate fallback, step by step. *)
Lemma fall_back_at_once_run (now : datetime)
    (m : Message.t) (w : StoredDelivery.World) :
  StoredDelivery.fall_back_at_once now (m, w)
  = let m1 := Message.mark_failed now FailureReason.RCS_NOT_SUPPORTED None
                (Some "RCS not supported") m in
    match StoredDelivery.trigger_fallback now m1 with
    | (Ok _, m2) =>
        (Ok true,
         (m2, StoredDelivery.queue_call
                (Enqueue (DeliveryService.dispatch_job m2))
                (StoredDelivery.save now m2
                   (StoredDelivery.save now m1 w))))
    | (Raise e, m2) => (Raise e, (m2, StoredDelivery.save now m1 w))
    end.
Proof.
  unfold StoredDelivery.fall_back_at_once, bind,
    StoredDelivery.on_message, StoredDelivery.save_message, modify.
  cbn [fst snd]. rewrite stored_queue_fallback_run. cbv zeta.
  destruct (StoredDelivery.trigger_fallback now _) as [[[]|e] m2];
    reflexivity.
Qed.

Lemma mark_failed_same_budget (now : datetime) (r : FailureReason.t)
    (c e : option string) (m : Message.t) :
  same_budget m (Message.mark_failed now r c e m).
Proof. repeat split. Qed.

Lemma fall_back_at_once_cases (now : datetime)
    (m : Message.t) (w : StoredDelivery.World) :
  (exists s', StoredDelivery.fall_back_at_once now (m, w) = (Ok true, s')) \/
  (exists e m' w',
     StoredDelivery.fall_back_at_once now (m, w) = (Raise e, (m', w')) /\
     StoredDelivery.queue_calls w' = StoredDelivery.queue_calls w /\
     Message.content m' = Message.content m /\
     (Message.fallback_triggered m' = true \/ same_budget m m')).
Proof.
  rewrite fall_back_at_once_run. cbv zeta.
  unfold StoredDelivery.trigger_fallback.
  destruct (Message.should_fallback_to_sms _); cbn [negb].
  - cbv zeta. destruct (StoredDelivery.to_sms_text _) as [t|e0].
    + left. eexists. reflexivity.
    + right. do 3 eexists. split; [reflexivity|].
      split; [reflexivity|]. split; [reflexivity|]. left. reflexivity.
  - right. do 3 eexists. split; [reflexivity|].
    split; [reflexivity|]. split; [reflexivity|]. right.
    apply mark_failed_same_budget.
Qed.

(** The capability check: it lets the send go on with nothing changed, or
    ends the processing, or raises with the queue as it was and a message
    that has fallen back or has its budget as it was. *)
Lemma capability_gate_cases (aggregator : AggregatorPort) (now : datetime)
    (m : Message.t) (w : StoredDelivery.World) :
  StoredDelivery.capability_gate aggregator now (m, w)
  = (Ok false, (m, w)) \/
  (exists s', StoredDelivery.capability_gate aggregator now (m, w)
              = (Ok true, s')) \/
  (exists e m' w',
     StoredDelivery.capability_gate aggregator now (m, w)
     = (Raise e, (m', w')) /\
     StoredDelivery.queue_calls w' = StoredDelivery.queue_calls w /\
     Message.content m' = Message.content m /\
     (Message.fallback_triggered m' = true \/ same_budget m m')).
Proof.
  unfold StoredDelivery.capability_gate, bind, StoredDelivery.the_message.
  cbn [fst snd]. case_bool_decide as Hc; [|left; reflexivity].
  unfold StoredDelivery._check_rcs_capability, bind, lift.
  destruct (check_rcs_capability aggregator _) as [[|r rs]|e];
    unfold ret, raise; cbn [fst snd negb].
  - right. apply fall_back_at_once_cases.
  - destruct (rcs_enabled r); cbn [negb]; [left; reflexivity|].
    right. apply fall_back_at_once_cases.
  - right. right. exists e, m, w. split; [reflexivity|].
    split; [reflexivity|]. split; [reflexivity|]. right.
    unfold same_budget. repeat split.
Qed.

Lemma attempt_delivery_raises (aggregator : AggregatorPort) (now : datetime)
    (m : Message.t) (w : StoredDelivery.World) (e : Exception)
    (m' : Message.t) (w' : StoredDelivery.World) :
  StoredDelivery.attempt_delivery aggregator now (m, w)
  = (Raise e, (m', w')) ->
  StoredDelivery.queue_calls w' = StoredDelivery.queue_calls w /\
  Message.content m' = Message.content m /\
  (Message.fallback_triggered m' = true \/ same_budget m m').
Proof.
  unfold StoredDelivery.attempt_delivery, bind.
  destruct (capability_gate_cases aggregator now m w)
    as [->|[[s' ->]|(e0 & m0 & w0 & -> & Hq & Hc & Hb)]].
  - intros H. apply queue_and_send_raises in H as (Hq & Hc & Hb).
    split; [exact Hq|]. split; [exact Hc|]. by right.
  - discriminate.
  - intros [= <- <- <-]. by repeat split.
Qed.

(** [process_message_delivery] on a stored row, as the [try] on the loaded
    message inside the unit of work. *)
Lemma stored_process_run (aggregator : AggregatorPort) (now : datetime)
    (message_id : UUID) (w : StoredDelivery.World) :
  StoredDelivery.process_message_delivery aggregator now message_id w
  = match StoredDelivery.rows w !! message_id with
    | None => (Ok tt, w)
    | Some row =>
        match StoredDelivery.attempt_delivery aggregator now
                (MessageRepo._to_domain row, w) with
        | (Ok _, (_, w')) => (Ok tt, w')
        | (Raise e, s) =>
            match StoredDelivery.on_exception now e s with
            | (Ok _, (_, w')) => (Ok tt, w')
            | (Raise e', (_, w')) =>
                (Raise e',
                 StoredDelivery.mkWorld (StoredDelivery.rows w)
                   (StoredDelivery.stats_updates w)
                   (StoredDelivery.queue_calls w'))
            end
        end
    end.
Proof.
  unfold StoredDelivery.process_message_delivery, StoredDelivery.with_uow,
    MessageRepo.get_by_id.
  destruct (StoredDelivery.rows w !! message_id) as [row|];
    cbn [fmap option_fmap option_map]; [|reflexivity].
  unfold try_except.
  destruct (StoredDelivery.attempt_delivery aggregator now _)
    as [[[]|e] [m' w']]; [reflexivity|].
  destruct (StoredDelivery.on_exception now e (m', w'))
    as [[[]|e'] [m'' w'']]; reflexivity.
Qed.

(** X14. [process_message_delivery] on the rows of the repository. An
    exception leaves it only for a row whose retries are used up, whose
    fallback is enabled and not yet triggered, whose channel is not SMS,
    and whose content has a rich card or suggestions. [_to_domain] has
    handed these over as dicts, so the text for the SMS cannot be made:
    the exception is the AttributeError that [trigger_fallback] raises
    inside the [except] clause, and the rows, the statistics and the queue
    are then as before the call. For a row of text alone the call always
    returns; an id with no row changes nothing. The call does raise for
    every such row that is not PENDING, on RCS with a capable recipient or
    on another channel: there [queue()] raises and the handler goes to the
    fallback. *)
Theorem stored_processing_raises_only_in_fallback
    (aggregator : AggregatorPort) (now : datetime) (message_id : UUID)
    (w : StoredDelivery.World) :
  let r := StoredDelivery.process_message_delivery aggregator now
             message_id w in
  (forall e,
     fst r = Raise e ->
     e = attribute_error /\ snd r = w /\
     exists row,
       StoredDelivery.rows w !! message_id = Some row /\
       MessageRepo.plain (MessageRepo.row_content row) = false /\
       MessageRepo.row_fallback_enabled row = true /\
       MessageRepo.row_fallback_triggered row = false /\
       MessageRepo.row_channel row <> MessageChannel.SMS /\
       MessageRepo.row_max_retries row <= MessageRepo.row_retry_count row) /\
  (forall row,
     StoredDelivery.rows w !! message_id = Some row ->
     MessageRepo.plain (MessageRepo.row_content row) = true ->
     fst r = Ok tt) /\
  (StoredDelivery.rows w !! message_id = None -> r = (Ok tt, w)) /\
  (forall row,
     StoredDelivery.rows w !! message_id = Some row ->
     MessageRepo.row_status row <> MessageStatus.PENDING ->
     (MessageRepo.row_channel row = MessageChannel.RCS ->
      exists c cs,
        check_rcs_capability aggregator
          [Message._normalize_phone (MessageRepo.row_recipient_phone row)]
        = Ok (c :: cs) /\ rcs_enabled c = true) ->
     MessageRepo.row_channel row <> MessageChannel.SMS ->
     MessageRepo.plain (MessageRepo.row_content row) = false ->
     MessageRepo.row_fallback_enabled row = true ->
     MessageRepo.row_fallback_triggered row = false ->
     MessageRepo.row_max_retries row <= MessageRepo.row_retry_count row ->
     r = (Raise attribute_error, w)).
Proof.
  intros r.
  assert (forall e,
            fst r = Raise e ->
            e = attribute_error /\ snd r = w /\
            exists row,
              StoredDelivery.rows w !! message_id = Some row /\
              MessageRepo.plain (MessageRepo.row_content row) = false /\
              MessageRepo.row_fallback_enabled row = true /\
              MessageRepo.row_fallback_triggered row = false /\
              MessageRepo.row_channel row <> MessageChannel.SMS /\
              MessageRepo.row_max_retries row
              <= MessageRepo.row_retry_count row) as Hraise.
  { intros e. subst r. rewrite stored_process_run.
    destruct (StoredDelivery.rows w !! message_id) as [row|] eqn:Hrow;
      [|discriminate].
    destruct (StoredDelivery.attempt_delivery aggregator now _)
      as [[[]|e0] [m' w']] eqn:Hatt; [discriminate|].
    destruct (StoredDelivery.on_exception now e0 (m', w'))
      as [[[]|e1] [m'' w'']] eqn:Hh; [discriminate|].
    cbn [fst snd]. intros [= <-].
    apply stored_on_exception_raises in Hh
      as (-> & Hw & Htext & He & Ht & Hc & Hr).
    apply attempt_delivery_raises in Hatt as (Hq & Hcontent & Hb).
    cbn [snd] in Hw. subst w''.
    destruct Hb as [Hb|(B1 & B2 & B3 & B4 & B5)]; [congruence|].
    split; [reflexivity|]. split.
    { rewrite Hq. apply stored_world_eta. }
    exists row. split; [reflexivity|].
    rewrite Hcontent in Htext. cbn [MessageRepo._to_domain Message.content]
      in Htext. rewrite to_sms_text_loaded in Htext.
    rewrite B1 in Hc. rewrite B2 in He. rewrite B3 in Ht.
    rewrite B4, B5 in Hr.
    split; [by destruct (MessageRepo.plain _)|].
    by repeat split. }
  split; [exact Hraise|]. split; [|split].
  - intros row Hrow Hplain. destruct (fst r) as [[]|e] eqn:Hr; [reflexivity|].
    destruct (Hraise e eq_refl) as (_ & _ & row' & Hrow' & Hp & _).
    congruence.
  - intros Hrow. subst r. by rewrite stored_process_run, Hrow.
  - intros row Hrow Hst Hcap Hsms Hplain He Ht Hr. subst r.
    rewrite stored_process_run, Hrow.
    set (m := MessageRepo._to_domain row).
    assert (StoredDelivery.capability_gate aggregator now (m, w)
            = (Ok false, (m, w))) as Hgate.
    { unfold StoredDelivery.capability_gate, bind,
        StoredDelivery.the_message. cbn [fst snd].
      case_bool_decide as Hch; [|reflexivity].
      destruct (Hcap Hch) as (c & cs & Hc & Hen).
      unfold StoredDelivery._check_rcs_capability, bind, lift.
      change (Message.recipient_phone m)
        with (Message._normalize_phone (MessageRepo.row_recipient_phone row)).
      rewrite Hc. unfold ret. cbn [fst snd]. by rewrite Hen. }
    assert (StoredDelivery.attempt_delivery aggregator now (m, w)
            = (Raise (ValueError "Cannot queue message"), (m, w))) as ->.
    { unfold StoredDelivery.attempt_delivery, bind. rewrite Hgate.
      unfold StoredDelivery.queue_and_send, bind,
        StoredDelivery.call_message. cbn [fst snd].
      destruct (queue_cases now m) as [[Hp _]|[_ ->]]; [|reflexivity].
      by destruct Hst. }
    cbn [StoredDelivery.on_exception].
    rewrite stored_handle_failure_run. cbv zeta.
    set (m1 := Message.mark_failed now FailureReason.NETWORK_ERROR _ _ m).
    assert (Message.should_retry now m1 = false) as ->.
    { destruct (Message.should_retry now m1) eqn:E; [|reflexivity].
      apply should_retry_has_budget in E.
      change (MessageRepo.row_retry_count row
              < MessageRepo.row_max_retries row) in E. lia. }
    assert (Message.should_fallback_to_sms m1 = true) as Hf.
    { subst m1. rewrite should_fallback_after_network_error.
      change (MessageRepo.row_fallback_enabled row
              && negb (MessageRepo.row_fallback_triggered row)
              && negb (bool_decide (MessageRepo.row_channel row
                                    = MessageChannel.SMS))
              && (MessageRepo.row_retry_count row
                  >=? MessageRepo.row_max_retries row) = true).
      rewrite He, Ht. rewrite bool_decide_eq_false_2 by exact Hsms.
      cbn [negb andb]. apply geb_true_iff. lia. }
    rewrite Hf, stored_queue_fallback_run,
      (stored_trigger_fallback_run _ _ Hf).
    change (Message.content m1)
      with (MessageRepo.loaded_content (MessageRepo.row_content row)).
    rewrite to_sms_text_loaded, Hplain.
    cbn [StoredDelivery.queue_calls]. by rewrite stored_world_eta.
Qed.

Lemma stored_processing_raises_only_in_fallback_witness :
  StoredDelivery.process_message_delivery refusing_vendor 2040 "m-1"
    exhausted_world
  = (Raise attribute_error, exhausted_world).
Proof.
  destruct (StoredDelivery.rows exhausted_world !! "m-1") as [row|] eqn:Hrow;
    [|vm_compute in Hrow; discriminate].
  apply (proj2 (proj2 (proj2 (stored_processing_raises_only_in_fallback
                                refusing_vendor 2040 "m-1"
                                exhausted_world))) row Hrow);
    vm_compute in Hrow; injection Hrow as <-.
  - discriminate.
  - intros _. do 2 eexists. split; reflexivity.
  - discriminate.
  - reflexivity.
  - reflexivity.
  - reflexivity.
  - vm_compute. discriminate.
Defined.

(** ** Writing a stored row twice *)

Lemma stored_save_existing (now : datetime) (m : Message.t)
    (rows : gmap UUID MessageRepo.MessageModel)
    (row : MessageRepo.MessageModel) :
  rows !! Message.id m = Some row ->
  MessageRepo.save now m rows
  = <[Message.id m := MessageRepo._update_from_domain now row m]> rows.
Proof. intros H. unfold MessageRepo.save. by rewrite H. Qed.

Lemma stored_save_twice (now : datetime) (m m' : Message.t)
    (w : StoredDelivery.World) (row : MessageRepo.MessageModel) :
  StoredDelivery.rows w !! Message.id m = Some row ->
  Message.id m' = Message.id m ->
  let row' :=
    MessageRepo._update_from_domain now
      (MessageRepo._update_from_domain now row m) m' in
  StoredDelivery.rows
    (StoredDelivery.save now m' (StoredDelivery.save now m w))
    !! Message.id m = Some row' /\
  (forall k, k <> Message.id m ->
     StoredDelivery.rows
       (StoredDelivery.save now m' (StoredDelivery.save now m w)) !! k
     = StoredDelivery.rows w !! k).
Proof.
  intros Hrow Hid row'. unfold StoredDelivery.save.
  cbn [StoredDelivery.rows].
  rewrite (stored_save_existing now m _ row Hrow).
  rewrite (stored_save_existing now m' _
             (MessageRepo._update_from_domain now row m))
    by (rewrite Hid; apply lookup_insert_eq).
  rewrite Hid. split; [apply lookup_insert_eq|].
  intros k Hk. by rewrite !lookup_insert_ne.
Qed.

Lemma should_retry_after_network_error (now now' : datetime)
    (c e : option string) (m : Message.t) :
  Message.should_retry now
    (Message.mark_failed now' FailureReason.NETWORK_ERROR c e m)
  = negb (Message.retry_count m >=? Message.max_retries m)
    && negb (now >? Message.expires_at m).
Proof.
  unfold Message.should_retry.
  assert (Message.status
            (Message.mark_failed now' FailureReason.NETWORK_ERROR c e m)
          = MessageStatus.FAILED) as -> by reflexivity.
  assert (Message.failure_reason
            (Message.mark_failed now' FailureReason.NETWORK_ERROR c e m)
          = Some FailureReason.NETWORK_ERROR) as -> by reflexivity.
  assert (Message.retry_count
            (Message.mark_failed now' FailureReason.NETWORK_ERROR c e m)
          = Message.retry_count m) as -> by reflexivity.
  assert (Message.max_retries
            (Message.mark_failed now' FailureReason.NETWORK_ERROR c e m)
          = Message.max_retries m) as -> by reflexivity.
  assert (Message.expires_at
            (Message.mark_failed now' FailureReason.NETWORK_ERROR c e m)
          = Message.expires_at m) as -> by reflexivity.
  rewrite (bool_decide_eq_true_2
             (MessageStatus.FAILED = MessageStatus.FAILED)) by reflexivity.
  rewrite (bool_decide_eq_false_2
             (Some FailureReason.NETWORK_ERROR
              ∈ [Some FailureReason.INVALID_NUMBER;
                 Some FailureReason.BLOCKED])).
  - cbn [negb]. destruct (_ >=? _), (_ >? _); reflexivity.
  - intros H. apply elem_of_cons in H as [H|H]; [discriminate|].
    apply elem_of_cons in H as [H|H]; [discriminate|].
    by apply elem_of_nil in H.
Qed.

(** ** The immediate fallback on a stored row *)

Lemma capability_gate_incapable (aggregator : AggregatorPort)
    (now : datetime) (m : Message.t) (w : StoredDelivery.World) :
  Message.channel m = MessageChannel.RCS ->
  (check_rcs_capability aggregator [Message.recipient_phone m] = Ok [] \/
   exists c cs,
     check_rcs_capability aggregator [Message.recipient_phone m]
     = Ok (c :: cs) /\ rcs_enabled c = false) ->
  StoredDelivery.capability_gate aggregator now (m, w)
  = StoredDelivery.fall_back_at_once now (m, w).
Proof.
  intros Hc Hcap. unfold StoredDelivery.capability_gate, bind,
    StoredDelivery.the_message. cbn [fst snd].
  rewrite bool_decide_eq_true_2 by exact Hc.
  unfold StoredDelivery._check_rcs_capability, bind, lift.
  destruct Hcap as [->|(c & cs & -> & Hen)]; unfold ret; cbn [fst snd].
  - reflexivity.
  - by rewrite Hen.
Qed.

(** X18. A row on RCS whose recipient the capability check does not report
    as capable, with fallback enabled and not yet triggered. No send is
    attempted and the status of the row is not looked at. When the content
    is text alone, the row ends PENDING on SMS with [retry_count] 0, the
    reason RCS_NOT_SUPPORTED, and the original channel and the text for the
    SMS in its metadata, and one dispatch job is enqueued. When the content
    has a rich card or suggestions, [trigger_fallback] raises AttributeError
    after it has switched the channel; the [except] clause takes it as a
    delivery failure: the row ends FAILED on SMS with the fallback marked
    as triggered, the reason NETWORK_ERROR and no text for the SMS, with
    one retry counted and one dispatch job enqueued when the row has
    retries and has not expired, and with nothing enqueued otherwise. In
    every case the call returns, the content of the row and the other rows
    are as before, and no statistic moves. *)
Theorem incapable_recipient_on_stored_row
    (aggregator : AggregatorPort) (now : datetime)
    (w : StoredDelivery.World) (message_id : UUID)
    (row : MessageRepo.MessageModel) :
  MessageRepo.keyed (StoredDelivery.rows w) ->
  StoredDelivery.rows w !! message_id = Some row ->
  MessageRepo.row_channel row = MessageChannel.RCS ->
  (check_rcs_capability aggregator
     [Message._normalize_phone (MessageRepo.row_recipient_phone row)]
   = Ok [] \/
   exists c cs,
     check_rcs_capability aggregator
       [Message._normalize_phone (MessageRepo.row_recipient_phone row)]
     = Ok (c :: cs) /\ rcs_enabled c = false) ->
  MessageRepo.row_fallback_enabled row = true ->
  MessageRepo.row_fallback_triggered row = false ->
  let r := StoredDelivery.process_message_delivery aggregator now
             message_id w in
  let job := DeliveryService.dispatch_job (MessageRepo._to_domain row) in
  fst r = Ok tt /\
  StoredDelivery.stats_updates (snd r) = StoredDelivery.stats_updates w /\
  (forall k, k <> message_id ->
     StoredDelivery.rows (snd r) !! k = StoredDelivery.rows w !! k) /\
  exists row',
    StoredDelivery.rows (snd r) !! message_id = Some row' /\
    MessageRepo.row_channel row' = MessageChannel.SMS /\
    MessageRepo.row_fallback_triggered row' = true /\
    MessageRepo.row_content row' = MessageRepo.row_content row /\
    (MessageRepo.plain (MessageRepo.row_content row) = true ->
     MessageRepo.row_status row' = MessageStatus.PENDING /\
     MessageRepo.row_retry_count row' = 0 /\
     MessageRepo.row_failure_reason row'
     = Some FailureReason.RCS_NOT_SUPPORTED /\
     MessageRepo.row_metadata_ row'
     = <["sms_text" := MessageRepo.cd_text (MessageRepo.row_content row)]>
         (<["original_channel" := "rcs"]> (MessageRepo.row_metadata_ row)) /\
     StoredDelivery.queue_calls (snd r)
     = (StoredDelivery.queue_calls w ++ [Enqueue job])%list) /\
    (MessageRepo.plain (MessageRepo.row_content row) = false ->
     MessageRepo.row_status row' = MessageStatus.FAILED /\
     MessageRepo.row_failure_reason row'
     = Some FailureReason.NETWORK_ERROR /\
     MessageRepo.row_metadata_ row'
     = <["original_channel" := "rcs"]> (MessageRepo.row_metadata_ row) /\
     (0 < MessageRepo.row_max_retries row ->
      now <= MessageRepo.row_expires_at row ->
      MessageRepo.row_retry_count row' = 1 /\
      StoredDelivery.queue_calls (snd r)
      = (StoredDelivery.queue_calls w ++ [Enqueue job])%list) /\
     (MessageRepo.row_max_retries row <= 0 \/
      MessageRepo.row_expires_at row < now ->
      MessageRepo.row_retry_count row' = 0 /\
      StoredDelivery.queue_calls (snd r) = StoredDelivery.queue_calls w)).
Proof.
  intros Hk Hrow Hch Hcap Hen Htr r job. subst r.
  pose proof (Hk _ _ Hrow) as Hid.
  rewrite stored_process_run, Hrow.
  set (m := MessageRepo._to_domain row).
  assert (Message.id m = message_id) as Hm by exact Hid.
  unfold StoredDelivery.attempt_delivery, bind.
  rewrite (capability_gate_incapable aggregator now m w Hch Hcap).
  rewrite fall_back_at_once_run. cbv zeta.
  set (m1 := Message.mark_failed now FailureReason.RCS_NOT_SUPPORTED None
               (Some "RCS not supported") m).
  assert (Message.should_fallback_to_sms m1 = true) as Hf
    by (by apply should_fallback_after_unsupported).
  rewrite (stored_trigger_fallback_run _ _ Hf).
  change (Message.content m1)
    with (MessageRepo.loaded_content (MessageRepo.row_content row)).
  rewrite to_sms_text_loaded.
  assert (StoredDelivery.rows w !! Message.id m1 = Some row) as Hrow1
    by (change (Message.id m1) with (Message.id m); by rewrite Hm).
  destruct (MessageRepo.plain (MessageRepo.row_content row)) eqn:Hplain.
  - (* text alone: the fallback goes through *)
    unfold ret. cbn [fst snd].
    set (m3 := Message.set_metadata _ (StoredDelivery.switched_to_sms now m1)).
    destruct (stored_save_twice now m1 m3 w row Hrow1 eq_refl)
      as [Hget Hother].
    change (Message.id m1) with (Message.id m) in Hget, Hother.
    rewrite Hm in Hget, Hother.
    split; [reflexivity|]. split; [reflexivity|].
    split; [exact Hother|].
    eexists. split; [exact Hget|].
    split; [reflexivity|]. split; [reflexivity|]. split; [reflexivity|].
    split; [|intros [=]]. intros _.
    split; [reflexivity|]. split; [reflexivity|]. split; [reflexivity|].
    split; reflexivity.
  - (* a card or suggestions: the text cannot be made *)
    cbn [StoredDelivery.on_exception attribute_error].
    rewrite stored_handle_failure_run. cbv zeta.
    set (m2 := StoredDelivery.switched_to_sms now m1).
    set (m4 := Message.mark_failed now FailureReason.NETWORK_ERROR _ _ m2).
    assert (Message.should_fallback_to_sms m4 = false) as Hf4.
    { subst m4. rewrite should_fallback_after_network_error.
      assert (Message.fallback_triggered m2 = true) as -> by reflexivity.
      by rewrite andb_false_r. }
    assert (Message.should_retry now m4
            = negb (0 >=? MessageRepo.row_max_retries row)
              && negb (now >? MessageRepo.row_expires_at row)) as Hr4.
    { subst m4. rewrite should_retry_after_network_error. reflexivity. }
    rewrite Hf4.
    destruct (Message.should_retry now m4) eqn:Hretry.
    + set (m5 := Message.increment_retry now m4).
      destruct (stored_save_twice now m1 m5 w row Hrow1 eq_refl)
        as [Hget Hother].
      change (Message.id m1) with (Message.id m) in Hget, Hother.
      rewrite Hm in Hget, Hother.
      split; [reflexivity|]. split; [reflexivity|].
      split; [exact Hother|].
      eexists. split; [exact Hget|].
      split; [reflexivity|]. split; [reflexivity|]. split; [reflexivity|].
      split; [intros [=]|]. intros _.
      split; [reflexivity|]. split; [reflexivity|]. split; [reflexivity|].
      split; [intros _ _; split; reflexivity|].
      intros Hno. symmetry in Hr4. apply andb_true_iff in Hr4 as [H1 H2].
      apply negb_true_iff in H1, H2.
      assert (~ MessageRepo.row_max_retries row <= 0) as G1
        by (intros G; apply geb_true_iff in G; congruence).
      assert (~ MessageRepo.row_expires_at row < now) as G2
        by (intros G; apply gtb_true_iff in G; congruence).
      destruct Hno as [Hno|Hno]; [by destruct G1|by destruct G2].
    + destruct (stored_save_twice now m1 m4 w row Hrow1 eq_refl)
        as [Hget Hother].
      change (Message.id m1) with (Message.id m) in Hget, Hother.
      rewrite Hm in Hget, Hother.
      split; [reflexivity|]. split; [reflexivity|].
      split; [exact Hother|].
      eexists. split; [exact Hget|].
      split; [reflexivity|]. split; [reflexivity|]. split; [reflexivity|].
      split; [intros [=]|]. intros _.
      split; [reflexivity|]. split; [reflexivity|]. split; [reflexivity|].
      split; [|intros _; split; reflexivity].
      intros Hmax Hexp. symmetry in Hr4.
      apply andb_false_iff in Hr4 as [H1|H1]; apply negb_false_iff in H1.
      * apply geb_true_iff in H1. lia.
      * apply gtb_true_iff in H1. lia.
Qed.

Lemma stored_keyed_one_row (now : datetime) (m : Message.t) :
  MessageRepo.keyed (MessageRepo.save now m ∅).
Proof.
  intros k row. unfold MessageRepo.save. rewrite lookup_empty. intros H.
  apply lookup_insert_Some in H as [[<- <-]|[_ H]]; [reflexivity|].
  by rewrite lookup_empty in H.
Qed.

Lemma incapable_recipient_on_stored_row_witness :
  fst (StoredDelivery.process_message_delivery sms_only_vendor 2040 "m-1"
         stored_world) = Ok tt.
Proof.
  exact (proj1 (incapable_recipient_on_stored_row sms_only_vendor 2040
                  stored_world "m-1" (MessageRepo._to_model sample_message)
                  (stored_keyed_one_row 1000 sample_message)
                  eq_refl eq_refl (or_introl eq_refl) eq_refl eq_refl)).
Defined.

(** ** A stored row that is not PENDING *)

Lemma stored_save_once (now : datetime) (m : Message.t)
    (w : StoredDelivery.World) (row : MessageRepo.MessageModel) :
  StoredDelivery.rows w !! Message.id m = Some row ->
  StoredDelivery.rows (StoredDelivery.save now m w) !! Message.id m
  = Some (MessageRepo._update_from_domain now row m) /\
  (forall k, k <> Message.id m ->
     StoredDelivery.rows (StoredDelivery.save now m w) !! k
     = StoredDelivery.rows w !! k).
Proof.
  intros Hrow. unfold StoredDelivery.save. cbn [StoredDelivery.rows].
  rewrite (stored_save_existing now m _ row Hrow).
  split; [apply lookup_insert_eq|].
  intros k Hk. by rewrite lookup_insert_ne.
Qed.

Lemma capability_gate_ext (a1 a2 : AggregatorPort) (now : datetime)
    (m : Message.t) (w : StoredDelivery.World) :
  check_rcs_capability a1 [Message.recipient_phone m]
  = check_rcs_capability a2 [Message.recipient_phone m] ->
  StoredDelivery.capability_gate a1 now (m, w)
  = StoredDelivery.capability_gate a2 now (m, w).
Proof.
  intros H. unfold StoredDelivery.capability_gate, bind,
    StoredDelivery.the_message, StoredDelivery._check_rcs_capability.
  cbn [fst snd]. by rewrite H.
Qed.

Lemma queue_and_send_not_pending (aggregator : AggregatorPort)
    (now : datetime) (m : Message.t) (w : StoredDelivery.World) :
  Message.status m <> MessageStatus.PENDING ->
  StoredDelivery.queue_and_send aggregator now (m, w)
  = (Raise (ValueError "Cannot queue message"), (m, w)).
Proof.
  intros Hs. unfold StoredDelivery.queue_and_send, bind,
    StoredDelivery.call_message. cbn [fst snd].
  destruct (queue_cases now m) as [[Hp _]|[_ ->]]; [by destruct Hs|].
  reflexivity.
Qed.

Lemma capability_gate_capable (aggregator : AggregatorPort)
    (now : datetime) (m : Message.t) (w : StoredDelivery.World) :
  (Message.channel m = MessageChannel.RCS ->
   exists c cs,
     check_rcs_capability aggregator [Message.recipient_phone m]
     = Ok (c :: cs) /\ rcs_enabled c = true) ->
  StoredDelivery.capability_gate aggregator now (m, w)
  = (Ok false, (m, w)).
Proof.
  intros Hcap. unfold StoredDelivery.capability_gate, bind,
    StoredDelivery.the_message. cbn [fst snd].
  case_bool_decide as Hch; [|reflexivity].
  destruct (Hcap Hch) as (c & cs & Hc & Hen).
  unfold StoredDelivery._check_rcs_capability, bind, lift.
  rewrite Hc. unfold ret. cbn [fst snd]. by rewrite Hen.
Qed.

(** X19. Only a PENDING row reaches the vendor. For a row in any other
    status the outcome of [process_message_delivery], the exception it may
    raise included, is the same for any two vendors that answer the
    capability check alike: no send is asked for. On a channel other than
    RCS, or with a capable recipient, the outcome is that of
    [_handle_delivery_failure] on the [ValueError] of [queue()], inside the
    unit of work. So a FAILED row with retries left that has not expired,
    as a retry leaves it, is failed once more without a send: its
    [retry_count] goes up by one and one dispatch job is enqueued. *)
Theorem stored_row_not_pending_is_not_sent
    (a1 a2 : AggregatorPort) (now : datetime) (message_id : UUID)
    (w : StoredDelivery.World) (row : MessageRepo.MessageModel) :
  StoredDelivery.rows w !! message_id = Some row ->
  MessageRepo.row_status row <> MessageStatus.PENDING ->
  let m := MessageRepo._to_domain row in
  (check_rcs_capability a1 [Message.recipient_phone m]
   = check_rcs_capability a2 [Message.recipient_phone m] ->
   StoredDelivery.process_message_delivery a1 now message_id w
   = StoredDelivery.process_message_delivery a2 now message_id w) /\
  ((MessageRepo.row_channel row = MessageChannel.RCS ->
    exists c cs,
      check_rcs_capability a1 [Message.recipient_phone m] = Ok (c :: cs) /\
      rcs_enabled c = true) ->
   StoredDelivery.process_message_delivery a1 now message_id w
   = StoredDelivery.with_uow
       (fun w0 =>
          let '(r, (_, w')) :=
            StoredDelivery._handle_delivery_failure now
              (ValueError "Cannot queue message") (m, w0) in
          (r, w')) w /\
   (MessageRepo.keyed (StoredDelivery.rows w) ->
    MessageRepo.row_retry_count row < MessageRepo.row_max_retries row ->
    now <= MessageRepo.row_expires_at row ->
    let r := StoredDelivery.process_message_delivery a1 now message_id w in
    fst r = Ok tt /\
    StoredDelivery.queue_calls (snd r)
    = (StoredDelivery.queue_calls w
       ++ [Enqueue (DeliveryService.dispatch_job m)])%list /\
    StoredDelivery.stats_updates (snd r) = StoredDelivery.stats_updates w /\
    exists row',
      StoredDelivery.rows (snd r) !! message_id = Some row' /\
      MessageRepo.row_status row' = MessageStatus.FAILED /\
      MessageRepo.row_channel row' = MessageRepo.row_channel row /\
      MessageRepo.row_failure_reason row'
      = Some FailureReason.NETWORK_ERROR /\
      MessageRepo.row_retry_count row'
      = MessageRepo.row_retry_count row + 1 /\
      MessageRepo.row_sent_at row' = MessageRepo.row_sent_at row /\
      MessageRepo.row_external_id row' = MessageRepo.row_external_id row)).
Proof.
  intros Hrow Hst m.
  assert (Message.status m <> MessageStatus.PENDING) as Hst' by exact Hst.
  split.
  - intros Hcap. rewrite !stored_process_run, Hrow. fold m.
    unfold StoredDelivery.attempt_delivery, bind.
    rewrite (capability_gate_ext a1 a2 now m w Hcap).
    destruct (capability_gate_cases a2 now m w)
      as [->|[[s' ->]|(e & m' & w' & -> & _)]]; try reflexivity.
    by rewrite !queue_and_send_not_pending.
  - intros Hcap.
    assert (StoredDelivery.process_message_delivery a1 now message_id w
            = StoredDelivery.with_uow
                (fun w0 =>
                   let '(r, (_, w')) :=
                     StoredDelivery._handle_delivery_failure now
                       (ValueError "Cannot queue message") (m, w0) in
                   (r, w')) w) as Heq.
    { rewrite stored_process_run, Hrow. fold m.
      unfold StoredDelivery.attempt_delivery, bind.
      rewrite (capability_gate_capable a1 now m w Hcap).
      rewrite queue_and_send_not_pending by exact Hst'.
      cbn [StoredDelivery.on_exception]. unfold StoredDelivery.with_uow.
      destruct (StoredDelivery._handle_delivery_failure now _ (m, w))
        as [[[]|e] [m' w']]; reflexivity. }
    split; [exact Heq|].
    intros Hk Hbudget Hexp r. subst r. rewrite Heq.
    unfold StoredDelivery.with_uow. rewrite stored_handle_failure_run.
    cbv zeta. rewrite should_retry_after_network_error.
    change (Message.retry_count m) with (MessageRepo.row_retry_count row).
    change (Message.max_retries m) with (MessageRepo.row_max_retries row).
    change (Message.expires_at m) with (MessageRepo.row_expires_at row).
    assert ((MessageRepo.row_retry_count row
             >=? MessageRepo.row_max_retries row) = false) as ->.
    { destruct (_ >=? _) eqn:E; [|reflexivity].
      apply geb_true_iff in E. lia. }
    assert ((now >? MessageRepo.row_expires_at row) = false) as ->.
    { destruct (_ >? _) eqn:E; [|reflexivity].
      apply gtb_true_iff in E. lia. }
    cbn [negb andb fst snd].
    set (m2 := Message.increment_retry now _).
    assert (StoredDelivery.rows w !! Message.id m2 = Some row) as Hrow2.
    { change (Message.id m2) with (MessageRepo.row_id row).
      by rewrite (Hk _ _ Hrow). }
    destruct (stored_save_once now m2 w row Hrow2) as [Hget _].
    change (Message.id m2) with (MessageRepo.row_id row) in Hget.
    rewrite (Hk _ _ Hrow) in Hget.
    split; [reflexivity|]. split; [reflexivity|]. split; [reflexivity|].
    eexists. split; [exact Hget|]. by repeat split.
Qed.

Lemma stored_row_not_pending_is_not_sent_witness :
  StoredDelivery.process_message_delivery accepting_vendor 2020 "m-1"
    refused_world
  = StoredDelivery.process_message_delivery refusing_vendor 2020 "m-1"
      refused_world.
Proof.
  destruct (StoredDelivery.rows refused_world !! "m-1") as [row|] eqn:Hrow;
    [|vm_compute in Hrow; discriminate].
  apply (proj1 (stored_row_not_pending_is_not_sent accepting_vendor
                  refusing_vendor 2020 "m-1" refused_world row Hrow
                  ltac:(vm_compute in Hrow; injection Hrow as <-;
                        discriminate))).
  reflexivity.
Defined.

(** ** Status updates on stored rows *)

Lemma rows_with_external_id_one (external_id : string)
    (rows : gmap UUID MessageRepo.MessageModel)
    (row : MessageRepo.MessageModel) :
  MessageRepo.keyed rows ->
  MessageRepo.rows_with_external_id external_id rows = [row] ->
  rows !! MessageRepo.row_id row = Some row.
Proof.
  intros Hk H.
  assert (row ∈ MessageRepo.rows_with_external_id external_id rows) as Hin
    by (rewrite H; apply elem_of_cons; by left).
  apply list_elem_of_filter in Hin as [_ Hin].
  apply list_elem_of_fmap in Hin as ([k r] & -> & Hin).
  apply elem_of_map_to_list in Hin. cbn [snd]. by rewrite (Hk _ _ Hin).
Qed.

Lemma stored_status_update_run (now : datetime)
    (external_id status : string) (c e : option string)
    (w : StoredDelivery.World) (row : MessageRepo.MessageModel) :
  MessageRepo.rows_with_external_id external_id (StoredDelivery.rows w)
  = [row] ->
  StoredDelivery.handle_delivery_status_update now external_id status c e w
  = StoredDelivery.with_uow
      (fun w0 =>
         let '(r, (_, w')) :=
           StoredDelivery.apply_status now status c e
             (MessageRepo._to_domain row, w0) in
         (r, w')) w.
Proof.
  intros H. unfold StoredDelivery.handle_delivery_status_update,
    StoredDelivery.with_uow, MessageRepo.get_by_external_id.
  by rewrite H.
Qed.

Lemma apply_failed_status_run (now : datetime) (c e : option string)
    (m : Message.t) (w : StoredDelivery.World) :
  StoredDelivery.apply_status now "failed" c e (m, w)
  = let m1 := Message.mark_failed now FailureReason.NETWORK_ERROR c e m in
    if Message.should_fallback_to_sms m1 then
      match StoredDelivery.trigger_fallback now m1 with
      | (Ok _, m') =>
          (Ok tt,
           (m', StoredDelivery.save now m'
                  (StoredDelivery.queue_call
                     (Enqueue (DeliveryService.dispatch_job m'))
                     (StoredDelivery.save now m' w))))
      | (Raise e', m') => (Raise e', (m', w))
      end
    else (Ok tt, (m1, StoredDelivery.save now m1 w)).
Proof.
  unfold StoredDelivery.apply_status, bind, StoredDelivery.on_message,
    modify, StoredDelivery.the_message, StoredDelivery.save_message.
  cbn [String.eqb Ascii.eqb Bool.eqb fst snd]. cbv zeta.
  destruct (Message.should_fallback_to_sms _); [|reflexivity].
  rewrite stored_queue_fallback_run.
  destruct (StoredDelivery.trigger_fallback now _) as [[[]|e'] m'];
    reflexivity.
Qed.

(** X23. A "failed" update on the one row that carries the vendor id. The
    message is marked FAILED with the reason NETWORK_ERROR and no retry is
    asked for. When fallback is enabled and not yet triggered, the channel
    is not SMS and the retries are used up, the row falls back: with a
    content of text alone it ends PENDING on SMS with [retry_count] 0 and
    the text for the SMS in its metadata, and one dispatch job is enqueued;
    with a rich card or suggestions [trigger_fallback] raises
    AttributeError, nothing catches it, and the rows, the statistics and
    the queue are as before the call. In every other case the row is saved
    as FAILED, [retry_count] is as it was and nothing is enqueued, retries
    left or not. *)
Theorem failed_update_on_stored_row
    (now : datetime) (external_id : string) (c e : option string)
    (w : StoredDelivery.World) (row : MessageRepo.MessageModel) :
  MessageRepo.keyed (StoredDelivery.rows w) ->
  MessageRepo.rows_with_external_id external_id (StoredDelivery.rows w)
  = [row] ->
  let eligible :=
    MessageRepo.row_fallback_enabled row
    && negb (MessageRepo.row_fallback_triggered row)
    && negb (bool_decide (MessageRepo.row_channel row = MessageChannel.SMS))
    && (MessageRepo.row_retry_count row
        >=? MessageRepo.row_max_retries row) in
  let r := StoredDelivery.handle_delivery_status_update now external_id
             "failed" c e w in
  let job := DeliveryService.dispatch_job (MessageRepo._to_domain row) in
  (eligible = true ->
   MessageRepo.plain (MessageRepo.row_content row) = false ->
   r = (Raise attribute_error, w)) /\
  (eligible = true ->
   MessageRepo.plain (MessageRepo.row_content row) = true ->
   fst r = Ok tt /\
   StoredDelivery.queue_calls (snd r)
   = (StoredDelivery.queue_calls w ++ [Enqueue job])%list /\
   StoredDelivery.stats_updates (snd r) = StoredDelivery.stats_updates w /\
   exists row',
     StoredDelivery.rows (snd r) !! MessageRepo.row_id row = Some row' /\
     MessageRepo.row_status row' = MessageStatus.PENDING /\
     MessageRepo.row_channel row' = MessageChannel.SMS /\
     MessageRepo.row_fallback_triggered row' = true /\
     MessageRepo.row_retry_count row' = 0 /\
     MessageRepo.row_failure_reason row'
     = Some FailureReason.NETWORK_ERROR /\
     MessageRepo.row_metadata_ row'
     = <["sms_text" := MessageRepo.cd_text (MessageRepo.row_content row)]>
         (<["original_channel" := "rcs"]> (MessageRepo.row_metadata_ row)))
  /\
  (eligible = false ->
   fst r = Ok tt /\
   StoredDelivery.queue_calls (snd r) = StoredDelivery.queue_calls w /\
   StoredDelivery.stats_updates (snd r) = StoredDelivery.stats_updates w /\
   exists row',
     StoredDelivery.rows (snd r) !! MessageRepo.row_id row = Some row' /\
     MessageRepo.row_status row' = MessageStatus.FAILED /\
     MessageRepo.row_channel row' = MessageRepo.row_channel row /\
     MessageRepo.row_fallback_triggered row'
     = MessageRepo.row_fallback_triggered row /\
     MessageRepo.row_retry_count row' = MessageRepo.row_retry_count row /\
     MessageRepo.row_failure_reason row'
     = Some FailureReason.NETWORK_ERROR /\
     MessageRepo.row_metadata_ row' = MessageRepo.row_metadata_ row).
Proof.
  intros Hk Hone eligible r job. subst r.
  pose proof (rows_with_external_id_one _ _ _ Hk Hone) as Hrow.
  rewrite (stored_status_update_run _ _ _ _ _ _ _ Hone).
  unfold StoredDelivery.with_uow. rewrite apply_failed_status_run.
  cbv zeta. set (m := MessageRepo._to_domain row).
  set (m1 := Message.mark_failed now FailureReason.NETWORK_ERROR c e m).
  assert (Message.should_fallback_to_sms m1 = eligible) as Hel
    by (subst m1; by rewrite should_fallback_after_network_error).
  rewrite Hel.
  assert (StoredDelivery.rows w !! Message.id m1 = Some row) as Hrow1
    by exact Hrow.
  split; [|split].
  - intros He Hplain. rewrite He.
    rewrite stored_trigger_fallback_run by (by rewrite Hel).
    change (Message.content m1)
      with (MessageRepo.loaded_content (MessageRepo.row_content row)).
    rewrite to_sms_text_loaded, Hplain. by rewrite stored_world_eta.
  - intros He Hplain. rewrite He.
    rewrite stored_trigger_fallback_run by (by rewrite Hel).
    change (Message.content m1)
      with (MessageRepo.loaded_content (MessageRepo.row_content row)).
    rewrite to_sms_text_loaded, Hplain.
    set (m3 := Message.set_metadata _ (StoredDelivery.switched_to_sms now m1)).
    destruct (stored_save_twice now m3 m3 w row Hrow1 eq_refl)
      as [Hget _].
    split; [reflexivity|]. split; [reflexivity|]. split; [reflexivity|].
    eexists. split; [exact Hget|]. by repeat split.
  - intros He. rewrite He.
    destruct (stored_save_once now m1 w row Hrow1) as [Hget _].
    split; [reflexivity|]. split; [reflexivity|]. split; [reflexivity|].
    eexists. split; [exact Hget|]. by repeat split.
Qed.

Lemma failed_update_on_stored_row_witness :
  fst (StoredDelivery.handle_delivery_status_update 2100 "ext-1" "failed"
         (Some "E1") (Some "handset off") stored_sent_world)
  = Ok tt.
Proof.
  assert (MessageRepo.rows_with_external_id "ext-1"
            (StoredDelivery.rows stored_sent_world)
          = [MessageRepo._to_model sent_message]) as Hone
    by (vm_compute; reflexivity).
  apply (proj2 (proj2 (failed_update_on_stored_row 2100 "ext-1" (Some "E1")
                         (Some "handset off") stored_sent_world
                         (MessageRepo._to_model sent_message)
                         (stored_keyed_one_row 2000 sent_message) Hone))).
  vm_compute. reflexivity.
Defined.
